(** * nasdaq_data_link: the table refresher of [src/update.py]

    A shallow embedding of the classes [Table] and [Dataset] of
    [src/update.py], and the properties of the specification proved or
    refuted on it.

    The program is imperative Python: it talks to an object store (boto3,
    awswrangler), to the data-link client ([ndl]), to the local file system
    and to a logger, it raises and catches exceptions, and it mutates a list
    that it shares with its caller.  The embedding threads a [World] (bucket
    keys, files, list objects, requests made, log) through a
    state-and-exception monad [Py].  What is not part of the repository is
    either modelled (the key listing of the store; a frame as an ordered
    list of named columns) or read from an environment record [Env] (the
    answers of the remote service and of the parquet writer, and what
    pandas makes of a column when it casts it, formats it or applies an
    attribute to it).  The theorems hold for every environment; the
    examples run on a small one.

    Layout: the embedding; the vocabulary of the properties and the concrete
    inputs; then the lemmas, with one theorem per property C1 to C10. *)

From Stdlib Require Import ZArith Lia Ascii String.
From Stdlib Require Import Floats.SpecFloat.
From stdpp Require Import base option list strings gmap pretty.

Local Open Scope string_scope.
Local Open Scope Z_scope.

(** ** Strings, the way the program uses them *)

Module PyStr.

(** [s.split(sep)] for a one-character separator: the segments between
    the separators, never an empty list. *)
Fixpoint split (sep : ascii) (s : string) : list string :=
  match s with
  | EmptyString => [EmptyString]
  | String c rest =>
      if Ascii.eqb c sep then EmptyString :: split sep rest
      else match split sep rest with
           | seg :: segs => String c seg :: segs
           | [] => [String c EmptyString]
           end
  end.

(** [s.replace(old, new)] for one-character [old] and [new]. *)
Fixpoint replace (old new : ascii) (s : string) : string :=
  match s with
  | EmptyString => EmptyString
  | String c rest =>
      String (if Ascii.eqb c old then new else c) (replace old new rest)
  end.

(** [c in s] for a character. *)
Fixpoint contains (c : ascii) (s : string) : bool :=
  match s with
  | EmptyString => false
  | String c' rest => Ascii.eqb c' c || contains c rest
  end.

(** Truth value of a string: the empty string is false. *)
Definition truthy (s : string) : bool :=
  match s with EmptyString => false | _ => true end.

Definition slash : ascii := "/"%char.
Definition dot : ascii := "."%char.

(** A string here is the UTF-8 bytes of the Python string; on ASCII text
    the two are the same. *)
Fixpoint is_ascii (s : string) : bool :=
  match s with
  | EmptyString => true
  | String c rest => (Ascii.N_of_ascii c <? 128)%N && is_ascii rest
  end.

(** [s.upper()] on ASCII text: the letters [a] to [z] become [A] to [Z].
    Python also maps the letters outside ASCII; their bytes are left as
    they are here, so [upper] is Python's on the strings that [is_ascii]
    accepts. *)
Definition upper_char (c : ascii) : ascii :=
  let n := Ascii.N_of_ascii c in
  if ((97 <=? n) && (n <=? 122))%N then Ascii.ascii_of_N (n - 32) else c.

Fixpoint upper (s : string) : string :=
  match s with
  | EmptyString => EmptyString
  | String c rest => String (upper_char c) (upper rest)
  end.

(** [s.replace(old, new)] for strings: the occurrences of [old] are
    found from the left and do not overlap.  [skip] counts the characters
    of an occurrence that are still to be passed over. *)
Fixpoint replace_go (old new : string) (skip : nat) (s : string) : string :=
  match s with
  | EmptyString => EmptyString
  | String c rest =>
      match skip with
      | S k => replace_go old new k rest
      | O =>
          if String.prefix old s
          then new +:+ replace_go old new (String.length old - 1) rest
          else String c (replace_go old new 0 rest)
      end
  end.

(** With an empty [old], [new] goes before every character and at the
    end. *)
Fixpoint interleave (new s : string) : string :=
  match s with
  | EmptyString => new
  | String c rest => new +:+ String c (interleave new rest)
  end.

Definition replace_all (old new s : string) : string :=
  match old with
  | EmptyString => interleave new s
  | _ => replace_go old new 0 s
  end.

(** [sep.join(parts)] *)
Fixpoint join (sep : string) (parts : list string) : string :=
  match parts with
  | [] => EmptyString
  | [part] => part
  | part :: rest => part +:+ sep +:+ join sep rest
  end.

End PyStr.

(** ** Exceptions and results *)

Inductive Exception : Type :=
| IndexError (msg : string)
| KeyError (key : string)
| ValueError (msg : string)
| TypeError (msg : string)
| AttributeError (msg : string)
| FileNotFoundError (path : string)
| ApiError (msg : string)       (* raised by the data-link client *)
| ClientError (msg : string).   (* raised by boto3 or awswrangler *)

(** [str(e)], as the f-strings of the log messages print it. *)
Definition str_of_exception (e : Exception) : string :=
  match e with
  | IndexError m | ValueError m | TypeError m | AttributeError m
  | ApiError m | ClientError m => m
  | KeyError k => "'" +:+ k +:+ "'"
  | FileNotFoundError p => "[Errno 2] No such file or directory: '" +:+ p +:+ "'"
  end.

Inductive Result (A : Type) : Type :=
| Ok (a : A)
| Raise (e : Exception).
Arguments Ok {A} a.
Arguments Raise {A} e.

Definition is_ok {A} (r : Result A) : bool :=
  match r with Ok _ => true | Raise _ => false end.

(** ** Frames

    What the program holds in [self._data].  A cell is a missing value
    (NaN, NaT, None), a boolean, an integer, a floating-point number, a
    string, a timestamp or some other object; a column is the list of its
    cells; a frame is an ordered list of named columns.  What pandas does
    to a column ([astype], [dt.strftime], [apply]) is not defined here: it
    is read from the environment record [Env] below. *)

Module Pandas.

(** A [Timestamp]: the calendar fields, and the time of day in
    nanoseconds. *)
Record Timestamp : Type := mkTimestamp {
  ts_year : Z;
  ts_month : Z;
  ts_day : Z;
  ts_nanos : Z
}.

Inductive value : Type :=
| VNull
| VBool (b : bool)
| VInt (z : Z)
| VFloat (x : spec_float)
| VStr (s : string)
| VTime (t : Timestamp)
| VOther (repr : string).   (* any other object, by its [repr] *)

Abbreviation Series := (list value).

(** A frame is an ordered list of named columns, without duplicates. *)
Abbreviation DataFrame := (list (string * Series)).

Global Instance Timestamp_eq_dec : EqDecision Timestamp.
Proof. solve_decision. Defined.
Global Instance spec_float_eq_dec : EqDecision spec_float.
Proof.
  intros x y. unfold Decision.
  decide equality; first [apply bool_eq_dec | apply Z.eq_dec | apply Pos.eq_dec].
Defined.
Global Instance value_eq_dec : EqDecision value.
Proof. solve_decision. Defined.

(** The type tag of a date column in a schema. *)
Definition datetime64 : string := "datetime64[ns]".

(** [df[column]] *)
Fixpoint getitem (df : DataFrame) (column : string) : Result Series :=
  match df with
  | [] => Raise (KeyError column)
  | (c, s) :: rest => if decide (c = column) then Ok s else getitem rest column
  end.

(** [df[column] = s]: an existing column is replaced where it stands, a
    new one is added at the end. *)
Fixpoint setitem (df : DataFrame) (column : string) (s : Series) : DataFrame :=
  match df with
  | [] => [(column, s)]
  | (c, s0) :: rest =>
      if decide (c = column) then (c, s) :: rest
      else (c, s0) :: setitem rest column s
  end.

Definition has_column (df : DataFrame) (column : string) : bool :=
  bool_decide (column ∈ df.*1).

(** [df.drop(column, axis=1, inplace=True)] *)
Definition drop (df : DataFrame) (column : string) : Result DataFrame :=
  if has_column df column
  then Ok (filter (λ cs, cs.1 ≠ column) df)
  else Raise (KeyError ("['" +:+ column +:+ "'] not found in axis")).

(** [len(df)]: the number of rows. *)
Definition len (df : DataFrame) : nat :=
  match df with
  | [] => 0%nat
  | (_, s) :: _ => length s
  end.

End Pandas.
Export Pandas.

(** ** The world outside the program *)

Inductive RefreshMode : Type :=
| Append                 (* 'append' *)
| Overwrite              (* 'overwrite' *)
| OverwritePartitions.   (* 'overwrite_partitions' *)

Global Instance RefreshMode_eq_dec : EqDecision RefreshMode.
Proof. solve_decision. Defined.

Definition str_of_mode (m : RefreshMode) : string :=
  match m with
  | Append => "append"
  | Overwrite => "overwrite"
  | OverwritePartitions => "overwrite_partitions"
  end.

(** The keyword arguments of [wrangler.s3.to_parquet]; the four
    that [_put_to_aws] adds for a table with an update field are
    optional. *)
Record ParquetArgs : Type := mkParquetArgs {
  pq_df : DataFrame;
  pq_path : string;
  pq_index : bool;
  pq_compression : string;
  pq_dataset : option bool;
  pq_mode : option RefreshMode;
  pq_partition_cols : option (list string);
  pq_concurrent_partitioning : option bool
}.

(** The requests that leave the program, in the order they are made. *)
Inductive Call : Type :=
| GetTable (table : string) (paginate : bool) (filters : list (string * string))
| ExportTable (table : string) (filename : string)
| ListObjects (bucket prefix : string) (max_keys : nat)
| ToParquet (args : ParquetArgs).

Inductive Level : Type := DEBUG | INFO | ERROR.

(** A Python list object lives in the heap and is named by its address:
    two names for one list see each other's changes. *)
Abbreviation loc := positive.

(** A local file is represented by what [pd.read_csv] makes of it. *)
Definition FileContent : Type := Result DataFrame.

Record World : Type := mkWorld {
  s3_keys : list string;           (* the keys of the objects in AWS_BUCKET *)
  s3_fault : option Exception;     (* [Some e]: the listing raises [e] *)
  files : gmap string FileContent; (* the working directory *)
  heap : gmap loc (list string);   (* the list objects *)
  calls : list Call;               (* requests made so far, oldest first *)
  logs : list (Level * string)     (* log calls so far, oldest first *)
}.

Definition set_s3_keys (ks : list string) (w : World) : World :=
  mkWorld ks (s3_fault w) (files w) (heap w) (calls w) (logs w).
Definition set_files (fs : gmap string FileContent) (w : World) : World :=
  mkWorld (s3_keys w) (s3_fault w) fs (heap w) (calls w) (logs w).
Definition set_heap (h : gmap loc (list string)) (w : World) : World :=
  mkWorld (s3_keys w) (s3_fault w) (files w) h (calls w) (logs w).
Definition add_call (c : Call) (w : World) : World :=
  mkWorld (s3_keys w) (s3_fault w) (files w) (heap w) (calls w ++ [c]) (logs w).
Definition add_log (l : Level) (msg : string) (w : World) : World :=
  mkWorld (s3_keys w) (s3_fault w) (files w) (heap w) (calls w) (logs w ++ [(l, msg)]).

(** What [ndl.export_table] does: it leaves the archive at the file name
    it was given, or it raises, with or without a partial file left
    behind. *)
Inductive ExportOutcome : Type :=
| Exported (content : FileContent)
| ExportFailed (e : Exception) (partial : option FileContent).

(** The module-level constants that come from the process environment,
    the answers of the collaborators, and the three operations of pandas
    on a column that the transform calls.  Nothing is assumed of any of
    them. *)
Record Env : Type := mkEnv {
  AWS_BUCKET : string;
  AWS_BUCKET_DIR : string;
  (* ndl.get_table(table, paginate=True, column=value) *)
  ndl_get_table : string → list (string * string) → Result DataFrame;
  (* ndl.export_table(table, filename=...) *)
  ndl_export_table : string → ExportOutcome;
  (* wrangler.s3.to_parquet, acting on the keys of the bucket *)
  wr_to_parquet : ParquetArgs → list string → Result () * list string;
  (* pandas: column.astype(dtype) *)
  pd_astype : string → Series → Result Series;
  (* pandas: column.dt.strftime(format) *)
  pd_strftime : string → Series → Result Series;
  (* pandas: column.apply(lambda x: x.attr), for the attribute named *)
  pd_apply_attr : string → Series → Result Series
}.

Definition AWS_COMPRESSION_TYPE : string := "gzip".

(** ** The monad: a world threaded through code that may raise *)

Definition Py (A : Type) : Type := World → Result A * World.

Definition ret {A} (a : A) : Py A := λ w, (Ok a, w).

Definition raise {A} (e : Exception) : Py A := λ w, (Raise e, w).

Definition bind {A B} (m : Py A) (k : A → Py B) : Py B :=
  λ w, match m w with
       | (Ok a, w') => k a w'
       | (Raise e, w') => (Raise e, w')
       end.

(** [try: m  except Exception as e: h e] *)
Definition try_except {A} (m : Py A) (h : Exception → Py A) : Py A :=
  λ w, match m w with
       | (Ok a, w') => (Ok a, w')
       | (Raise e, w') => h e w'
       end.

(** [try: m  finally: f].  The [finally] block runs on both exits; an
    exception of its own replaces the outcome of [m]. *)
Definition try_finally {A} (m : Py A) (f : Py ()) : Py A :=
  λ w, match m w with
       | (r, w') =>
           match f w' with
           | (Ok _, w'') => (r, w'')
           | (Raise e, w'') => (Raise e, w'')
           end
       end.

Definition lift {A} (r : Result A) : Py A := λ w, (r, w).

Definition modify (f : World → World) : Py () := λ w, (Ok (), f w).

Definition gets {A} (f : World → A) : Py A := λ w, (Ok (f w), w).

Declare Scope py_scope.
Delimit Scope py_scope with py.
Notation "x <- m ;; k" := (bind m (λ x, k))
  (at level 100, m at next level, right associativity) : py_scope.
Notation "m ;;; k" := (bind m (λ _, k))
  (at level 100, right associativity) : py_scope.
Local Open Scope py_scope.

(** *** The logger, the heap, the file system *)

Definition logger (l : Level) (msg : string) : Py () := modify (add_log l msg).

(** Reading the list behind an address. *)
Definition deref (l : loc) : Py (list string) :=
  λ w, match heap w !! l with
       | Some xs => (Ok xs, w)
       | None => (Raise (AttributeError "no such object"), w)
       end.

(** A new list object. *)
Definition alloc (xs : list string) : Py loc :=
  λ w, let l := fresh (dom (heap w)) in (Ok l, set_heap (<[l := xs]> (heap w)) w).

(** [xs.remove(x)]: the first occurrence goes; [ValueError] without
    one. *)
Fixpoint remove_first (x : string) (xs : list string) : option (list string) :=
  match xs with
  | [] => None
  | y :: ys => if decide (y = x) then Some ys else (y ::.) <$> remove_first x ys
  end.

Definition list_remove (l : loc) (x : string) : Py () :=
  xs <- deref l ;;
  match remove_first x xs with
  | Some xs' => modify (λ w, set_heap (<[l := xs']> (heap w)) w)
  | None => raise (ValueError "list.remove(x): x not in list")
  end.

(** [os.path.exists] and [os.remove] *)
Definition os_path_exists (path : string) : Py bool :=
  gets (λ w, bool_decide (is_Some (files w !! path))).

Definition os_remove (path : string) : Py () :=
  λ w, match files w !! path with
       | Some _ => (Ok (), set_files (delete path (files w)) w)
       | None => (Raise (FileNotFoundError path), w)
       end.

(** [pd.read_csv(path)] *)
Definition pd_read_csv (path : string) : Py DataFrame :=
  λ w, match files w !! path with
       | Some content => (content, w)
       | None => (Raise (FileNotFoundError path), w)
       end.

(** *** The object store *)

(** The answer of [list_objects]: the key ['Contents'] is there only
    when at least one object matched. *)
Record ListResponse : Type := mkListResponse {
  Contents : option (list string)
}.

Definition has_Contents (r : ListResponse) : bool :=
  bool_decide (is_Some (Contents r)).

(** [s3_client.list_objects(Bucket=..., Prefix=..., MaxKeys=...)] *)
Definition s3_list_objects (bucket prefix : string) (max_keys : nat) : Py ListResponse :=
  modify (add_call (ListObjects bucket prefix max_keys)) ;;;
  fault <- gets s3_fault ;;
  match fault with
  | Some e => raise e
  | None =>
      keys <- gets s3_keys ;;
      match take max_keys (filter (λ k, String.prefix prefix k = true) keys) with
      | [] => ret (mkListResponse None)
      | found => ret (mkListResponse (Some found))
      end
  end.

(** ** [class Table] *)

Module Table.

(** The object: the four dataclass fields, and the three attributes that
    the methods set.  [partition_cols] is the address of the list the
    caller passed in. *)
Record t : Type := mkTable {
  name : string;
  update_field : string;
  partition_cols : loc;
  schema : list (string * string);   (* column and type tag, in dict order *)
  _s3_key : string;
  _refresh_mode : RefreshMode;
  _data : option DataFrame           (* unset until the fetch *)
}.

Definition set_data (self : t) (df : DataFrame) : t :=
  mkTable (name self) (update_field self) (partition_cols self) (schema self)
    (_s3_key self) (_refresh_mode self) (Some df).

Definition set_partition_cols (self : t) (l : loc) : t :=
  mkTable (name self) (update_field self) l (schema self)
    (_s3_key self) (_refresh_mode self) (_data self).

(** The properties [s3_key] and [refresh_mode] *)
Definition s3_key (self : t) : string := _s3_key self.
Definition refresh_mode (self : t) : RefreshMode := _refresh_mode self.

(** [self._data], which is an attribute error before the fetch. *)
Definition data_of (self : t) : Py DataFrame :=
  match _data self with
  | Some df => ret df
  | None => raise (AttributeError "'Table' object has no attribute '_data'")
  end.

Section WithEnv.
Context (env : Env).

(** The f-string of lines 30-31: the directory and the name, and for a
    table without update field the second segment of the name and
    [.parquet]. *)
Definition derive_s3_key (name update_field : string) : Result string :=
  if negb (PyStr.truthy update_field) then
    match PyStr.split PyStr.slash name !! 1%nat with
    | Some segment =>
        Ok (AWS_BUCKET_DIR env +:+ "/" +:+ name +:+ "/" +:+ segment +:+ ".parquet")
    | None => Raise (IndexError "list index out of range")
    end
  else Ok (AWS_BUCKET_DIR env +:+ "/" +:+ name +:+ "").

(** The dataclass constructor followed by [__post_init__]. *)
Definition __post_init__ (name update_field : string) (partition_cols : loc)
    (schema : list (string * string)) : Py t :=
  key <- lift (derive_s3_key name update_field) ;;
  let self := mkTable name update_field partition_cols schema key in
  if PyStr.truthy update_field then
    logger DEBUG ("Found update field `" +:+ update_field +:+ "` for " +:+ name
                  +:+ "; checking for S3 object...") ;;;
    try_except
      (response <- s3_list_objects (AWS_BUCKET env) key 1 ;;
       if has_Contents response then
         logger DEBUG ("S3 resource check passed for " +:+ name
                       +:+ "; using `append` mode.") ;;;
         ret (self OverwritePartitions None)
       else
         logger DEBUG ("S3 resource check failed for " +:+ name
                       +:+ "; re-creating table.") ;;;
         ret (self Overwrite None))
      (λ e, raise e)
  else
    logger DEBUG ("No update field provided for " +:+ name
                  +:+ "; using `overwrite` mode.") ;;;
    ret (self Overwrite None).

(** [ndl.get_table(table, paginate=True, **kwargs)]: a filter that is
    itself called [paginate] is a second value for that keyword. *)
Definition get_table (table : string) (kwargs : list (string * string)) : Py DataFrame :=
  if bool_decide ("paginate" ∈ kwargs.*1) then
    raise (TypeError "get_table() got multiple values for keyword argument 'paginate'")
  else
    modify (add_call (GetTable table true kwargs)) ;;;
    lift (ndl_get_table env table kwargs).

(** [ndl.export_table(table, filename=file_name)] *)
Definition export_table (table file_name : string) : Py () :=
  modify (add_call (ExportTable table file_name)) ;;;
  match ndl_export_table env table with
  | Exported content =>
      modify (λ w, set_files (<[file_name := content]> (files w)) w)
  | ExportFailed e partial =>
      match partial with
      | Some content => modify (λ w, set_files (<[file_name := content]> (files w)) w)
      | None => ret ()
      end ;;;
      raise e
  end.

Definition zip_name (self : t) : string :=
  PyStr.replace PyStr.slash PyStr.dot (name self) +:+ ".zip".

Definition _get_ndl_data (self : t) (_date : string) : Py t :=
  self <- (if bool_decide (refresh_mode self ∈ [Append; OverwritePartitions]) then
             (* Get only update_key=date rows. *)
             logger INFO ("Downloading new rows for: " +:+ name self +:+ " ...") ;;;
             try_except
               (data <- get_table (name self) [(update_field self, _date)] ;;
                ret (set_data self data))
               (λ e, logger ERROR ("Failed to get new rows for " +:+ name self +:+ ": "
                                   +:+ str_of_exception e) ;;;
                     raise e)
           else
             (* Download the zip extract. *)
             let file_name := zip_name self in
             logger INFO ("Downloading table extract: " +:+ name self +:+ " ...") ;;;
             try_finally
               (try_except
                  (export_table (name self) file_name ;;;
                   data <- pd_read_csv file_name ;;
                   ret (set_data self data))
                  (λ e, logger ERROR ("Failed to get new data for " +:+ name self +:+ ": "
                                      +:+ str_of_exception e) ;;;
                        raise e))
               (there <- os_path_exists file_name ;;
                if there then os_remove file_name else ret ())) ;;
  data <- data_of self ;;
  logger INFO ("Fetched " +:+ pretty (len data) +:+ " rows: " +:+ name self +:+ ".") ;;;
  ret self.

(** The four assignments, the drop and the two statements on
    [partition_cols] of lines 78-84. *)
Definition decompose (self : t) (column dtype : string) : Py t :=
  df <- data_of self ;;
  col <- lift (getitem df column) ;;
  col <- lift (pd_astype env dtype col) ;;
  let df := setitem df column col in
  col <- lift (getitem df column) ;;
  yyyy <- lift (pd_apply_attr env "year" col) ;;
  let df := setitem df "yyyy" yyyy in
  col <- lift (getitem df column) ;;
  mm <- lift (pd_apply_attr env "month" col) ;;
  let df := setitem df "mm" mm in
  col <- lift (getitem df column) ;;
  dd <- lift (pd_apply_attr env "day" col) ;;
  let df := setitem df "dd" dd in
  df <- lift (drop df column) ;;
  list_remove (partition_cols self) column ;;;
  fresh_list <- alloc ["yyyy"; "mm"; "dd"] ;;
  ret (set_partition_cols (set_data self df) fresh_list).

(** One turn of the loop of [_apply_transforms]. *)
Definition transform_column (self : t) (column dtype : string) : Py t :=
  pcs <- deref (partition_cols self) ;;
  if bool_decide (pcs ≠ []) then
    if bool_decide (column ∈ pcs) && bool_decide (dtype = datetime64) then
      decompose self column dtype
    else ret self
  else if bool_decide (dtype = datetime64) then
    df <- data_of self ;;
    col <- lift (getitem df column) ;;
    col <- lift (pd_astype env dtype col) ;;
    col <- lift (pd_strftime env "%Y-%m-%d" col) ;;
    ret (set_data self (setitem df column col))
  else
    logger DEBUG ("Cast: " +:+ column +:+ " to " +:+ dtype) ;;;
    df <- data_of self ;;
    col <- lift (getitem df column) ;;
    col <- lift (pd_astype env dtype col) ;;
    ret (set_data self (setitem df column col)).

Fixpoint transform_items (items : list (string * string)) (self : t) : Py t :=
  match items with
  | [] => ret self
  | (column, dtype) :: rest =>
      self <- transform_column self column dtype ;;
      transform_items rest self
  end.

Definition _apply_transforms (self : t) : Py t :=
  transform_items (schema self) self.

(** [wrangler.s3.to_parquet] with the keyword arguments [kwargs] *)
Definition to_parquet (kwargs : ParquetArgs) : Py () :=
  modify (add_call (ToParquet kwargs)) ;;;
  λ w, let '(r, keys) := wr_to_parquet env kwargs (s3_keys w) in
       (r, set_s3_keys keys w).

Definition _put_to_aws (self : t) : Py () :=
  df <- data_of self ;;
  let path := "s3://" +:+ AWS_BUCKET env +:+ "/" +:+ s3_key self in
  kwargs <- (if PyStr.truthy (update_field self) then
               (* Use the dataset option and 'append' mode for time series data. *)
               pcs <- deref (partition_cols self) ;;
               ret (mkParquetArgs df path false AWS_COMPRESSION_TYPE
                      (Some true) (Some (refresh_mode self)) (Some pcs) (Some true))
             else
               ret (mkParquetArgs df path false AWS_COMPRESSION_TYPE
                      None None None None)) ;;
  logger INFO ("Uploading " +:+ name self +:+ "...") ;;;
  try_except
    (to_parquet kwargs ;;;
     logger INFO ("Finished updating " +:+ name self +:+ "."))
    (λ e, logger ERROR ("Upload failed for " +:+ name self +:+ "; "
                        +:+ str_of_exception e) ;;;
          raise e).

(** [refresh] returns nothing in the source; here it hands back the
    object as the three steps left it. *)
Definition refresh (self : t) (date : string) : Py t :=
  self <- _get_ndl_data self date ;;
  self <- _apply_transforms self ;;
  _put_to_aws self ;;;
  ret self.

End WithEnv.
End Table.

(** ** [class Dataset] *)

Module Dataset.

(** The value of one table in the specification file. *)
Record Metadata : Type := mkMetadata {
  update_field : string;
  partition_cols : loc;
  schema : list (string * string)
}.

(** The dict, in the order of the file, and the name of the data set. *)
Record t : Type := mkDataset {
  dataset_name : string;
  items : list (string * Metadata)
}.

(** Line 153: the path without [.yaml], in upper case, and of that the
    part after the last ['/'] (what [split('/').pop()] returns). *)
Definition derive_dataset_name (file_path : string) : string :=
  List.last (PyStr.split PyStr.slash (PyStr.upper (PyStr.replace_all ".yaml" "" file_path)))
    EmptyString.

(** [__init__].  [loaded] is what opening the file and
    [yaml.safe_load] gave: the tables in the order of the file, or the
    exception of either. *)
Definition __init__ (file_path : string) (loaded : Result (list (string * Metadata)))
    : Py t :=
  tables <- lift loaded ;;
  logger INFO ("Loaded " +:+ pretty (length tables) +:+ " tables: "
               +:+ PyStr.join ", " tables.*1 +:+ ".") ;;;
  let dataset_name := derive_dataset_name file_path in
  logger INFO ("Dataset name: " +:+ dataset_name +:+ ".") ;;;
  ret (mkDataset dataset_name tables).

Section WithEnv.
Context (env : Env).

(** The body of the [try] of [update_tables]. *)
Definition update_one (self : t) (as_of_date table_name : string)
    (metadata : Metadata) : Py () :=
  table <- Table.__post_init__ env (dataset_name self +:+ "/" +:+ table_name)
             (update_field metadata) (partition_cols metadata) (schema metadata) ;;
  Table.refresh env table as_of_date ;;;
  ret ().

(** One turn of the loop: the [try] and its [except Exception]. *)
Definition update_guarded (self : t) (as_of_date table_name : string)
    (metadata : Metadata) : Py () :=
  try_except
    (update_one self as_of_date table_name metadata)
    (λ e, logger ERROR ("Failed to refresh " +:+ dataset_name self +:+ "/"
                        +:+ table_name +:+ ": " +:+ str_of_exception e)).

Fixpoint update_items (self : t) (as_of_date : string)
    (todo : list (string * Metadata)) : Py () :=
  match todo with
  | [] => ret ()
  | (table_name, metadata) :: rest =>
      update_guarded self as_of_date table_name metadata ;;;
      update_items self as_of_date rest
  end.

Definition update_tables (self : t) (as_of_date : string) : Py () :=
  update_items self as_of_date (items self).

End WithEnv.
End Dataset.

(** * The vocabulary of the properties *)

(** Two states of a table object that agree on the fields given to the
    constructor, list apart, and on the two derived attributes. *)
Record same_spec (a b : Table.t) : Prop := {
  ss_name : Table.name b = Table.name a;
  ss_update_field : Table.update_field b = Table.update_field a;
  ss_schema : Table.schema b = Table.schema a;
  ss_s3_key : Table.s3_key b = Table.s3_key a;
  ss_refresh_mode : Table.refresh_mode b = Table.refresh_mode a
}.

(** Some object of the bucket has a key that starts with [prefix]. *)
Definition object_under (w : World) (prefix : string) : bool :=
  existsb (String.prefix prefix) (s3_keys w).

Definition is_get_table (c : Call) : bool :=
  match c with GetTable _ _ _ => true | _ => false end.

(** [frame R m]: whatever [m] does and however it ends, the world it
    leaves is [R]-related to the one it started in. *)
Definition frame {A} (R : relation World) (m : Py A) : Prop :=
  ∀ w, R w (m w).2.

Definition same_files : relation World := λ w w', files w' = files w.
Definition same_heap : relation World := λ w w', heap w' = heap w.

(** Worlds that differ in the log only. *)
Record same_but_logs (w w' : World) : Prop := {
  sbl_keys : s3_keys w' = s3_keys w;
  sbl_fault : s3_fault w' = s3_fault w;
  sbl_files : files w' = files w;
  sbl_heap : heap w' = heap w;
  sbl_calls : calls w' = calls w
}.

(** What lines 85-89 do to one column. *)
Definition plain_cast (env : Env) (dtype : string) (col : Series) : Result Series :=
  if decide (dtype = datetime64) then
    match pd_astype env dtype col with
    | Ok stamps => pd_strftime env "%Y-%m-%d" stamps
    | Raise e => Raise e
    end
  else pd_astype env dtype col.

(** The loop over the schema, on the frame alone. *)
Fixpoint cast_all (env : Env) (items : list (string * string)) (df : DataFrame)
    : Result DataFrame :=
  match items with
  | [] => Ok df
  | (column, dtype) :: rest =>
      match getitem df column with
      | Raise e => Raise e
      | Ok col =>
          match plain_cast env dtype col with
          | Raise e => Raise e
          | Ok col' => cast_all env rest (setitem df column col')
          end
      end
  end.

Definition ymd : list string := ["yyyy"; "mm"; "dd"].

(** The test of line 77. *)
Definition qualifies (pcs : list string) (column dtype : string) : bool :=
  bool_decide (column ∈ pcs) && bool_decide (dtype = datetime64).

(** The frame that lines 78-82 leave, from the frame and the four series
    assigned. *)
Definition decomposed (df : DataFrame) (column : string) (stamps yyyy mm dd : Series)
    : DataFrame :=
  filter (λ cs, cs.1 ≠ column)
    (setitem (setitem (setitem (setitem df column stamps) "yyyy" yyyy) "mm" mm) "dd" dd).

(** The heap that lines 83-84 leave. *)
Definition repartitioned (h : gmap loc (list string)) (l : loc) (pcs' : list string)
    : loc * gmap loc (list string) :=
  let h1 := <[l := pcs']> h in
  (fresh (dom h1), <[fresh (dom h1) := ymd]> h1).

(** Worlds that differ in the list objects and in the log only. *)
Record same_outside (w w' : World) : Prop := {
  so_keys : s3_keys w' = s3_keys w;
  so_fault : s3_fault w' = s3_fault w;
  so_files : files w' = files w;
  so_calls : calls w' = calls w
}.

(** The keyword arguments that lines 92-105 put together, from the frame
    and the partition list as the table holds them. *)
Definition write_args (env : Env) (self : Table.t) (df : DataFrame) (pcs : list string)
    : ParquetArgs :=
  let on := PyStr.truthy (Table.update_field self) in
  mkParquetArgs df ("s3://" +:+ AWS_BUCKET env +:+ "/" +:+ Table.s3_key self)
    false AWS_COMPRESSION_TYPE
    (if on then Some true else None)
    (if on then Some (Table.refresh_mode self) else None)
    (if on then Some pcs else None)
    (if on then Some true else None).

(** No file of the second world is new. *)
Definition no_new_file : relation World := λ w w', files w' ⊆ files w.

(** The second world has the requests of the first, and after them at
    most [n] more. *)
Definition at_most_requests (n : nat) (w w' : World) : Prop :=
  ∃ new, calls w' = (calls w ++ new)%list ∧ (length new ≤ n)%nat.

(** The archive that the export of the table [table_name] of a data set
    is written to. *)
Definition archive_of (ds : Dataset.t) (table_name : string) : string :=
  PyStr.replace PyStr.slash PyStr.dot (Dataset.dataset_name ds +:+ "/" +:+ table_name)
  +:+ ".zip".

(** ** Concrete inputs *)

Module Sample.

(** *** A stand-in for pandas

    The examples need column operations to run against.  These know the
    cells that the examples hold: dates written [YYYY-MM-DD] in the years
    1678 to 2261, timestamps on such dates, integers written as digits
    with an optional sign, booleans, strings and missing values; the type
    tags
    [datetime64[ns]], [int64], [string] and [object]; the format
    [%Y-%m-%d]; and the attributes [year], [month] and [day].  On those
    they return what pandas returns.  Any other cell, tag, format or
    attribute they refuse with an exception, where pandas may well return.
    The theorems are stated for every environment; only the examples run
    on this one. *)

Definition is_leap (y : Z) : bool :=
  ((y mod 4 =? 0) && negb (y mod 100 =? 0)) || (y mod 400 =? 0).

Definition days_in_month (y m : Z) : Z :=
  if m =? 2 then (if is_leap y then 29 else 28)
  else if (m =? 4) || (m =? 6) || (m =? 9) || (m =? 11) then 30
  else 31.

(** A day of the calendar, in a year that the stand-in reads. *)
Definition valid_date (y m d : Z) : bool :=
  (1678 <=? y) && (y <=? 2261)
  && (1 <=? m) && (m <=? 12)
  && (1 <=? d) && (d <=? days_in_month y m).

Definition char_of_digit (d : Z) : ascii :=
  Ascii.ascii_of_N (48 + Z.to_N d).

Definition digit_of_char (c : ascii) : option Z :=
  let n := Z.of_N (Ascii.N_of_ascii c) in
  if (48 <=? n) && (n <=? 57) then Some (n - 48) else None.

Definition pad2 (n : Z) : string :=
  String (char_of_digit (n / 10 mod 10))
    (String (char_of_digit (n mod 10)) EmptyString).

Definition pad4 (n : Z) : string :=
  String (char_of_digit (n / 1000 mod 10))
    (String (char_of_digit (n / 100 mod 10)) (pad2 n)).

(** A string of decimal digits, read as a number. *)
Fixpoint digits_value (acc : Z) (s : string) : option Z :=
  match s with
  | EmptyString => Some acc
  | String c rest =>
      match digit_of_char c with
      | Some d => digits_value (10 * acc + d) rest
      | None => None
      end
  end.

(** A non-empty string of digits with an optional sign. *)
Definition parse_int (s : string) : option Z :=
  match s with
  | EmptyString => None
  | String c rest =>
      if Ascii.eqb c "-"%char || Ascii.eqb c "+"%char then
        match rest with
        | EmptyString => None
        | _ => (if Ascii.eqb c "-"%char then Z.opp else id) <$> digits_value 0 rest
        end
      else digits_value 0 s
  end.

Definition strftime_Ymd (t : Timestamp) : string :=
  pad4 (ts_year t) +:+ "-" +:+ pad2 (ts_month t) +:+ "-" +:+ pad2 (ts_day t).

(** The date strings the stand-in reads: [YYYY-MM-DD]. *)
Definition parse_iso_date (s : string) : option Timestamp :=
  match s with
  | String y1 (String y2 (String y3 (String y4 (String h1
      (String m1 (String m2 (String h2
        (String d1 (String d2 EmptyString))))))))) =>
      if Ascii.eqb h1 "-"%char && Ascii.eqb h2 "-"%char then
        y ← digits_value 0 (String y1 (String y2 (String y3 (String y4 EmptyString))));
        m ← digits_value 0 (String m1 (String m2 EmptyString));
        d ← digits_value 0 (String d1 (String d2 EmptyString));
        if valid_date y m d then Some (mkTimestamp y m d 0) else None
      else None
  | _ => None
  end.

Definition outside (what : string) : Exception :=
  TypeError ("outside the stand-in: " +:+ what).

Definition to_datetime (v : value) : Result value :=
  match v with
  | VNull => Ok VNull
  | VTime t => Ok (VTime t)
  | VStr s =>
      match parse_iso_date s with
      | Some t => Ok (VTime t)
      | None => Raise (ValueError ("Unknown datetime string format, unable to parse: " +:+ s))
      end
  | _ => Raise (outside "cast to datetime64[ns]")
  end.

Definition int64_min : Z := - 2 ^ 63.
Definition int64_max : Z := 2 ^ 63 - 1.

Definition to_int64 (v : value) : Result value :=
  match v with
  | VNull => Raise (ValueError "Cannot convert non-finite values (NA or inf) to integer")
  | VBool b => Ok (VInt (if b then 1 else 0))
  | VInt n =>
      if (int64_min <=? n) && (n <=? int64_max) then Ok (VInt n)
      else Raise (ValueError "Python int too large to convert to C long")
  | VStr s =>
      match parse_int s with
      | Some n =>
          if (int64_min <=? n) && (n <=? int64_max) then Ok (VInt n)
          else Raise (ValueError "Python int too large to convert to C long")
      | None => Raise (ValueError ("invalid literal for int() with base 10: '" +:+ s +:+ "'"))
      end
  | _ => Raise (outside "cast to int64")
  end.

Definition to_string (v : value) : Result value :=
  match v with
  | VNull => Ok VNull
  | VInt n => Ok (VStr (pretty n))
  | VStr s => Ok (VStr s)
  | _ => Raise (outside "cast to string")
  end.

(** [f] applied to every cell; the first exception aborts. *)
Fixpoint map_cells (f : value → Result value) (s : Series) : Result Series :=
  match s with
  | [] => Ok []
  | v :: rest =>
      match f v with
      | Raise e => Raise e
      | Ok v' =>
          match map_cells f rest with
          | Raise e => Raise e
          | Ok rest' => Ok (v' :: rest')
          end
      end
  end.

Definition astype (dtype : string) (s : Series) : Result Series :=
  if decide (dtype = datetime64) then map_cells to_datetime s
  else if decide (dtype = "int64") then map_cells to_int64 s
  else if decide (dtype = "string") then map_cells to_string s
  else if decide (dtype = "object") then Ok s
  else Raise (outside ("type tag " +:+ dtype)).

(** The accessor wants timestamps; a missing value stays missing. *)
Definition strftime_cell (v : value) : Result value :=
  match v with
  | VTime t => Ok (VStr (strftime_Ymd t))
  | VNull => Ok VNull
  | _ => Raise (AttributeError "Can only use .dt accessor with datetimelike values")
  end.

Definition strftime (format : string) (s : Series) : Result Series :=
  if decide (format = "%Y-%m-%d") then map_cells strftime_cell s
  else Raise (outside ("format " +:+ format)).

Definition float_of_Z (n : Z) : spec_float := binary_normalize 53 1024 n 0 false.

(** The attribute of each timestamp.  The numbers are integers; when a
    cell is missing its attribute is NaN, and the numbers of the column
    are floating-point. *)
Definition attr_cell (proj : Timestamp → Z) (number : Z → value) (v : value)
    : Result value :=
  match v with
  | VTime t => Ok (number (proj t))
  | VNull => Ok VNull
  | _ => Raise (outside "attribute of a cell that is no timestamp")
  end.

Definition apply_attr (attr : string) (s : Series) : Result Series :=
  let number := if bool_decide (VNull ∈ s) then (λ n, VFloat (float_of_Z n)) else VInt in
  if decide (attr = "year") then map_cells (attr_cell ts_year number) s
  else if decide (attr = "month") then map_cells (attr_cell ts_month number) s
  else if decide (attr = "day") then map_cells (attr_cell ts_day number) s
  else Raise (outside ("attribute " +:+ attr)).

(** *** The service, the tables and the worlds *)

(** Two rows as a bulk export delivers them: every cell a string. *)
Definition rows : DataFrame :=
  [("date", [VStr "2024-03-01"; VStr "2024-03-02"]);
   ("price", [VStr "12"; VStr "13"])].

Definition to_parquet_ok (args : ParquetArgs) (keys : list string)
    : Result () * list string :=
  (Ok (), (keys ++ [pq_path args])%list).

Definition env : Env :=
  mkEnv "bucket" "nasdaq" (λ _ _, Ok rows) (λ _, Exported (Ok rows)) to_parquet_ok
    astype strftime apply_attr.

(** A service whose export of [DS/B] breaks off, leaving half a file. *)
Definition env_B_down : Env :=
  mkEnv "bucket" "nasdaq" (λ _ _, Ok rows)
    (λ table, if decide (table = "DS/B")
              then ExportFailed (ApiError "503") (Some (Raise (ValueError "truncated")))
              else Exported (Ok rows))
    to_parquet_ok astype strftime apply_attr.

Definition schema : list (string * string) :=
  [("date", datetime64); ("price", "int64")].

(** The list [["date"]] at address 1, the empty list at address 2, and
    an empty bucket. *)
Definition world : World :=
  mkWorld [] None ∅ (<[1%positive := ["date"]]> (<[2%positive := []]> ∅)) [] [].

(** The same with one object under [nasdaq/DS/T1]. *)
Definition world_second_run : World :=
  set_s3_keys ["nasdaq/DS/T1/yyyy=2024/mm=3/dd=1/part0.parquet"] world.

(** The table [DS/T1] after a fetch: the cells are still strings. *)
Definition fetched : Table.t :=
  Table.mkTable "DS/T1" "updated_at" 1%positive schema "nasdaq/DS/T1"
    Overwrite (Some rows).

(** The same table with [partition_cols] at the empty list. *)
Definition fetched_plain : Table.t :=
  Table.mkTable "DS/T1" "updated_at" 2%positive schema "nasdaq/DS/T1"
    Overwrite (Some rows).

(** A table partitioned by [region], with a column of timestamps. *)
Definition by_region : Table.t :=
  Table.mkTable "DS/T3" "updated_at" 1%positive
    [("region", "string"); ("seen", datetime64)] "nasdaq/DS/T3" OverwritePartitions
    (Some [("region", [VStr "EU"]); ("seen", [VTime (mkTimestamp 2024 3 1 0)])]).

Definition world_by_region : World :=
  mkWorld [] None ∅ (<[1%positive := ["region"]]> ∅) [] [].

(** A table without partition columns, with a timestamp in the afternoon
    of March 1 2024 and a missing value. *)
Definition stamped : Table.t :=
  Table.mkTable "DS/T6" "" 2%positive [("seen", datetime64)] "nasdaq/DS/T6/T6.parquet"
    Overwrite (Some [("seen", [VTime (mkTimestamp 2024 3 1 45296000000000); VNull])]).

(** The table [DS/T2] as constructed: no update field, and the empty
    partition list at address 2. *)
Definition plain : Table.t :=
  Table.mkTable "DS/T2" "" 2%positive schema "nasdaq/DS/T2/T2.parquet"
    Overwrite None.

(** A table partitioned by two date columns, and one partitioned by a
    date column that is itself called [dd]. *)
Definition two_dates : Table.t :=
  Table.mkTable "DS/T4" "updated_at" 1%positive
    [("opened", datetime64); ("closed", datetime64)] "nasdaq/DS/T4" Overwrite
    (Some [("opened", [VStr "2024-03-01"]); ("closed", [VStr "2024-04-02"])]).

Definition world_two_dates : World :=
  mkWorld [] None ∅ (<[1%positive := ["opened"; "closed"]]> ∅) [] [].

Definition named_dd : Table.t :=
  Table.mkTable "DS/T5" "updated_at" 1%positive
    [("dd", datetime64)] "nasdaq/DS/T5" Overwrite
    (Some [("dd", [VStr "2024-03-01"])]).

Definition world_named_dd : World :=
  mkWorld [] None ∅ (<[1%positive := ["dd"]]> ∅) [] [].

Definition plain_table : Dataset.Metadata :=
  Dataset.mkMetadata "" 2%positive schema.

(** Three tables; the service cannot export the second. *)
Definition abc : Dataset.t :=
  Dataset.mkDataset "DS" [("A", plain_table); ("B", plain_table); ("C", plain_table)].

Definition is_error (entry : Level * string) : bool :=
  match entry.1 with ERROR => true | _ => false end.

(** A writer that always fails, leaving the bucket as it is. *)
Definition env_no_write : Env :=
  mkEnv "bucket" "nasdaq" (λ _ _, Ok rows) (λ _, Exported (Ok rows))
    (λ _ keys, (Raise (ClientError "AccessDenied"), keys))
    astype strftime apply_attr.

(** A bucket that cannot be listed. *)
Definition world_no_listing : World :=
  mkWorld [] (Some (ClientError "AccessDenied")) ∅
    (<[1%positive := ["date"]]> (<[2%positive := []]> ∅)) [] [].

(** Objects of the table [DS/T10] only. *)
Definition world_sibling : World :=
  set_s3_keys ["nasdaq/DS/T10/yyyy=2024/mm=3/dd=1/part0.parquet"] world.

End Sample.

(** * Properties *)

(** ** The embedding on small inputs *)

Example split_qualified : PyStr.split PyStr.slash "DS/T1" = ["DS"; "T1"].
Proof. reflexivity. Qed.

Example split_unqualified : PyStr.split PyStr.slash "test_table" = ["test_table"].
Proof. reflexivity. Qed.

Example split_empty_segments : PyStr.split PyStr.slash "a//b/" = ["a"; ""; "b"; ""].
Proof. reflexivity. Qed.

Example zip_name_plain : Table.zip_name Sample.plain = "DS.T2.zip".
Proof. reflexivity. Qed.

Example remove_first_once : remove_first "b" ["a"; "b"; "c"; "b"] = Some ["a"; "c"; "b"].
Proof. reflexivity. Qed.

(** The stand-in for pandas on a few columns. *)
Example astype_datetime_iso :
  Sample.astype datetime64 [VStr "2024-03-01"; VNull]
  = Ok [VTime (mkTimestamp 2024 3 1 0); VNull].
Proof. reflexivity. Qed.

Example astype_datetime_no_such_day :
  is_ok (Sample.astype datetime64 [VStr "2023-02-29"]) = false.
Proof. reflexivity. Qed.

Example strftime_drops_time_of_day :
  Sample.strftime "%Y-%m-%d" [VTime (mkTimestamp 1999 12 31 86399999999999)]
  = Ok [VStr "1999-12-31"].
Proof. reflexivity. Qed.

Example astype_int64_strings :
  Sample.astype "int64" [VStr "12"; VStr "-3"; VStr "+7"] = Ok [VInt 12; VInt (-3); VInt 7].
Proof. reflexivity. Qed.

Example astype_int64_missing : is_ok (Sample.astype "int64" [VStr "12"; VNull]) = false.
Proof. reflexivity. Qed.

Example year_of_timestamps :
  Sample.apply_attr "year" [VTime (mkTimestamp 2024 3 1 0); VTime (mkTimestamp 2025 1 2 0)]
  = Ok [VInt 2024; VInt 2025].
Proof. reflexivity. Qed.

Example year_beside_missing_is_float :
  Sample.apply_attr "year" [VTime (mkTimestamp 2024 3 1 0); VNull]
  = Ok [VFloat (Sample.float_of_Z 2024); VNull].
Proof. reflexivity. Qed.

Example setitem_keeps_place :
  setitem Sample.rows "date" [] = [("date", []); ("price", [VStr "12"; VStr "13"])].
Proof. reflexivity. Qed.

Example setitem_appends :
  (setitem Sample.rows "yyyy" []).*1 = ["date"; "price"; "yyyy"].
Proof. reflexivity. Qed.

(** The first refresh of [DS/T1], from the constructor on: the requests
    made, in order. *)
Example first_refresh_requests :
  calls (bind (Table.__post_init__ Sample.env "DS/T1" "updated_at" 1%positive
                 Sample.schema)
           (λ table, Table.refresh Sample.env table "2024-03-01") Sample.world).2
  = [ListObjects "bucket" "nasdaq/DS/T1" 1;
     ExportTable "DS/T1" "DS.T1.zip";
     ToParquet
       (mkParquetArgs
          [("price", [VStr "12"; VStr "13"]); ("yyyy", [VInt 2024; VInt 2024]);
           ("mm", [VInt 3; VInt 3]); ("dd", [VInt 1; VInt 2])]
          "s3://bucket/nasdaq/DS/T1" false "gzip"
          (Some true) (Some Overwrite) (Some ["yyyy"; "mm"; "dd"]) (Some true))].
Proof. vm_compute. reflexivity. Qed.

(** ** Reasoning about [Py] *)

Section PyFacts.
Context {A B : Type}.

Lemma bind_ok (m : Py A) (k : A → Py B) w b w' :
  bind m k w = (Ok b, w') ↔ ∃ a w1, m w = (Ok a, w1) ∧ k a w1 = (Ok b, w').
Proof.
  unfold bind. split.
  - destruct (m w) as [[a|e] w1]; [eauto | discriminate].
  - intros (a & w1 & -> & Hk). exact Hk.
Qed.

Lemma bind_run (m : Py A) (k : A → Py B) w a w1 :
  m w = (Ok a, w1) → bind m k w = k a w1.
Proof. unfold bind. intros ->. reflexivity. Qed.

Lemma bind_raise (m : Py A) (k : A → Py B) w e w1 :
  m w = (Raise e, w1) → bind m k w = (Raise e, w1).
Proof. unfold bind. intros ->. reflexivity. Qed.

Lemma lift_ok (r : Result A) w a w' :
  lift r w = (Ok a, w') ↔ r = Ok a ∧ w' = w.
Proof. unfold lift. split; [intros [= -> ->] | intros [-> ->]]; done. Qed.

End PyFacts.

Lemma try_except_ok {A} (m : Py A) (h : Exception → Py A) w a w' :
  try_except m h w = (Ok a, w') ↔
  m w = (Ok a, w') ∨ ∃ e w1, m w = (Raise e, w1) ∧ h e w1 = (Ok a, w').
Proof.
  unfold try_except. destruct (m w) as [[x|e] w1]; split.
  - intros [= -> ->]. by left.
  - intros [[= -> ->] | (e & w2 & [=] & _)]. done.
  - right. eauto.
  - intros [[=] | (e' & w2 & [= -> ->] & H)]. done.
Qed.

(** A handler that logs and raises again never turns a failure into a
    result. *)
Lemma try_reraise_ok {A} (m : Py A) (h : Exception → Py ()) w a w' :
  try_except m (λ e, bind (h e) (λ _, raise e)) w = (Ok a, w') ↔ m w = (Ok a, w').
Proof.
  rewrite try_except_ok. split; [| by left].
  intros [H | (e & w1 & _ & H)]; [done |].
  unfold bind, raise in H. destruct (h e w1) as [[?|?] ?]; discriminate.
Qed.

(** ** The specification fields of a table *)

Lemma same_spec_refl a : same_spec a a.
Proof. by split. Qed.

Lemma same_spec_trans a b c : same_spec a b → same_spec b c → same_spec a c.
Proof. intros [] []. split; congruence. Qed.

Lemma same_spec_set_data a df : same_spec a (Table.set_data a df).
Proof. by split. Qed.

Lemma same_spec_set_partition_cols a l : same_spec a (Table.set_partition_cols a l).
Proof. by split. Qed.

Section TableFacts.
Context (env : Env).

Lemma get_ndl_data_same_spec self date w self' w' :
  Table._get_ndl_data env self date w = (Ok self', w') → same_spec self self'.
Proof.
  unfold Table._get_ndl_data. rewrite bind_ok.
  intros (s1 & w1 & Hfetch & Hrest).
  assert (same_spec self s1) as Hs1.
  { case_bool_decide.
    - apply bind_ok in Hfetch as (? & ? & _ & Hfetch).
      apply try_reraise_ok, bind_ok in Hfetch as (? & ? & _ & [= <- _]).
      apply same_spec_set_data.
    - apply bind_ok in Hfetch as (? & ? & _ & Hfetch).
      unfold try_finally in Hfetch.
      match type of Hfetch with
      | context [try_except ?m ?h ?w] => destruct (try_except m h w) as [r w2] eqn:Htry
      end.
      destruct (bind _ _ w2) as [[[]|?] ?]; simplify_eq.
      apply try_reraise_ok, bind_ok in Htry as (? & ? & _ & Htry).
      apply bind_ok in Htry as (? & ? & _ & [= <- _]).
      apply same_spec_set_data. }
  apply bind_ok in Hrest as (? & ? & _ & Hrest).
  apply bind_ok in Hrest as (? & ? & _ & [= <- _]). done.
Qed.

Lemma decompose_same_spec self column dtype w self' w' :
  Table.decompose env self column dtype w = (Ok self', w') → same_spec self self'.
Proof.
  unfold Table.decompose. intros H.
  repeat (apply bind_ok in H as (? & ? & _ & H)).
  injection H as <- _.
  eapply same_spec_trans; [apply same_spec_set_data | apply same_spec_set_partition_cols].
Qed.

Lemma transform_column_same_spec self column dtype w self' w' :
  Table.transform_column env self column dtype w = (Ok self', w') → same_spec self self'.
Proof.
  unfold Table.transform_column. rewrite bind_ok. intros (pcs & w1 & _ & H).
  repeat case_match.
  - by eapply decompose_same_spec.
  - injection H as <- _. apply same_spec_refl.
  - repeat (apply bind_ok in H as (? & ? & _ & H)).
    injection H as <- _. apply same_spec_set_data.
  - repeat (apply bind_ok in H as (? & ? & _ & H)).
    injection H as <- _. apply same_spec_set_data.
Qed.

Lemma transform_items_same_spec items self w self' w' :
  Table.transform_items env items self w = (Ok self', w') → same_spec self self'.
Proof.
  revert self w. induction items as [|[column dtype] rest IH]; intros self w; simpl.
  - intros [= <- _]. apply same_spec_refl.
  - rewrite bind_ok. intros (s1 & w1 & H1 & H2).
    eapply same_spec_trans; [by eapply transform_column_same_spec | by eapply IH].
Qed.

Lemma apply_transforms_same_spec self w self' w' :
  Table._apply_transforms env self w = (Ok self', w') → same_spec self self'.
Proof. apply transform_items_same_spec. Qed.

Lemma refresh_same_spec self date w self' w' :
  Table.refresh env self date w = (Ok self', w') → same_spec self self'.
Proof.
  unfold Table.refresh. rewrite bind_ok. intros (s1 & w1 & H1 & H).
  apply bind_ok in H as (s2 & w2 & H2 & H).
  apply bind_ok in H as (? & ? & _ & [= <- _]).
  eapply same_spec_trans; [by eapply get_ndl_data_same_spec | by eapply apply_transforms_same_spec].
Qed.

End TableFacts.

(** ** Mode resolution *)

Lemma take_filter_nil (P : string → bool) (keys : list string) :
  take 1 (filter (λ k, P k = true) keys) = [] ↔ existsb P keys = false.
Proof.
  induction keys as [|k keys IH]; simpl; [done |].
  rewrite filter_cons. case_decide as Hk.
  - rewrite Hk. simpl. split; discriminate.
  - apply not_true_is_false in Hk. rewrite Hk. exact IH.
Qed.

Lemma list_objects_run bucket prefix w :
  s3_fault w = None →
  s3_list_objects bucket prefix 1 w =
    (Ok (mkListResponse
           (if object_under w prefix
            then Some (take 1 (filter (λ k, String.prefix prefix k = true) (s3_keys w)))
            else None)),
     add_call (ListObjects bucket prefix 1) w).
Proof.
  intros Hfault. unfold s3_list_objects, bind, modify, gets, ret, object_under. simpl.
  rewrite Hfault.
  destruct (existsb _ _) eqn:Hex.
  - destruct (take 1 _) eqn:Htake; [| done].
    apply (take_filter_nil (String.prefix prefix)) in Htake. simpl in Htake. congruence.
  - apply (take_filter_nil (String.prefix prefix)) in Hex. simpl. by rewrite Hex.
Qed.

Lemma list_objects_fault bucket prefix w e :
  s3_fault w = Some e →
  s3_list_objects bucket prefix 1 w = (Raise e, add_call (ListObjects bucket prefix 1) w).
Proof.
  intros Hfault. unfold s3_list_objects, bind, modify, gets, raise. simpl.
  by rewrite Hfault.
Qed.

Lemma truthy_nonempty (s : string) : PyStr.truthy s = true ↔ s ≠ "".
Proof. destruct s; simpl; split; done. Qed.

(** What a successful construction has done: the object, and the one
    request it may have made. *)
Lemma post_init_inv env name update_field partition_cols schema w self w' :
  Table.__post_init__ env name update_field partition_cols schema w = (Ok self, w') →
  ∃ key,
    Table.derive_s3_key env name update_field = Ok key
    ∧ self = Table.mkTable name update_field partition_cols schema key
               (if PyStr.truthy update_field && object_under w key
                then OverwritePartitions else Overwrite) None
    ∧ s3_keys w' = s3_keys w ∧ s3_fault w' = s3_fault w
    ∧ files w' = files w ∧ heap w' = heap w
    ∧ calls w' = (calls w ++ if PyStr.truthy update_field
                             then [ListObjects (AWS_BUCKET env) key 1] else [])%list.
Proof.
  unfold Table.__post_init__. rewrite bind_ok.
  intros (key & w1 & [Hkey ->]%lift_ok & Hnew). exists key. split; [done |].
  destruct (PyStr.truthy update_field); simpl.
  - apply bind_ok in Hnew as ([] & w2 & [= <-] & Hnew).
    apply try_except_ok in Hnew as [Hnew | (e & w3 & _ & [=])].
    destruct (s3_fault w) as [e|] eqn:Hfault.
    + erewrite bind_raise in Hnew; [discriminate |].
      by apply list_objects_fault.
    + erewrite bind_run in Hnew by (by apply list_objects_run).
      unfold has_Contents in Hnew. simpl in Hnew.
      change (object_under (add_log _ _ w) key) with (object_under w key) in Hnew.
      destruct (object_under w key); simpl in Hnew; injection Hnew as <- <-; done.
  - injection Hnew as <- <-. simpl. by rewrite app_nil_r.
Qed.

(** C1.  A table that was constructed with a non-empty update field has
    mode [OverwritePartitions] when some object of the bucket lies under
    the table's key, and [Overwrite] when none does; a table constructed
    with an empty update field has mode [Overwrite] whatever the bucket
    holds.  The mode is fixed there: a refresh hands back an object with
    the same mode. *)
Theorem refresh_mode_resolved_at_construction
    (env : Env) (name update_field : string) (partition_cols : loc)
    (schema : list (string * string)) (w w' : World) (self : Table.t) :
  Table.__post_init__ env name update_field partition_cols schema w = (Ok self, w') →
  (update_field ≠ "" →
     Table.refresh_mode self =
       if object_under w (Table.s3_key self) then OverwritePartitions else Overwrite)
  ∧ (update_field = "" → Table.refresh_mode self = Overwrite)
  ∧ (∀ date w1 self2 w2,
       Table.refresh env self date w1 = (Ok self2, w2) →
       Table.refresh_mode self2 = Table.refresh_mode self).
Proof.
  intros Hnew.
  destruct (post_init_inv _ _ _ _ _ _ _ _ Hnew) as (key & _ & -> & _).
  split; [| split].
  - intros Hne%truthy_nonempty. unfold Table.refresh_mode, Table.s3_key. simpl.
    by rewrite Hne.
  - by intros ->.
  - intros date w1 self2 w2 Hrefresh.
    by destruct (refresh_same_spec _ _ _ _ _ _ Hrefresh).
Qed.

(** First run and second run of one table with an update field. *)
Lemma refresh_mode_resolved_witness :
  let first := Table.__post_init__ Sample.env "DS/T1" "updated_at" 1%positive
                 Sample.schema Sample.world in
  let second := Table.__post_init__ Sample.env "DS/T1" "updated_at" 1%positive
                  Sample.schema Sample.world_second_run in
  (∃ self, first.1 = Ok self ∧ Table.refresh_mode self = Overwrite)
  ∧ (∃ self, second.1 = Ok self ∧ Table.refresh_mode self = OverwritePartitions).
Proof.
  split.
  - eexists. split; [reflexivity |].
    refine (proj1 (refresh_mode_resolved_at_construction Sample.env "DS/T1" "updated_at"
                     1%positive Sample.schema Sample.world _ _ eq_refl) _).
    discriminate.
  - eexists. split; [reflexivity |].
    refine (proj1 (refresh_mode_resolved_at_construction Sample.env "DS/T1" "updated_at"
                     1%positive Sample.schema Sample.world_second_run _ _ eq_refl) _).
    discriminate.
Defined.

(** ** The destination key *)

Lemma split_head_cons sep s : ∃ seg segs, PyStr.split sep s = seg :: segs.
Proof. destruct s as [|c s]; simpl; [eauto |]. repeat case_match; eauto. Qed.

(** Without the separator there is one segment, with it at least two. *)
Lemma split_second sep s :
  PyStr.contains sep s =
    match PyStr.split sep s !! 1%nat with Some _ => true | None => false end.
Proof.
  induction s as [|c s IH]; simpl; [done |].
  destruct (Ascii.eqb c sep); simpl.
  - by destruct (split_head_cons sep s) as (seg & segs & ->).
  - destruct (split_head_cons sep s) as (seg & segs & Hs).
    rewrite Hs in IH |- *. exact IH.
Qed.

Lemma derive_s3_key_no_slash env name :
  PyStr.contains PyStr.slash name = false →
  Table.derive_s3_key env name "" = Raise (IndexError "list index out of range").
Proof.
  intros H. unfold Table.derive_s3_key. simpl.
  rewrite split_second in H. by destruct (_ !! _).
Qed.

Lemma derive_s3_key_total env name update_field :
  PyStr.contains PyStr.slash name = true ∨ update_field ≠ "" →
  ∃ key, Table.derive_s3_key env name update_field = Ok key.
Proof.
  unfold Table.derive_s3_key. intros [H | H].
  - rewrite split_second in H. destruct (_ !! _); [| done].
    destruct (negb _); eauto.
  - apply truthy_nonempty in H. rewrite H. simpl. eauto.
Qed.

Lemma post_init_key env name update_field partition_cols schema w self w' :
  Table.__post_init__ env name update_field partition_cols schema w = (Ok self, w') →
  Table.derive_s3_key env name update_field = Ok (Table.s3_key self).
Proof. intros (key & Hkey & -> & _)%post_init_inv. exact Hkey. Qed.

(** C10.  With an empty update field and a name without ['/'] the
    constructor raises [IndexError] and leaves the world as it found it:
    nothing was listed, fetched or written.  With a name that has a ['/']
    the key derivation returns a key for every update field; with an empty
    update field the constructor then succeeds, the object carries that key,
    and whatever is constructed keeps its key through a refresh. *)
Theorem s3_key_needs_qualified_name
    (env : Env) (name : string) (partition_cols : loc)
    (schema : list (string * string)) (w : World) :
  (PyStr.contains PyStr.slash name = false →
     Table.__post_init__ env name "" partition_cols schema w
       = (Raise (IndexError "list index out of range"), w))
  ∧ (PyStr.contains PyStr.slash name = true →
       (∃ self w',
          Table.__post_init__ env name "" partition_cols schema w = (Ok self, w')
          ∧ calls w' = calls w)
       ∧ ∀ update_field, ∃ key,
           Table.derive_s3_key env name update_field = Ok key
           ∧ ∀ self w',
               Table.__post_init__ env name update_field partition_cols schema w
                 = (Ok self, w') →
               Table.s3_key self = key
               ∧ ∀ date w1 self2 w2,
                   Table.refresh env self date w1 = (Ok self2, w2) →
                   Table.s3_key self2 = key).
Proof.
  split.
  - intros H. unfold Table.__post_init__.
    erewrite bind_raise; [reflexivity |].
    unfold lift. by rewrite derive_s3_key_no_slash.
  - intros H. split.
    + destruct (derive_s3_key_total env name "" (or_introl H)) as [key Hkey].
      unfold Table.__post_init__. erewrite bind_run by (unfold lift; by rewrite Hkey).
      simpl. eexists _, _. split; reflexivity.
    + intros update_field.
      destruct (derive_s3_key_total env name update_field (or_introl H)) as [key Hkey].
      exists key. split; [done |]. intros self w' Hnew.
      apply post_init_key in Hnew. rewrite Hkey in Hnew. injection Hnew as ->.
      split; [done |]. intros date w1 self2 w2 Hrefresh.
      by destruct (refresh_same_spec _ _ _ _ _ _ Hrefresh).
Qed.

(** An unqualified name is refused, a qualified one gets the file key. *)
Lemma s3_key_needs_qualified_name_witness :
  Table.__post_init__ Sample.env "test_table" "" 1%positive Sample.schema Sample.world
    = (Raise (IndexError "list index out of range"), Sample.world)
  ∧ ∃ self w',
      Table.__post_init__ Sample.env "DS/T2" "" 1%positive Sample.schema Sample.world
        = (Ok self, w')
      ∧ Table.s3_key self = "nasdaq/DS/T2/T2.parquet".
Proof.
  split.
  - exact (proj1 (s3_key_needs_qualified_name Sample.env "test_table" 1%positive
                    Sample.schema Sample.world) eq_refl).
  - destruct (proj2 (s3_key_needs_qualified_name Sample.env "DS/T2" 1%positive
                       Sample.schema Sample.world) eq_refl) as [_ Hkeys].
    destruct (Hkeys "") as (key & Hkey & Hstable).
    eexists _, _. split; [vm_compute; reflexivity |].
    injection Hkey as <-.
    exact (proj1 (Hstable _ _ eq_refl)).
Defined.

(** ** The fetch *)

Ltac py_unfold :=
  unfold Table.data_of, Table.export_table, Table.get_table, pd_read_csv,
    os_path_exists, os_remove, logger in *;
  unfold bind, ret, raise, lift, modify, gets, try_except, try_finally in *.

Ltac world_simpl :=
  cbn [files s3_keys s3_fault heap calls logs
       set_files set_heap set_s3_keys add_call add_log fst snd
       Table.name Table.update_field Table.partition_cols Table.schema
       Table._s3_key Table._refresh_mode Table._data
       Table.set_data Table.set_partition_cols Table.s3_key Table.refresh_mode] in *.

Ltac py_step :=
  first [ rewrite lookup_insert_eq
        | rewrite bool_decide_eq_true_2 by eauto
        | match goal with
          | H : ?m !! ?k = _ |- context [?m !! ?k] => rewrite H
          end
        | progress world_simpl ].

(** The bulk path, whatever the service answers: one export request, the
    archive gone afterwards, the bucket and the heap untouched; and when
    it returns, the frame is the one read from the archive. *)
Lemma get_ndl_data_export env self date w :
  Table.refresh_mode self = Overwrite →
  ∃ r w',
    Table._get_ndl_data env self date w = (r, w')
    ∧ files w' = delete (Table.zip_name self) (files w)
    ∧ calls w' = (calls w ++ [ExportTable (Table.name self) (Table.zip_name self)])%list
    ∧ s3_keys w' = s3_keys w ∧ s3_fault w' = s3_fault w ∧ heap w' = heap w
    ∧ match r with
      | Ok self' =>
          ∃ df, ndl_export_table env (Table.name self) = Exported (Ok df)
                ∧ self' = Table.set_data self df
      | Raise e =>
          ndl_export_table env (Table.name self) = Exported (Raise e)
          ∨ ∃ partial, ndl_export_table env (Table.name self) = ExportFailed e partial
      end.
Proof.
  intros Hmode. unfold Table._get_ndl_data. rewrite Hmode.
  rewrite bool_decide_eq_false_2 by (rewrite !elem_of_cons, elem_of_nil; intuition discriminate).
  destruct (ndl_export_table env (Table.name self)) as [[df|e]|e [c|]] eqn:Hexport;
    [| | | destruct (files w !! Table.zip_name self) as [c|] eqn:Hfile];
    py_unfold; rewrite Hexport; repeat py_step.
  1-4: eexists _, _; split; [reflexivity |]; world_simpl;
       rewrite ?delete_insert_eq; repeat split; eauto.
  rewrite bool_decide_eq_false_2 by (by intros [? [=]]).
  eexists _, _; split; [reflexivity |]; world_simpl.
  rewrite delete_id by done. repeat split; eauto.
Qed.

(** The incremental path: at most one request, for the rows whose update
    field equals the date; no file, object or list is touched. *)
Lemma get_ndl_data_incremental env self date w :
  Table.refresh_mode self = OverwritePartitions →
  ∃ r w',
    Table._get_ndl_data env self date w = (r, w')
    ∧ files w' = files w
    ∧ calls w' = (calls w ++ if decide (Table.update_field self = "paginate") then []
                             else [GetTable (Table.name self) true
                                     [(Table.update_field self, date)]])%list
    ∧ s3_keys w' = s3_keys w ∧ s3_fault w' = s3_fault w ∧ heap w' = heap w
    ∧ ∀ self', r = Ok self' →
        ∃ df, ndl_get_table env (Table.name self) [(Table.update_field self, date)] = Ok df
              ∧ self' = Table.set_data self df.
Proof.
  intros Hmode. unfold Table._get_ndl_data. rewrite Hmode.
  rewrite bool_decide_eq_true_2 by (rewrite !elem_of_cons; auto).
  py_unfold. cbn [fmap list_fmap fst].
  destruct (decide (Table.update_field self = "paginate")) as [Hpag|Hpag].
  - rewrite bool_decide_eq_true_2 by (rewrite Hpag; apply list_elem_of_here).
    eexists _, _; split; [reflexivity |]; world_simpl.
    rewrite app_nil_r. repeat split; try done.
  - rewrite bool_decide_eq_false_2
      by (rewrite list_elem_of_singleton; congruence).
    destruct (ndl_get_table env _ _) as [df|e] eqn:Hget; world_simpl;
      (eexists _, _; split; [reflexivity |]; world_simpl; repeat split; try done).
    intros self' [= <-]. eauto.
Qed.

(** C2, refuted as stated: a table with update field [updated_at],
    constructed against an empty bucket, has mode [Overwrite], and its
    fetch asks for the bulk export of the table; it makes no request for
    the rows of the date. *)
Lemma first_run_fetch_is_bulk_export :
  ∃ self w1 r w2,
    Table.__post_init__ Sample.env "DS/T1" "updated_at" 1%positive
      Sample.schema Sample.world = (Ok self, w1)
    ∧ Table.update_field self ≠ ""
    ∧ Table.refresh_mode self = Overwrite
    ∧ Table._get_ndl_data Sample.env self "2024-03-01" w1 = (r, w2)
    ∧ calls w2 = (calls w1 ++ [ExportTable "DS/T1" "DS.T1.zip"])%list
    ∧ existsb is_get_table (calls w2) = false.
Proof.
  eexists _, _, _, _.
  split; [vm_compute; reflexivity |].
  split; [discriminate |].
  split; [reflexivity |].
  split; [vm_compute; reflexivity |].
  split; reflexivity.
Qed.

(** C2, amended.  The fetch follows the mode resolved at construction.
    For a table with a non-empty update field whose key has an object under
    it, every request of the fetch is the paginated [get_table] filtered on
    update field = date, and that request is made unless the update field is
    the client's own keyword [paginate]; otherwise (empty update field, or
    no object yet) the fetch makes exactly the export request. *)
Theorem fetch_follows_resolved_mode
    (env : Env) (name update_field : string) (partition_cols : loc)
    (schema : list (string * string)) (w w1 : World) (self : Table.t) (date : string) :
  Table.__post_init__ env name update_field partition_cols schema w = (Ok self, w1) →
  let w2 := (Table._get_ndl_data env self date w1).2 in
  if bool_decide (update_field ≠ "") && object_under w (Table.s3_key self)
  then
    ∃ made,
      calls w2 = (calls w1 ++ made)%list
      ∧ (∀ c, c ∈ made → c = GetTable name true [(update_field, date)])
      ∧ (update_field ≠ "paginate" → made = [GetTable name true [(update_field, date)]])
  else
    calls w2 = (calls w1 ++ [ExportTable name (Table.zip_name self)])%list.
Proof.
  intros (key & _ & -> & _)%post_init_inv. world_simpl.
  assert (bool_decide (update_field ≠ "") = PyStr.truthy update_field) as ->.
  { destruct update_field; by simpl. }
  destruct (PyStr.truthy update_field && object_under w key) eqn:Hmode.
  - match goal with
    | |- context [Table._get_ndl_data env ?s date w1] =>
        destruct (get_ndl_data_incremental env s date w1)
          as (r & w' & Hrun & _ & Hcalls & _); [reflexivity |]
    end.
    rewrite Hrun. world_simpl. rewrite Hcalls. world_simpl.
    eexists. split; [done |]. case_decide; split.
    + by intros c ?%elem_of_nil.
    + done.
    + by intros c ->%list_elem_of_singleton.
    + done.
  - match goal with
    | |- context [Table._get_ndl_data env ?s date w1] =>
        destruct (get_ndl_data_export env s date w1)
          as (r & w' & Hrun & _ & Hcalls & _); [reflexivity |]
    end.
    rewrite Hrun. world_simpl. by rewrite Hcalls.
Qed.

(** Second run of [DS/T1]: the filtered request; and the first run: the
    export. *)
Lemma fetch_follows_resolved_mode_witness :
  (∃ self w1,
     Table.__post_init__ Sample.env "DS/T1" "updated_at" 1%positive
       Sample.schema Sample.world_second_run = (Ok self, w1)
     ∧ ∃ made,
         calls (Table._get_ndl_data Sample.env self "2024-03-01" w1).2
           = (calls w1 ++ made)%list
         ∧ (∀ c, c ∈ made → c = GetTable "DS/T1" true [("updated_at", "2024-03-01")])
         ∧ ("updated_at" ≠ "paginate" →
            made = [GetTable "DS/T1" true [("updated_at", "2024-03-01")]]))
  ∧ (∃ self w1,
       Table.__post_init__ Sample.env "DS/T1" "updated_at" 1%positive
         Sample.schema Sample.world = (Ok self, w1)
       ∧ calls (Table._get_ndl_data Sample.env self "2024-03-01" w1).2
           = (calls w1 ++ [ExportTable "DS/T1" (Table.zip_name self)])%list).
Proof.
  split.
  - eexists _, _. split; [vm_compute; reflexivity |].
    exact (fetch_follows_resolved_mode Sample.env "DS/T1" "updated_at" 1%positive
             Sample.schema Sample.world_second_run _ _ "2024-03-01" eq_refl).
  - eexists _, _. split; [vm_compute; reflexivity |].
    exact (fetch_follows_resolved_mode Sample.env "DS/T1" "updated_at" 1%positive
             Sample.schema Sample.world _ _ "2024-03-01" eq_refl).
Defined.

(** ** What a piece of code leaves alone *)

Section Frame.
Context (R : relation World) `{!PreOrder R}.

Lemma frame_ret {A} (a : A) : frame R (ret a).
Proof. intros w. simpl. reflexivity. Qed.

Lemma frame_raise {A} e : frame R (@raise A e).
Proof. intros w. simpl. reflexivity. Qed.

Lemma frame_lift {A} (r : Result A) : frame R (lift r).
Proof. intros w. simpl. reflexivity. Qed.

Lemma frame_gets {A} (f : World → A) : frame R (gets f).
Proof. intros w. simpl. reflexivity. Qed.

Lemma frame_modify f : (∀ w, R w (f w)) → frame R (modify f).
Proof. intros H w. apply H. Qed.

Lemma frame_bind {A B} (m : Py A) (k : A → Py B) :
  frame R m → (∀ a, frame R (k a)) → frame R (bind m k).
Proof.
  intros Hm Hk w. unfold bind. specialize (Hm w).
  destruct (m w) as [[a|e] w1]; simpl in *; [| done].
  etrans; [exact Hm | apply Hk].
Qed.

Lemma frame_try_except {A} (m : Py A) h :
  frame R m → (∀ e, frame R (h e)) → frame R (try_except m h).
Proof.
  intros Hm Hh w. unfold try_except. specialize (Hm w).
  destruct (m w) as [[a|e] w1]; simpl in *; [done |].
  etrans; [exact Hm | apply Hh].
Qed.

Lemma frame_try_finally {A} (m : Py A) f :
  frame R m → frame R f → frame R (try_finally m f).
Proof.
  intros Hm Hf w. unfold try_finally. specialize (Hm w).
  destruct (m w) as [r w1]. specialize (Hf w1).
  destruct (f w1) as [[[]|e] w2]; simpl in *; by etrans.
Qed.

Lemma frame_logger l msg : (∀ w, R w (add_log l msg w)) → frame R (logger l msg).
Proof. apply frame_modify. Qed.

End Frame.

(** Breaks a frame goal down along the structure of the code. *)
Ltac frame_steps :=
  repeat match goal with
    | |- frame _ (ret _) => apply frame_ret; apply _
    | |- frame _ (raise _) => apply frame_raise; apply _
    | |- frame _ (lift _) => apply frame_lift; apply _
    | |- frame _ (gets _) => apply frame_gets; apply _
    | |- frame _ (bind _ _) => apply frame_bind; [apply _ | | intros ?]
    | |- frame _ (try_except _ _) => apply frame_try_except; [apply _ | | intros ?]
    | |- frame _ (try_finally _ _) => apply frame_try_finally; [apply _ | |]
    | |- frame _ (logger _ _) => apply frame_logger; intros ?
    | |- frame _ (modify _) => apply frame_modify; intros ?
    | |- frame _ (if ?b then _ else _) => destruct b
    | |- frame _ (match ?x with _ => _ end) => destruct x
    end.

Global Instance same_files_preorder : PreOrder same_files.
Proof. split; unfold same_files; [by intros ? | intros ??? -> ->; done]. Qed.
Global Instance same_heap_preorder : PreOrder same_heap.
Proof. split; unfold same_heap; [by intros ? | intros ??? -> ->; done]. Qed.

Lemma deref_frame R `{!PreOrder R} l : frame R (deref l).
Proof. intros w. unfold deref. destruct (heap w !! l); simpl; reflexivity. Qed.

Lemma alloc_same_files xs : frame same_files (alloc xs).
Proof. by intros w. Qed.

Lemma list_remove_same_files l x : frame same_files (list_remove l x).
Proof.
  unfold list_remove. apply frame_bind; [apply _ | apply deref_frame, _ |].
  intros xs. destruct (remove_first x xs); [by apply frame_modify | apply frame_raise, _].
Qed.

Lemma transform_items_same_files env items self :
  frame same_files (Table.transform_items env items self).
Proof.
  revert self. induction items as [|[column dtype] rest IH]; intros self; simpl.
  - apply frame_ret, _.
  - apply frame_bind; [apply _ | | intros ?; apply IH].
    unfold Table.transform_column, Table.decompose, Table.data_of.
    frame_steps; try done;
      first [apply deref_frame, _ | apply alloc_same_files | apply list_remove_same_files].
Qed.

Lemma put_to_aws_same_files env self : frame same_files (Table._put_to_aws env self).
Proof.
  unfold Table._put_to_aws, Table.data_of, Table.to_parquet.
  frame_steps; try done; try (apply deref_frame, _).
  all: intros w; unfold same_files; by destruct (wr_to_parquet _ _ _).
Qed.

Lemma bind_same_files_after {A B} (m : Py A) (k : A → Py B) w :
  (∀ a, frame same_files (k a)) → files (bind m k w).2 = files (m w).2.
Proof.
  intros Hk. unfold bind. destruct (m w) as [[a|e] w1]; simpl; [| done]. apply Hk.
Qed.

Lemma refresh_files_after_fetch env self date w :
  files (Table.refresh env self date w).2 = files (Table._get_ndl_data env self date w).2.
Proof.
  unfold Table.refresh. apply bind_same_files_after. intros s1.
  apply frame_bind; [apply _ | apply transform_items_same_files |].
  intros s2. apply frame_bind; [apply _ | apply put_to_aws_same_files |].
  intros []. apply frame_ret, _.
Qed.

(** C7.  A table constructed with an empty update field fetches by
    export, and when the fetch is over the archive [zip_name] is not in the
    working directory, whether the fetch returned or raised and whatever
    the service and the parser did; the other files are as before.  The
    same holds at the end of the whole refresh, so a transform that fails
    afterwards finds and leaves no archive. *)
Theorem export_archive_removed_on_every_exit
    (env : Env) (name : string) (partition_cols : loc)
    (schema : list (string * string)) (w0 w1 : World) (self : Table.t)
    (date : string) (w : World) :
  Table.__post_init__ env name "" partition_cols schema w0 = (Ok self, w1) →
  let after_fetch := (Table._get_ndl_data env self date w).2 in
  let after_refresh := (Table.refresh env self date w).2 in
  files after_fetch = delete (Table.zip_name self) (files w)
  ∧ files after_fetch !! Table.zip_name self = None
  ∧ files after_refresh !! Table.zip_name self = None.
Proof.
  intros (key & _ & -> & _)%post_init_inv. cbv zeta.
  rewrite refresh_files_after_fetch.
  match goal with
  | |- context [Table._get_ndl_data env ?s date w] =>
      destruct (get_ndl_data_export env s date w) as (r & w' & -> & Hfiles & _);
        [reflexivity |]
  end.
  cbn [snd]. rewrite Hfiles. by rewrite lookup_delete_eq.
Qed.

(** The export of [DS/B] breaks off and leaves half a file; the export of
    [DS/A] succeeds.  Neither archive is there afterwards. *)
Lemma export_archive_removed_witness :
  (∃ self w1,
     Table.__post_init__ Sample.env_B_down "DS/B" "" 2%positive Sample.schema
       Sample.world = (Ok self, w1)
     ∧ is_ok (Table._get_ndl_data Sample.env_B_down self "2024-03-01" w1).1 = false
     ∧ files (Table._get_ndl_data Sample.env_B_down self "2024-03-01" w1).2 !! "DS.B.zip"
         = None)
  ∧ (∃ self w1,
       Table.__post_init__ Sample.env_B_down "DS/A" "" 2%positive Sample.schema
         Sample.world = (Ok self, w1)
       ∧ is_ok (Table._get_ndl_data Sample.env_B_down self "2024-03-01" w1).1 = true
       ∧ files (Table._get_ndl_data Sample.env_B_down self "2024-03-01" w1).2 !! "DS.A.zip"
           = None).
Proof.
  split.
  - eexists _, _. split; [vm_compute; reflexivity |].
    split; [vm_compute; reflexivity |].
    exact (proj1 (proj2 (export_archive_removed_on_every_exit Sample.env_B_down "DS/B"
                           2%positive Sample.schema Sample.world _ _ "2024-03-01" _
                           eq_refl))).
  - eexists _, _. split; [vm_compute; reflexivity |].
    split; [vm_compute; reflexivity |].
    exact (proj1 (proj2 (export_archive_removed_on_every_exit Sample.env_B_down "DS/A"
                           2%positive Sample.schema Sample.world _ _ "2024-03-01" _
                           eq_refl))).
Defined.

(** ** Frames: columns read, written and dropped *)

Section FrameFacts.
Implicit Types (df : DataFrame) (c : string) (s : Series).

Lemma getitem_setitem_eq df c s : getitem (setitem df c s) c = Ok s.
Proof.
  induction df as [|[c0 s0] df IH]; simpl.
  - by rewrite decide_True.
  - destruct (decide (c0 = c)) as [->|Hne]; simpl.
    + by rewrite decide_True.
    + by rewrite decide_False.
Qed.

Lemma getitem_setitem_ne df c c' s :
  c ≠ c' → getitem (setitem df c s) c' = getitem df c'.
Proof.
  intros Hne. induction df as [|[c0 s0] df IH]; simpl.
  - by rewrite decide_False.
  - destruct (decide (c0 = c)) as [->|Hne0]; simpl.
    + by rewrite !decide_False.
    + destruct (decide (c0 = c')); done.
Qed.


Lemma getitem_ok_has_column df c s : getitem df c = Ok s → has_column df c = true.
Proof.
  unfold has_column. intros H. apply bool_decide_eq_true.
  induction df as [|[c0 s0] df IH]; simpl in *; [done |].
  destruct (decide (c0 = c)) as [->|Hne]; [apply list_elem_of_here |].
  apply list_elem_of_further. by apply IH.
Qed.

Lemma getitem_filter_ne df c c' :
  c ≠ c' → getitem (filter (λ cs, cs.1 ≠ c) df) c' = getitem df c'.
Proof.
  intros Hne. induction df as [|[c0 s0] df IH]; [done |].
  rewrite filter_cons. simpl. destruct (decide (c0 ≠ c)) as [H0|H0]; simpl.
  - by rewrite IH.
  - apply dec_stable in H0 as ->. by rewrite decide_False.
Qed.

End FrameFacts.

(** ** The transform of a table without partition columns *)

Global Instance same_but_logs_preorder : PreOrder same_but_logs.
Proof.
  split.
  - by intros w.
  - intros w1 w2 w3 [] []. split; congruence.
Qed.

Lemma transform_column_unpartitioned env self column dtype df w :
  heap w !! Table.partition_cols self = Some [] →
  Table._data self = Some df →
  ∃ w',
    same_but_logs w w'
    ∧ Table.transform_column env self column dtype w =
        (match getitem df column with
         | Raise e => Raise e
         | Ok col =>
             match plain_cast env dtype col with
             | Raise e => Raise e
             | Ok col' => Ok (Table.set_data self (setitem df column col'))
             end
         end, w').
Proof.
  intros Hpcs Hdf. unfold Table.transform_column, plain_cast, deref, Table.data_of.
  unfold bind at 1. rewrite Hpcs, Hdf.
  rewrite bool_decide_eq_false_2 by (by intros []).
  destruct (decide (dtype = datetime64)) as [->|Hne].
  - rewrite bool_decide_eq_true_2 by done. exists w. split; [done |].
    py_unfold. destruct (getitem df column) as [col|e]; [| done].
    destruct (pd_astype env datetime64 col) as [stamps|e]; [| done].
    by destruct (pd_strftime env _ stamps).
  - rewrite bool_decide_eq_false_2 by done. eexists. split; [| py_unfold].
    2: { destruct (getitem df column) as [col|e]; [| reflexivity].
         destruct (pd_astype env dtype col); reflexivity. }
    by split.
Qed.

Lemma transform_items_unpartitioned env items self df w :
  heap w !! Table.partition_cols self = Some [] →
  Table._data self = Some df →
  ∃ w',
    same_but_logs w w'
    ∧ Table.transform_items env items self w =
        (match cast_all env items df with
         | Ok df' => Ok (Table.set_data self df')
         | Raise e => Raise e
         end, w').
Proof.
  revert self df w. induction items as [|[column dtype] rest IH]; intros self df w Hpcs Hdf.
  - exists w. split; [done |]. simpl. unfold ret. destruct self. simpl in *. by subst.
  - simpl. destruct (transform_column_unpartitioned env self column dtype df w Hpcs Hdf)
      as (w1 & Hw1 & Hcol).
    unfold bind at 1. rewrite Hcol.
    destruct (getitem df column) as [col|e]; [| by exists w1].
    destruct (plain_cast env dtype col) as [col'|e]; [| by exists w1].
    destruct (IH (Table.set_data self (setitem df column col')) (setitem df column col') w1)
      as (w2 & Hw2 & Hrest); [by rewrite (sbl_heap _ _ Hw1) | done |].
    exists w2. split; [by etrans |]. rewrite Hrest.
    by destruct (cast_all env rest _).
Qed.

Lemma cast_all_other env items df df' c :
  c ∉ items.*1 → cast_all env items df = Ok df' → getitem df' c = getitem df c.
Proof.
  revert df. induction items as [|[c0 d0] rest IH]; intros df Hnotin; simpl.
  - by intros [= ->].
  - apply not_elem_of_cons in Hnotin as [Hne Hrest]. simpl in Hne.
    destruct (getitem df c0) as [col|e]; [| done].
    destruct (plain_cast env d0 col) as [col'|e]; [| done].
    intros H. rewrite (IH _ Hrest H). by apply getitem_setitem_ne.
Qed.

Lemma cast_all_column env items df df' c d :
  NoDup items.*1 → (c, d) ∈ items → cast_all env items df = Ok df' →
  ∃ col col', getitem df c = Ok col ∧ plain_cast env d col = Ok col'
              ∧ getitem df' c = Ok col'.
Proof.
  revert df. induction items as [|[c0 d0] rest IH]; intros df Hnodup Hin; simpl.
  - by apply elem_of_nil in Hin.
  - apply NoDup_cons in Hnodup as [Hfirst Hnodup]. simpl in Hfirst.
    destruct (getitem df c0) as [col0|e] eqn:Hget; [| done].
    destruct (plain_cast env d0 col0) as [col0'|e] eqn:Hcast; [| done].
    intros Hrest. apply elem_of_cons in Hin as [[= -> ->] | Hin].
    + exists col0, col0'. repeat split; [done.. |].
      rewrite (cast_all_other _ _ _ _ _ Hfirst Hrest). apply getitem_setitem_eq.
    + assert (c0 ≠ c) as Hne.
      { intros ->. apply Hfirst. apply list_elem_of_fmap. by exists (c, d). }
      destruct (IH _ Hnodup Hin Hrest) as (col & col' & Hc & Hp & Hc').
      rewrite getitem_setitem_ne in Hc by done. eauto.
Qed.

Lemma cast_all_fails env items df c d col e :
  NoDup items.*1 → (c, d) ∈ items → getitem df c = Ok col →
  plain_cast env d col = Raise e → ∃ e', cast_all env items df = Raise e'.
Proof.
  revert df. induction items as [|[c0 d0] rest IH]; intros df Hnodup Hin Hget Hcast; simpl.
  - by apply elem_of_nil in Hin.
  - apply NoDup_cons in Hnodup as [Hfirst Hnodup]. simpl in Hfirst.
    apply elem_of_cons in Hin as [[= <- <-] | Hin].
    + rewrite Hget, Hcast. eauto.
    + assert (c0 ≠ c) as Hne.
      { intros ->. apply Hfirst. apply list_elem_of_fmap. by exists (c, d). }
      destruct (getitem df c0) as [col0|e0]; [| eauto].
      destruct (plain_cast env d0 col0) as [col0'|e0]; [| eauto].
      apply IH; try done. by rewrite getitem_setitem_ne.
Qed.

(** When the transform raises, so does the refresh, and nothing is
    requested after the fetch. *)
Lemma refresh_transform_raises env self0 date w0 self w e w' :
  Table._get_ndl_data env self0 date w0 = (Ok self, w) →
  Table._apply_transforms env self w = (Raise e, w') →
  Table.refresh env self0 date w0 = (Raise e, w').
Proof.
  intros Hfetch Htransform. unfold Table.refresh.
  rewrite (bind_run _ _ _ _ _ Hfetch). by rewrite (bind_raise _ _ _ _ _ Htransform).
Qed.

(** ** The transform of a table with partition columns *)

Lemma transform_column_skip env self column dtype w pcs :
  heap w !! Table.partition_cols self = Some pcs → pcs ≠ [] →
  qualifies pcs column dtype = false →
  Table.transform_column env self column dtype w = (Ok self, w).
Proof.
  intros Hpcs Hne Hq. unfold Table.transform_column, deref.
  unfold bind at 1. rewrite Hpcs.
  rewrite bool_decide_eq_true_2 by done. unfold qualifies in Hq. by rewrite Hq.
Qed.

Lemma transform_column_qualifying env self column dtype w pcs :
  heap w !! Table.partition_cols self = Some pcs →
  qualifies pcs column dtype = true →
  Table.transform_column env self column dtype w = Table.decompose env self column dtype w.
Proof.
  intros Hpcs Hq. unfold Table.transform_column, deref.
  unfold bind at 1. rewrite Hpcs. unfold qualifies in Hq. rewrite Hq.
  rewrite bool_decide_eq_true_2; [done |].
  apply andb_true_iff in Hq as [Hin%bool_decide_eq_true _]. by intros ->; apply elem_of_nil in Hin.
Qed.

(** Columns that fail the test of line 77 leave a partitioned table and
    the world as they are. *)
Lemma transform_items_skip env items self w pcs :
  heap w !! Table.partition_cols self = Some pcs → pcs ≠ [] →
  (∀ c d, (c, d) ∈ items → qualifies pcs c d = false) →
  Table.transform_items env items self w = (Ok self, w).
Proof.
  intros Hpcs Hne. induction items as [|[c d] rest IH]; intros Hskip; simpl; [done |].
  erewrite bind_run.
  2: { eapply transform_column_skip; [done.. |]. apply Hskip, list_elem_of_here. }
  apply IH. intros c' d' Hin. by apply Hskip, list_elem_of_further.
Qed.

Lemma decompose_inv env self column dtype w self' w' :
  Table.decompose env self column dtype w = (Ok self', w') →
  ∃ df col stamps yyyy mm dd pcs pcs',
    Table._data self = Some df
    ∧ getitem df column = Ok col
    ∧ pd_astype env dtype col = Ok stamps
    ∧ heap w !! Table.partition_cols self = Some pcs
    ∧ remove_first column pcs = Some pcs'
    ∧ self' = Table.set_partition_cols
                (Table.set_data self (decomposed df column stamps yyyy mm dd))
                (repartitioned (heap w) (Table.partition_cols self) pcs').1
    ∧ w' = set_heap (repartitioned (heap w) (Table.partition_cols self) pcs').2 w.
Proof.
  unfold Table.decompose, Table.data_of. intros H.
  apply bind_ok in H as (df & w1 & Hdf & H).
  destruct (Table._data self) as [df0|] eqn:Hdata; [| done]. injection Hdf as -> <-.
  apply bind_ok in H as (col & w1 & [Hcol ->]%lift_ok & H).
  apply bind_ok in H as (stamps & w1 & [Hstamps ->]%lift_ok & H).
  apply bind_ok in H as (col1 & w1 & [_ ->]%lift_ok & H).
  apply bind_ok in H as (yyyy & w1 & [_ ->]%lift_ok & H).
  apply bind_ok in H as (col2 & w1 & [_ ->]%lift_ok & H).
  apply bind_ok in H as (mm & w1 & [_ ->]%lift_ok & H).
  apply bind_ok in H as (col3 & w1 & [_ ->]%lift_ok & H).
  apply bind_ok in H as (dd & w1 & [_ ->]%lift_ok & H).
  apply bind_ok in H as (df' & w1 & [Hdrop ->]%lift_ok & H).
  apply bind_ok in H as ([] & w1 & Hremove & H).
  unfold list_remove, deref in Hremove. unfold bind at 1 in Hremove.
  destruct (heap w !! Table.partition_cols self) as [pcs|] eqn:Hpcs; [| done].
  destruct (remove_first column pcs) as [pcs'|] eqn:Hrem; [| done].
  injection Hremove as <-.
  unfold alloc, bind, ret in H. injection H as <- <-.
  unfold drop in Hdrop. destruct (has_column _ _); [| done]. injection Hdrop as <-.
  exists df, col, stamps, yyyy, mm, dd, pcs, pcs'. repeat split; try done.
Qed.

Lemma decomposed_other df column stamps yyyy mm dd c :
  c ≠ column → c ∉ ymd →
  getitem (decomposed df column stamps yyyy mm dd) c = getitem df c.
Proof.
  intros Hne Hymd. unfold decomposed, ymd in *.
  rewrite !not_elem_of_cons in Hymd. destruct Hymd as (? & ? & ? & _).
  rewrite getitem_filter_ne by done.
  by rewrite !getitem_setitem_ne.
Qed.

Lemma repartitioned_lookup h l pcs' :
  (repartitioned h l pcs').2 !! (repartitioned h l pcs').1 = Some ymd.
Proof. unfold repartitioned. simpl. apply lookup_insert_eq. Qed.

Lemma elem_of_remove_first x xs : x ∈ xs → ∃ xs', remove_first x xs = Some xs'.
Proof.
  induction xs as [|y ys IH]; simpl; [by intros ?%elem_of_nil |].
  intros [->|Hin]%elem_of_cons.
  - rewrite decide_True by done. eauto.
  - destruct (decide (y = x)); [eauto |]. destruct (IH Hin) as [xs' ->]. simpl. eauto.
Qed.

(** A column that is neither a partition column nor one of the three new
    names comes out of the transform of a partitioned table as it went
    in. *)
Lemma transform_items_partitioned_other env items self w self' w' pcs c :
  heap w !! Table.partition_cols self = Some pcs → pcs ≠ [] →
  c ∉ pcs → c ∉ ymd →
  Table.transform_items env items self w = (Ok self', w') →
  (λ df, getitem df c) <$> Table._data self' = (λ df, getitem df c) <$> Table._data self.
Proof.
  revert self w pcs. induction items as [|[column dtype] rest IH];
    intros self w pcs Hpcs Hne Hc Hymd; simpl.
  - by intros [= <- _].
  - rewrite bind_ok. intros (s1 & w1 & Hcol & Hrest).
    destruct (qualifies pcs column dtype) eqn:Hq.
    + rewrite (transform_column_qualifying _ _ _ _ _ _ Hpcs Hq) in Hcol.
      apply decompose_inv in Hcol
        as (df & col & stamps & yyyy & mm & dd & pcs0 & pcs' & Hdf & _ & _ & _ & _ & -> & ->).
      eapply (IH _ _ ymd) in Hrest; [| apply repartitioned_lookup | done..].
      rewrite Hrest, Hdf. simpl. f_equal. apply decomposed_other; [| done].
      apply andb_true_iff in Hq as [Hin%bool_decide_eq_true _]. by intros ->.
    + rewrite (transform_column_skip _ _ _ _ _ _ Hpcs Hne Hq) in Hcol.
      injection Hcol as <- <-. by eapply IH.
Qed.

(** ** Casting *)

(** When every column of the schema is in the frame and its cast
    returns, so does the loop. *)
Lemma cast_all_returns env items df :
  NoDup items.*1 →
  (∀ c d, (c, d) ∈ items →
     ∃ col, getitem df c = Ok col ∧ is_ok (plain_cast env d col) = true) →
  is_ok (cast_all env items df) = true.
Proof.
  revert df. induction items as [|[c0 d0] rest IH]; intros df Hnodup Hall; simpl; [done |].
  apply NoDup_cons in Hnodup as [Hfirst Hnodup]. simpl in Hfirst.
  destruct (Hall c0 d0) as (col0 & Hget & Hcast); [apply list_elem_of_here |].
  rewrite Hget. destruct (plain_cast env d0 col0) as [col0'|e]; [| done].
  apply IH; [done |]. intros c d Hin.
  destruct (Hall c d) as (col & Hc & Hp); [by apply list_elem_of_further |].
  exists col. split; [| done]. rewrite getitem_setitem_ne; [done |].
  intros ->. apply Hfirst. apply list_elem_of_fmap. by exists (c, d).
Qed.

(** The transform of a table without partition columns returns when
    every cast does, and leaves the frame that the casts make. *)
Lemma unpartitioned_transform_returns env self w df :
  heap w !! Table.partition_cols self = Some [] →
  Table._data self = Some df →
  NoDup (Table.schema self).*1 →
  (∀ c d, (c, d) ∈ Table.schema self →
     ∃ col, getitem df c = Ok col ∧ is_ok (plain_cast env d col) = true) →
  ∃ w' df',
    Table._apply_transforms env self w = (Ok (Table.set_data self df'), w')
    ∧ same_but_logs w w'
    ∧ cast_all env (Table.schema self) df = Ok df'.
Proof.
  intros Hpcs Hdf Hnodup Hall.
  destruct (transform_items_unpartitioned env (Table.schema self) self df w Hpcs Hdf)
    as (w' & Hw' & Hrun).
  pose proof (cast_all_returns env _ _ Hnodup Hall) as Hok.
  destruct (cast_all env (Table.schema self) df) as [df'|e]; [| done].
  by exists w', df'.
Qed.

(** C3, refuted as stated: [price] is declared [int64], is not a
    partition column and casts to [[12; 13]]; the table declares the
    partition column [date], and the transform returns with [price] still
    holding the strings. *)
Lemma partitioned_table_keeps_price_uncast :
  ∃ self' w' df',
    Table._apply_transforms Sample.env Sample.fetched Sample.world = (Ok self', w')
    ∧ heap Sample.world !! Table.partition_cols Sample.fetched = Some ["date"]
    ∧ ("price", "int64") ∈ Table.schema Sample.fetched
    ∧ pd_astype Sample.env "int64" [VStr "12"; VStr "13"] = Ok [VInt 12; VInt 13]
    ∧ Table._data self' = Some df'
    ∧ getitem df' "price" = Ok [VStr "12"; VStr "13"].
Proof.
  eexists _, _, _.
  split; [vm_compute; reflexivity |].
  split; [reflexivity |].
  split; [apply list_elem_of_further, list_elem_of_here |].
  split; [reflexivity |].
  split; reflexivity.
Qed.

(** C3, amended.  Take a table whose schema names each column once.
    Without partition columns: when every schema column is in the frame
    and its cast returns, the transform returns, and every column that is
    not declared [datetime64[ns]] holds what [astype] of its type tag made
    of the fetched column; and when the cast of such a column raises, the
    transform raises, and with it the refresh, with no request made after
    the fetch.  With partition columns nothing is cast: the transform of a
    table none of whose partition columns is declared [datetime64[ns]]
    returns the table and the world unchanged, and whenever the transform
    returns, a column that is not a partition column and not called [yyyy],
    [mm] or [dd] is as it was. *)
Theorem cast_only_without_partition_cols
    (env : Env) (self : Table.t) (w : World) (pcs : list string) (df : DataFrame) :
  heap w !! Table.partition_cols self = Some pcs →
  Table._data self = Some df →
  NoDup (Table.schema self).*1 →
  if decide (pcs = []) then
    ((∀ c d, (c, d) ∈ Table.schema self →
        ∃ col, getitem df c = Ok col ∧ is_ok (plain_cast env d col) = true) →
     ∃ self' w' df',
       Table._apply_transforms env self w = (Ok self', w')
       ∧ Table._data self' = Some df'
       ∧ ∀ c d col, (c, d) ∈ Table.schema self → d ≠ datetime64 →
           getitem df c = Ok col →
           getitem df' c = pd_astype env d col)
    ∧ (∀ c d col e, (c, d) ∈ Table.schema self → d ≠ datetime64 →
         getitem df c = Ok col → pd_astype env d col = Raise e →
         ∃ e' w',
           Table._apply_transforms env self w = (Raise e', w')
           ∧ calls w' = calls w
           ∧ ∀ self0 date w0,
               Table._get_ndl_data env self0 date w0 = (Ok self, w) →
               Table.refresh env self0 date w0 = (Raise e', w'))
  else
    ((∀ c d, (c, d) ∈ Table.schema self → qualifies pcs c d = false) →
     Table._apply_transforms env self w = (Ok self, w))
    ∧ (∀ c self' w', c ∉ pcs → c ∉ ymd →
         Table._apply_transforms env self w = (Ok self', w') →
         ∃ df', Table._data self' = Some df' ∧ getitem df' c = getitem df c).
Proof.
  intros Hpcs Hdf Hnodup.
  destruct (decide (pcs = [])) as [->|Hne]; split.
  - intros Hall.
    destruct (unpartitioned_transform_returns env self w df Hpcs Hdf Hnodup Hall)
      as (w' & df' & Hrun & _ & Hcast).
    exists (Table.set_data self df'), w', df'. split; [done |]. split; [done |].
    intros c d col Hin Hdtype Hcol.
    destruct (cast_all_column env _ _ _ _ _ Hnodup Hin Hcast)
      as (col0 & col' & Hcol0 & Hplain & Hcol').
    rewrite Hcol in Hcol0. injection Hcol0 as <-.
    unfold plain_cast in Hplain. rewrite decide_False in Hplain by done. congruence.
  - intros c d col e Hin Hdtype Hcol Hcast.
    destruct (transform_items_unpartitioned env (Table.schema self) self df w Hpcs Hdf)
      as (w1 & Hw1 & Hrun).
    fold (Table._apply_transforms env self) in Hrun.
    assert (plain_cast env d col = Raise e) as Hplain.
    { unfold plain_cast. by rewrite decide_False. }
    destruct (cast_all_fails env _ _ _ _ _ _ Hnodup Hin Hcol Hplain) as [e' Hall].
    rewrite Hall in Hrun. exists e', w1. split; [done |]. split; [apply Hw1 |].
    intros self0 date w0 Hfetch. by eapply refresh_transform_raises.
  - intros Hnone. by eapply transform_items_skip.
  - intros c self' w' Hnotin Hymd Hok.
    pose proof (transform_items_partitioned_other env _ _ _ _ _ _ _ Hpcs Hne Hnotin Hymd Hok)
      as H.
    rewrite Hdf in H. simpl in H.
    destruct (Table._data self') as [df'|]; [| done].
    injection H as H. by exists df'.
Qed.

(** The sample rows.  Without partition columns the transform returns
    and [price] holds the integers; the table partitioned by [region]
    comes back as it went in; and in the table partitioned by [date] the
    transform returns and [price] still holds the strings. *)
Lemma cast_only_without_partition_cols_witness :
  (∃ self' w' df',
     Table._apply_transforms Sample.env Sample.fetched_plain Sample.world = (Ok self', w')
     ∧ Table._data self' = Some df'
     ∧ getitem df' "price" = Ok [VInt 12; VInt 13])
  ∧ Table._apply_transforms Sample.env Sample.by_region Sample.world_by_region
    = (Ok Sample.by_region, Sample.world_by_region)
  ∧ (∃ self' w' df',
       Table._apply_transforms Sample.env Sample.fetched Sample.world = (Ok self', w')
       ∧ Table._data self' = Some df'
       ∧ getitem df' "price" = Ok [VStr "12"; VStr "13"]).
Proof.
  assert (NoDup Sample.schema.*1) as Hnodup.
  { vm_compute. repeat constructor; rewrite ?elem_of_cons, ?elem_of_nil;
      intuition discriminate. }
  split; [| split].
  - pose proof (cast_only_without_partition_cols Sample.env Sample.fetched_plain
                  Sample.world [] Sample.rows eq_refl eq_refl Hnodup) as H.
    destruct (decide (@nil string = [])) as [_|]; [| done].
    destruct H as [Hreturns _].
    destruct Hreturns as (self' & w' & df' & Hrun & Hdf & Hcols).
    { intros c d. unfold Sample.fetched_plain, Sample.schema. simpl.
      rewrite !elem_of_cons, elem_of_nil.
      intros [[= -> ->] | [[= -> ->] | []]]; eexists; (split; [reflexivity |]);
        reflexivity. }
    exists self', w', df'. split; [exact Hrun |]. split; [exact Hdf |].
    rewrite (Hcols "price" "int64" [VStr "12"; VStr "13"]); [reflexivity | | | reflexivity].
    + apply list_elem_of_further, list_elem_of_here.
    + discriminate.
  - pose proof (cast_only_without_partition_cols Sample.env Sample.by_region
                  Sample.world_by_region ["region"] _ eq_refl eq_refl) as H.
    destruct (decide (["region"] = [])) as [|_]; [done |].
    apply H.
    + vm_compute. repeat constructor; rewrite ?elem_of_cons, ?elem_of_nil;
        intuition discriminate.
    + intros c d. unfold Sample.by_region. simpl. rewrite !elem_of_cons, elem_of_nil.
      intros [[= -> ->] | [[= -> ->] | []]]; reflexivity.
  - assert (∃ s' w', Table._apply_transforms Sample.env Sample.fetched Sample.world
                     = (Ok s', w')) as (s' & w' & Hrun)
      by (eexists _, _; vm_compute; reflexivity).
    pose proof (cast_only_without_partition_cols Sample.env Sample.fetched
                  Sample.world ["date"] Sample.rows eq_refl eq_refl Hnodup) as H.
    destruct (decide (["date"] = [])) as [|_]; [done |].
    destruct H as [_ Hkept].
    destruct (Hkept "price" s' w') as (df' & Hdf & Hcol); [| | exact Hrun |].
    + rewrite elem_of_cons, elem_of_nil. intuition discriminate.
    + unfold ymd. rewrite !elem_of_cons, elem_of_nil. intuition discriminate.
    + exists s', w', df'. split; [exact Hrun |]. split; [exact Hdf | exact Hcol].
Defined.

(** ** Dates outside the partition columns *)

(** C5, refuted as stated: [seen] is declared [datetime64[ns]] and is
    not a partition column; the table is partitioned by [region], and the
    transform returns with [seen] still holding the timestamp, not the
    string [2024-03-01]. *)
Lemma partitioned_table_keeps_timestamp :
  ∃ self' w' df',
    Table._apply_transforms Sample.env Sample.by_region Sample.world_by_region
    = (Ok self', w')
    ∧ heap Sample.world_by_region !! Table.partition_cols Sample.by_region
        = Some ["region"]
    ∧ ("seen", datetime64) ∈ Table.schema Sample.by_region
    ∧ Table._data self' = Some df'
    ∧ getitem df' "seen" = Ok [VTime (mkTimestamp 2024 3 1 0)]
    ∧ getitem df' "seen" ≠ Ok [VStr "2024-03-01"].
Proof.
  eexists _, _, _.
  split; [vm_compute; reflexivity |].
  split; [reflexivity |].
  split; [apply list_elem_of_further, list_elem_of_here |].
  split; [reflexivity |].
  split; [reflexivity | discriminate].
Qed.

(** C5, amended.  Take a table whose schema names each column once.
    Without partition columns: when every schema column is in the frame
    and its cast returns, the transform returns, and every column declared
    [datetime64[ns]] holds what [dt.strftime('%Y-%m-%d')] made of what
    [astype('datetime64[ns]')] made of the fetched column.  With partition
    columns: whenever the transform returns, such a column, when it is not
    a partition column and not called [yyyy], [mm] or [dd], is as it
    was. *)
Theorem date_formatted_without_partition_cols
    (env : Env) (self : Table.t) (w : World) (pcs : list string) (df : DataFrame) :
  heap w !! Table.partition_cols self = Some pcs →
  Table._data self = Some df →
  NoDup (Table.schema self).*1 →
  if decide (pcs = []) then
    (∀ c d, (c, d) ∈ Table.schema self →
       ∃ col, getitem df c = Ok col ∧ is_ok (plain_cast env d col) = true) →
    ∃ self' w' df',
      Table._apply_transforms env self w = (Ok self', w')
      ∧ Table._data self' = Some df'
      ∧ ∀ c col, (c, datetime64) ∈ Table.schema self → getitem df c = Ok col →
          ∃ stamps formatted,
            pd_astype env datetime64 col = Ok stamps
            ∧ pd_strftime env "%Y-%m-%d" stamps = Ok formatted
            ∧ getitem df' c = Ok formatted
  else
    ∀ c self' w', (c, datetime64) ∈ Table.schema self → c ∉ pcs → c ∉ ymd →
      Table._apply_transforms env self w = (Ok self', w') →
      ∃ df', Table._data self' = Some df' ∧ getitem df' c = getitem df c.
Proof.
  intros Hpcs Hdf Hnodup.
  destruct (decide (pcs = [])) as [->|Hne].
  - intros Hall.
    destruct (unpartitioned_transform_returns env self w df Hpcs Hdf Hnodup Hall)
      as (w' & df' & Hrun & _ & Hcast).
    exists (Table.set_data self df'), w', df'. split; [done |]. split; [done |].
    intros c col Hin Hcol.
    destruct (cast_all_column env _ _ _ _ _ Hnodup Hin Hcast)
      as (col0 & col' & Hcol0 & Hplain & Hcol').
    rewrite Hcol in Hcol0. injection Hcol0 as <-.
    unfold plain_cast in Hplain. rewrite decide_True in Hplain by done.
    destruct (pd_astype env datetime64 col) as [stamps|e]; [| done].
    by exists stamps, col'.
  - intros c self' w' _ Hnotin Hymd Hok.
    pose proof (transform_items_partitioned_other env _ _ _ _ _ _ _ Hpcs Hne Hnotin Hymd Hok)
      as H.
    rewrite Hdf in H. simpl in H.
    destruct (Table._data self') as [df'|]; [| done].
    injection H as H. by exists df'.
Qed.

(** A timestamp in the afternoon of March 1 2024 and a missing value, in
    a table without partition columns: the transform returns, and the
    column holds [2024-03-01] and the missing value.  And the column [seen]
    of the table partitioned by [region] keeps its timestamp. *)
Lemma date_formatted_witness :
  (∃ self' w' df',
     Table._apply_transforms Sample.env Sample.stamped Sample.world = (Ok self', w')
     ∧ Table._data self' = Some df'
     ∧ getitem df' "seen" = Ok [VStr "2024-03-01"; VNull])
  ∧ (∃ self' w' df',
       Table._apply_transforms Sample.env Sample.by_region Sample.world_by_region
       = (Ok self', w')
       ∧ Table._data self' = Some df'
       ∧ getitem df' "seen" = Ok [VTime (mkTimestamp 2024 3 1 0)]).
Proof.
  split.
  - pose proof (date_formatted_without_partition_cols Sample.env Sample.stamped
                  Sample.world [] _ eq_refl eq_refl) as H.
    destruct (decide (@nil string = [])) as [_|]; [| done].
    destruct H as (self' & w' & df' & Hrun & Hdf & Hcols).
    { vm_compute. repeat constructor; rewrite ?elem_of_cons, ?elem_of_nil;
        intuition discriminate. }
    { intros c d. unfold Sample.stamped. simpl. rewrite elem_of_cons, elem_of_nil.
      intros [[= -> ->] | []]. eexists. split; reflexivity. }
    exists self', w', df'. split; [exact Hrun |]. split; [exact Hdf |].
    destruct (Hcols "seen" _ (list_elem_of_here _ _) eq_refl)
      as (stamps & formatted & Hstamps & Hformatted & Hcol).
    injection Hstamps as <-. injection Hformatted as <-. exact Hcol.
  - assert (∃ s' w', Table._apply_transforms Sample.env Sample.by_region
                       Sample.world_by_region = (Ok s', w')) as (s' & w' & Hrun)
      by (eexists _, _; vm_compute; reflexivity).
    pose proof (date_formatted_without_partition_cols Sample.env Sample.by_region
                  Sample.world_by_region ["region"] _ eq_refl eq_refl) as H.
    destruct (decide (["region"] = [])) as [|_]; [done |].
    destruct (H ltac:(vm_compute; repeat constructor; rewrite ?elem_of_cons, ?elem_of_nil;
                        intuition discriminate)
                "seen" s' w') as (df' & Hdf & Hcol); [| | | exact Hrun |].
    + apply list_elem_of_further, list_elem_of_here.
    + rewrite elem_of_cons, elem_of_nil. intuition discriminate.
    + unfold ymd. rewrite !elem_of_cons, elem_of_nil. intuition discriminate.
    + exists s', w', df'. split; [exact Hrun |]. split; [exact Hdf | exact Hcol].
Defined.

(** ** The date partition *)

Lemma transform_items_app env items1 items2 self w :
  Table.transform_items env (items1 ++ items2) self w =
  bind (Table.transform_items env items1 self) (Table.transform_items env items2) w.
Proof.
  revert self w. induction items1 as [|[c d] rest IH]; intros self w; simpl; [done |].
  unfold bind in *.
  destruct (Table.transform_column env self c d w) as [[s1|e] w1]; [| done].
  by rewrite IH.
Qed.

Lemma decompose_run env self w pcs df column col stamps yyyy mm dd :
  heap w !! Table.partition_cols self = Some pcs →
  Table._data self = Some df →
  column ∈ pcs → column ∉ ymd →
  getitem df column = Ok col →
  pd_astype env datetime64 col = Ok stamps →
  pd_apply_attr env "year" stamps = Ok yyyy →
  pd_apply_attr env "month" stamps = Ok mm →
  pd_apply_attr env "day" stamps = Ok dd →
  ∃ pcs',
    remove_first column pcs = Some pcs'
    ∧ Table.decompose env self column datetime64 w =
        (Ok (Table.set_partition_cols
               (Table.set_data self (decomposed df column stamps yyyy mm dd))
               (repartitioned (heap w) (Table.partition_cols self) pcs').1),
         set_heap (repartitioned (heap w) (Table.partition_cols self) pcs').2 w).
Proof.
  intros Hpcs Hdf Hin Hymd Hcol Hstamps Hyyyy Hmm Hdd.
  destruct (elem_of_remove_first _ _ Hin) as [pcs' Hrem]. exists pcs'. split; [done |].
  unfold ymd in Hymd. rewrite !not_elem_of_cons in Hymd.
  destruct Hymd as (Hy & Hm & Hd & _).
  unfold Table.decompose.
  erewrite bind_run by (unfold Table.data_of; rewrite Hdf; reflexivity).
  erewrite bind_run by (unfold lift; rewrite Hcol; reflexivity).
  erewrite bind_run by (unfold lift; rewrite Hstamps; reflexivity).
  erewrite bind_run by (unfold lift; rewrite getitem_setitem_eq; reflexivity).
  erewrite bind_run by (unfold lift; rewrite Hyyyy; reflexivity).
  erewrite bind_run
    by (unfold lift; rewrite getitem_setitem_ne, getitem_setitem_eq by done; reflexivity).
  erewrite bind_run by (unfold lift; rewrite Hmm; reflexivity).
  erewrite bind_run
    by (unfold lift; rewrite !getitem_setitem_ne, getitem_setitem_eq by done; reflexivity).
  erewrite bind_run by (unfold lift; rewrite Hdd; reflexivity).
  erewrite bind_run.
  2: { unfold lift, drop. erewrite getitem_ok_has_column; [reflexivity |].
       rewrite !getitem_setitem_ne by done. apply getitem_setitem_eq. }
  erewrite bind_run.
  2: { unfold list_remove. erewrite bind_run by (unfold deref; rewrite Hpcs; reflexivity).
       rewrite Hrem. reflexivity. }
  reflexivity.
Qed.

(** C4, refuted as stated: the partition column [dd] is declared
    [datetime64[ns]]; the transform returns, the partition list is
    [[yyyy; mm; dd]], and the frame has the columns [yyyy] and [mm] only:
    the day column took the place of the date column and was dropped with
    it. *)
Lemma partition_column_named_dd :
  ∃ self' w' df',
    heap Sample.world_named_dd !! Table.partition_cols Sample.named_dd = Some ["dd"]
    ∧ ("dd", datetime64) ∈ Table.schema Sample.named_dd
    ∧ Table._apply_transforms Sample.env Sample.named_dd Sample.world_named_dd
      = (Ok self', w')
    ∧ Table._data self' = Some df'
    ∧ df' = [("yyyy", [VInt 2024]); ("mm", [VInt 3])]
    ∧ has_column df' "dd" = false
    ∧ heap w' !! Table.partition_cols self' = Some ["yyyy"; "mm"; "dd"].
Proof.
  eexists _, _, _. split; [reflexivity |]. split; [apply list_elem_of_here |].
  split; [vm_compute; reflexivity |].
  split; [reflexivity |]. split; [reflexivity |]. split; reflexivity.
Qed.

(** C4, amended.  Take a table whose partition list holds [column], whose
    schema declares [column] as [datetime64[ns]] and no earlier column as
    a date-typed partition column, and declares none of [yyyy], [mm], [dd]
    as a date; let the frame hold [column], let its cast to datetime
    return [stamps], and let [x.year], [x.month] and [x.day] applied to
    [stamps] return [yyyy], [mm] and [dd].  Then the transform returns;
    the frame it leaves has no [column], holds these three columns under
    the names [yyyy], [mm] and [dd], and has its other columns unchanged;
    and the table's partition list is exactly [[yyyy; mm; dd]]. *)
Theorem date_partition_decomposed
    (env : Env) (self : Table.t) (w : World) (pcs : list string) (df : DataFrame)
    (before after : list (string * string)) (column : string)
    (col stamps yyyy mm dd : Series) :
  heap w !! Table.partition_cols self = Some pcs →
  Table._data self = Some df →
  Table.schema self = (before ++ (column, datetime64) :: after)%list →
  column ∈ pcs →
  (∀ c d, (c, d) ∈ before → qualifies pcs c d = false) →
  (∀ c d, (c, d) ∈ Table.schema self → c ∈ ymd → d ≠ datetime64) →
  getitem df column = Ok col →
  pd_astype env datetime64 col = Ok stamps →
  pd_apply_attr env "year" stamps = Ok yyyy →
  pd_apply_attr env "month" stamps = Ok mm →
  pd_apply_attr env "day" stamps = Ok dd →
  ∃ self' w' df',
    Table._apply_transforms env self w = (Ok self', w')
    ∧ Table._data self' = Some df'
    ∧ has_column df' column = false
    ∧ getitem df' "yyyy" = Ok yyyy
    ∧ getitem df' "mm" = Ok mm
    ∧ getitem df' "dd" = Ok dd
    ∧ (∀ c, c ≠ column → c ∉ ymd → getitem df' c = getitem df c)
    ∧ heap w' !! Table.partition_cols self' = Some ["yyyy"; "mm"; "dd"].
Proof.
  intros Hpcs Hdf Hschema Hin Hbefore Hfresh Hcol Hstamps Hyyyy Hmm Hdd.
  assert (column ∉ ymd) as Hymd.
  { intros Hc. eapply Hfresh; [| exact Hc | reflexivity].
    rewrite Hschema. apply elem_of_app. right. apply list_elem_of_here. }
  assert (pcs ≠ []) as Hne by (by intros ->; apply elem_of_nil in Hin).
  destruct (decompose_run env self w pcs df column col stamps yyyy mm dd)
    as (pcs' & _ & Hrun); [done.. |].
  unfold Table._apply_transforms. rewrite Hschema, transform_items_app.
  erewrite bind_run by (by eapply transform_items_skip).
  simpl. erewrite bind_run.
  2: { erewrite transform_column_qualifying; [exact Hrun | done |].
       unfold qualifies. by rewrite !bool_decide_eq_true_2. }
  erewrite transform_items_skip; [| apply repartitioned_lookup | done |].
  2: { intros c d Hcd. unfold qualifies. apply andb_false_iff.
       destruct (decide (c ∈ ymd)) as [Hc|Hc].
       - right. apply bool_decide_eq_false. eapply Hfresh; [| exact Hc].
         rewrite Hschema. apply elem_of_app. right. by apply list_elem_of_further.
       - left. by apply bool_decide_eq_false. }
  eexists _, _, _. split; [reflexivity |]. split; [reflexivity |].
  unfold ymd in Hymd. rewrite !not_elem_of_cons in Hymd.
  destruct Hymd as (Hy & Hm & Hd & _).
  repeat split.
  - unfold has_column, decomposed. apply bool_decide_eq_false.
    intros ([c s] & -> & [Hc _]%list_elem_of_filter)%list_elem_of_fmap. by apply Hc.
  - unfold decomposed. rewrite getitem_filter_ne by done.
    rewrite !getitem_setitem_ne by done. apply getitem_setitem_eq.
  - unfold decomposed. rewrite getitem_filter_ne by done.
    rewrite getitem_setitem_ne by done. apply getitem_setitem_eq.
  - unfold decomposed. rewrite getitem_filter_ne by done. apply getitem_setitem_eq.
  - intros c Hc1 Hc2. by apply decomposed_other.
  - apply repartitioned_lookup.
Qed.

(** The sample rows, partitioned by [date]: the dates [2024-03-01] and
    [2024-03-02] give the years 2024 and 2024, the months 3 and 3, the
    days 1 and 2. *)
Lemma date_partition_decomposed_witness :
  ∃ self' w' df',
    Table._apply_transforms Sample.env Sample.fetched Sample.world = (Ok self', w')
    ∧ Table._data self' = Some df'
    ∧ has_column df' "date" = false
    ∧ getitem df' "yyyy" = Ok [VInt 2024; VInt 2024]
    ∧ getitem df' "mm" = Ok [VInt 3; VInt 3]
    ∧ getitem df' "dd" = Ok [VInt 1; VInt 2]
    ∧ (∀ c, c ≠ "date" → c ∉ ymd → getitem df' c = getitem Sample.rows c)
    ∧ heap w' !! Table.partition_cols self' = Some ["yyyy"; "mm"; "dd"].
Proof.
  refine (date_partition_decomposed Sample.env Sample.fetched Sample.world ["date"]
            Sample.rows [] [("price", "int64")] "date"
            [VStr "2024-03-01"; VStr "2024-03-02"]
            [VTime (mkTimestamp 2024 3 1 0); VTime (mkTimestamp 2024 3 2 0)]
            [VInt 2024; VInt 2024] [VInt 3; VInt 3] [VInt 1; VInt 2]
            eq_refl eq_refl eq_refl _ _ _ eq_refl eq_refl eq_refl eq_refl eq_refl).
  - apply list_elem_of_here.
  - intros c d Hin. by apply elem_of_nil in Hin.
  - intros c d Hin Hymd ->. revert Hin Hymd.
    unfold ymd, datetime64, Sample.fetched, Sample.schema, datetime64. simpl.
    rewrite !elem_of_cons, !elem_of_nil. intuition congruence.
Defined.

(** Of two date-typed partition columns only the first is decomposed: once
    the list is [[yyyy; mm; dd]] the second no longer passes the test of
    line 77. *)
Example second_date_partition_column_stays :
  ∃ self' w' df',
    Table._apply_transforms Sample.env Sample.two_dates Sample.world_two_dates
    = (Ok self', w')
    ∧ Table._data self' = Some df'
    ∧ df' = [("closed", [VStr "2024-04-02"]); ("yyyy", [VInt 2024]);
             ("mm", [VInt 3]); ("dd", [VInt 1])]
    ∧ heap w' !! Table.partition_cols self' = Some ["yyyy"; "mm"; "dd"].
Proof.
  eexists _, _, _. split; [vm_compute; reflexivity |].
  split; [reflexivity |]. split; reflexivity.
Qed.

(** ** What a refresh does to the specification of its table *)

(** A table with partition columns comes out of the transform either
    untouched, world included, or with [[yyyy; mm; dd]] as its list. *)
Lemma transform_items_partitioned_result env items self w pcs self1 w1 :
  heap w !! Table.partition_cols self = Some pcs → pcs ≠ [] →
  Table.transform_items env items self w = (Ok self1, w1) →
  (self1 = self ∧ w1 = w) ∨ heap w1 !! Table.partition_cols self1 = Some ymd.
Proof.
  revert self w pcs. induction items as [|[c d] rest IH]; intros self w pcs Hpcs Hne; simpl.
  - intros [= <- <-]. by left.
  - rewrite bind_ok. intros (s1 & w0 & Hcol & Hrest).
    destruct (qualifies pcs c d) eqn:Hq.
    + rewrite (transform_column_qualifying _ _ _ _ _ _ Hpcs Hq) in Hcol.
      apply decompose_inv in Hcol
        as (df & col & stamps & yyyy & mm & dd & pcs0 & pcs' & _ & _ & _ & _ & _ & -> & ->).
      right.
      eapply (IH _ _ ymd) in Hrest as [[-> ->] | Hymd];
        [apply repartitioned_lookup | exact Hymd | apply repartitioned_lookup | done].
    + rewrite (transform_column_skip _ _ _ _ _ _ Hpcs Hne Hq) in Hcol.
      injection Hcol as <- <-. by eapply IH.
Qed.

(** The first turn of the loop raises when the partition list or the
    frame is not there. *)
Lemma transform_items_needs_state env c d rest self w self1 w1 :
  Table.transform_items env ((c, d) :: rest) self w = (Ok self1, w1) →
  ∃ pcs, heap w !! Table.partition_cols self = Some pcs
         ∧ (pcs = [] → ∃ df, Table._data self = Some df).
Proof.
  simpl. rewrite bind_ok. intros (s1 & w0 & Hcol & _).
  unfold Table.transform_column, deref in Hcol. unfold bind at 1 in Hcol.
  destruct (heap w !! Table.partition_cols self) as [pcs|]; [| done].
  exists pcs. split; [done |]. intros ->.
  rewrite bool_decide_eq_false_2 in Hcol by (by intros []).
  unfold Table.data_of in Hcol.
  destruct (Table._data self) as [df|]; [eauto |].
  case_bool_decide; py_unfold; simpl in Hcol; done.
Qed.

(** Whatever the schema, the transform leaves the table with the list it
    had and every list as it was, or with a list [[yyyy; mm; dd]]. *)
Lemma apply_transforms_list env self w self' w' :
  Table._apply_transforms env self w = (Ok self', w') →
  (Table.partition_cols self' = Table.partition_cols self ∧ heap w' = heap w)
  ∨ heap w' !! Table.partition_cols self' = Some ymd.
Proof.
  unfold Table._apply_transforms. intros Hok.
  destruct (Table.schema self) as [|[c d] rest] eqn:Hitems.
  { injection Hok as <- <-. by left. }
  destruct (transform_items_needs_state _ _ _ _ _ _ _ _ Hok) as (pcs & Hpcs & Hdata).
  destruct (decide (pcs = [])) as [->|Hne].
  - destruct (Hdata eq_refl) as [df Hdf].
    destruct (transform_items_unpartitioned env ((c, d) :: rest) self df w Hpcs Hdf)
      as (w1 & Hw1 & Hrun).
    rewrite Hrun in Hok. destruct (cast_all env _ df); [| done].
    injection Hok as <- <-. left. split; [done | apply Hw1].
  - destruct (transform_items_partitioned_result _ _ _ _ _ _ _ Hpcs Hne Hok)
      as [[-> ->] | Hymd]; [by left | by right].
Qed.

Lemma get_ndl_data_set_data env self date w self' w' :
  Table._get_ndl_data env self date w = (Ok self', w') →
  ∃ df, self' = Table.set_data self df.
Proof.
  unfold Table._get_ndl_data. rewrite bind_ok.
  intros (s1 & w1 & Hfetch & Hrest).
  apply bind_ok in Hrest as (? & ? & _ & Hrest).
  apply bind_ok in Hrest as (? & ? & _ & [= <- _]).
  case_bool_decide.
  - apply bind_ok in Hfetch as (? & ? & _ & Hfetch).
    apply try_reraise_ok, bind_ok in Hfetch as (df & ? & _ & [= <- _]). eauto.
  - apply bind_ok in Hfetch as (? & ? & _ & Hfetch).
    unfold try_finally in Hfetch.
    match type of Hfetch with
    | context [try_except ?m ?h ?w] => destruct (try_except m h w) as [r w2] eqn:Htry
    end.
    destruct (bind _ _ w2) as [[[]|?] ?]; simplify_eq.
    apply try_reraise_ok, bind_ok in Htry as (? & ? & _ & Htry).
    apply bind_ok in Htry as (df & ? & _ & [= <- _]). eauto.
Qed.

Lemma get_ndl_data_same_heap env self date :
  frame same_heap (Table._get_ndl_data env self date).
Proof.
  unfold Table._get_ndl_data, Table.get_table, Table.export_table, Table.data_of.
  frame_steps; try done.
  all: intros w; unfold pd_read_csv, os_remove; by destruct (files w !! _).
Qed.

Lemma put_to_aws_same_heap env self : frame same_heap (Table._put_to_aws env self).
Proof.
  unfold Table._put_to_aws, Table.data_of, Table.to_parquet.
  frame_steps; try done; try (apply deref_frame, _).
  all: intros w; unfold same_heap; by destruct (wr_to_parquet _ _ _).
Qed.

Lemma frame_ok {A} R (m : Py A) w a w' : frame R m → m w = (Ok a, w') → R w w'.
Proof. intros H Hm. specialize (H w). by rewrite Hm in H. Qed.

(** Without a column that passes the test of line 77, the transform
    leaves the list of the table, and every other list, alone. *)
Lemma transform_items_no_date_partition env self w pcs df self' w' :
  heap w !! Table.partition_cols self = Some pcs →
  Table._data self = Some df →
  (∀ c d, (c, d) ∈ Table.schema self → qualifies pcs c d = false) →
  Table._apply_transforms env self w = (Ok self', w') →
  Table.partition_cols self' = Table.partition_cols self ∧ heap w' = heap w.
Proof.
  intros Hpcs Hdf Hnone Hok. unfold Table._apply_transforms in Hok.
  destruct (decide (pcs = [])) as [->|Hne].
  - destruct (transform_items_unpartitioned env (Table.schema self) self df w Hpcs Hdf)
      as (w1 & Hw1 & Hrun).
    rewrite Hrun in Hok. destruct (cast_all env _ _); [| done].
    injection Hok as <- <-. split; [done | apply Hw1].
  - rewrite (transform_items_skip _ _ _ _ _ Hpcs Hne Hnone) in Hok.
    by injection Hok as <- <-.
Qed.

(** C9, refuted as stated: the caller hands the list [["date"]] at
    address 1 to the constructor; after the refresh that list is empty, and
    the table's [partition_cols] is another list, [[yyyy; mm; dd]]. *)
Lemma refresh_rewrites_partition_cols :
  ∃ self w1 self2 w2,
    Table.__post_init__ Sample.env "DS/T1" "updated_at" 1%positive
      Sample.schema Sample.world = (Ok self, w1)
    ∧ Table.refresh Sample.env self "2024-03-01" w1 = (Ok self2, w2)
    ∧ Table.partition_cols self = 1%positive
    ∧ heap w1 !! 1%positive = Some ["date"]
    ∧ heap w2 !! 1%positive = Some []
    ∧ Table.partition_cols self2 ≠ 1%positive
    ∧ heap w2 !! Table.partition_cols self2 = Some ["yyyy"; "mm"; "dd"].
Proof.
  eexists _, _, _, _.
  split; [vm_compute; reflexivity |].
  split; [vm_compute; reflexivity |].
  split; [reflexivity |].
  split; [reflexivity |].
  split; [reflexivity |].
  split; [discriminate | reflexivity].
Qed.

(** C9, amended.  A refresh that returns hands back the table with the
    name, the update field and the schema it had.  Its partition list is
    either left as it is, the table still referring to the caller's list and
    no list changed, or it is a list [[yyyy; mm; dd]]; and it is left as it
    is whenever no schema column is both in the partition list and declared
    [datetime64[ns]]. *)
Theorem refresh_keeps_spec
    (env : Env) (self : Table.t) (date : string) (w : World)
    (self' : Table.t) (w' : World) :
  Table.refresh env self date w = (Ok self', w') →
  Table.name self' = Table.name self
  ∧ Table.update_field self' = Table.update_field self
  ∧ Table.schema self' = Table.schema self
  ∧ ((Table.partition_cols self' = Table.partition_cols self ∧ heap w' = heap w)
     ∨ heap w' !! Table.partition_cols self' = Some ["yyyy"; "mm"; "dd"])
  ∧ ∀ pcs,
      heap w !! Table.partition_cols self = Some pcs →
      (∀ c d, (c, d) ∈ Table.schema self → qualifies pcs c d = false) →
      Table.partition_cols self' = Table.partition_cols self ∧ heap w' = heap w.
Proof.
  intros Hrefresh.
  destruct (refresh_same_spec _ _ _ _ _ _ Hrefresh) as [Hname Huf Hschema _ _].
  split; [done |]. split; [done |]. split; [done |].
  unfold Table.refresh in Hrefresh.
  apply bind_ok in Hrefresh as (s1 & w1 & Hfetch & Hrefresh).
  apply bind_ok in Hrefresh as (s2 & w2 & Htransform & Hrefresh).
  apply bind_ok in Hrefresh as ([] & w3 & Hput & [= <- <-]).
  destruct (get_ndl_data_set_data _ _ _ _ _ _ Hfetch) as [df ->].
  pose proof (frame_ok _ _ _ _ _ (get_ndl_data_same_heap env self date) Hfetch) as Hh1.
  pose proof (frame_ok _ _ _ _ _ (put_to_aws_same_heap env s2) Hput) as Hh3.
  unfold same_heap in Hh1, Hh3. split.
  - destruct (apply_transforms_list _ _ _ _ _ Htransform) as [[Hpc Hh2] | Hymd].
    + left. split; [done | congruence].
    + right. by rewrite Hh3.
  - intros pcs Hpcs Hnone.
    destruct (transform_items_no_date_partition env (Table.set_data self df) w1 pcs df _ _
                ltac:(by rewrite Hh1) eq_refl ltac:(done) Htransform) as [Hpc Hh2].
    split; [done | congruence].
Qed.

(** The refresh of [DS/T2], whose partition list is the empty list at
    address 2. *)
Lemma refresh_keeps_spec_witness :
  ∃ self' w',
    Table.refresh Sample.env Sample.plain "2024-03-01" Sample.world = (Ok self', w')
    ∧ Table.name self' = "DS/T2"
    ∧ Table.update_field self' = ""
    ∧ Table.schema self' = Sample.schema
    ∧ Table.partition_cols self' = 2%positive
    ∧ heap w' = heap Sample.world.
Proof.
  assert (∃ s' w', Table.refresh Sample.env Sample.plain "2024-03-01" Sample.world
                   = (Ok s', w')) as (s' & w' & Hrun)
    by (eexists _, _; vm_compute; reflexivity).
  exists s', w'. split; [exact Hrun |].
  destruct (refresh_keeps_spec Sample.env Sample.plain "2024-03-01" Sample.world s' w' Hrun)
    as (Hname & Huf & Hschema & _ & Hlist).
  split; [exact Hname |]. split; [exact Huf |]. split; [exact Hschema |].
  refine (Hlist [] eq_refl _).
  intros c d _. unfold qualifies. apply andb_false_iff. left.
  apply bool_decide_eq_false. apply not_elem_of_nil.
Defined.

(** ** The transform, applied twice *)





(** ** The loop over the tables of a data set *)

Section DatasetFacts.
Context (env : Env) (self : Dataset.t) (as_of_date : string).

Lemma update_items_app todo1 todo2 w :
  Dataset.update_items env self as_of_date (todo1 ++ todo2) w =
  bind (Dataset.update_items env self as_of_date todo1)
    (λ _, Dataset.update_items env self as_of_date todo2) w.
Proof.
  revert w. induction todo1 as [|[table_name metadata] rest IH]; intros w; simpl; [done |].
  unfold bind in *.
  destruct (Dataset.update_guarded env self as_of_date table_name metadata w)
    as [[[]|e] w1]; [| done].
  by rewrite IH.
Qed.

(** One turn never raises: the table is constructed and refreshed, or the
    exception is logged under the name of the table. *)
Lemma update_guarded_outcome table_name metadata w :
  ∃ w',
    Dataset.update_guarded env self as_of_date table_name metadata w = (Ok (), w')
    ∧ (Dataset.update_one env self as_of_date table_name metadata w = (Ok (), w')
       ∨ ∃ e w_e,
           Dataset.update_one env self as_of_date table_name metadata w = (Raise e, w_e)
           ∧ w' = add_log ERROR
                    ("Failed to refresh " +:+ Dataset.dataset_name self +:+ "/"
                     +:+ table_name +:+ ": " +:+ str_of_exception e) w_e).
Proof.
  unfold Dataset.update_guarded, try_except.
  destruct (Dataset.update_one env self as_of_date table_name metadata w)
    as [[[]|e] w1]; eexists; (split; [reflexivity |]); eauto.
Qed.

Lemma update_items_returns todo w :
  ∃ w', Dataset.update_items env self as_of_date todo w = (Ok (), w').
Proof.
  revert w. induction todo as [|[table_name metadata] rest IH]; intros w; simpl.
  - by exists w.
  - destruct (update_guarded_outcome table_name metadata w) as (w1 & Hrun & _).
    rewrite (bind_run _ _ _ _ _ Hrun). apply IH.
Qed.

End DatasetFacts.

(** C8.  [update_tables] returns, with no value, whatever happens inside.
    For every table of the data set: the tables before it have been gone
    through and have left a world [w_in]; in that world the table is
    constructed under the name [dataset/table] and refreshed; when either
    raises, the exception is logged at level ERROR under that name; and from
    the world so reached the loop goes on with the tables after it. *)
Theorem update_tables_isolates_failures
    (env : Env) (self : Dataset.t) (as_of_date : string) (w : World) :
  (∃ w_end, Dataset.update_tables env self as_of_date w = (Ok (), w_end))
  ∧ ∀ before table_name metadata after,
      Dataset.items self = (before ++ (table_name, metadata) :: after)%list →
      ∃ w_in w_out,
        Dataset.update_items env self as_of_date before w = (Ok (), w_in)
        ∧ (Dataset.update_one env self as_of_date table_name metadata w_in = (Ok (), w_out)
           ∨ ∃ e w_e,
               Dataset.update_one env self as_of_date table_name metadata w_in
                 = (Raise e, w_e)
               ∧ w_out = add_log ERROR
                           ("Failed to refresh " +:+ Dataset.dataset_name self +:+ "/"
                            +:+ table_name +:+ ": " +:+ str_of_exception e) w_e)
        ∧ Dataset.update_tables env self as_of_date w
            = Dataset.update_items env self as_of_date after w_out.
Proof.
  split; [apply update_items_returns |].
  intros before table_name metadata after Hitems.
  destruct (update_items_returns env self as_of_date before w) as [w_in Hbefore].
  destruct (update_guarded_outcome env self as_of_date table_name metadata w_in)
    as (w_out & Hrun & Houtcome).
  exists w_in, w_out. split; [done |]. split; [done |].
  unfold Dataset.update_tables. rewrite Hitems, update_items_app.
  rewrite (bind_run _ _ _ _ _ Hbefore). simpl.
  by rewrite (bind_run _ _ _ _ _ Hrun).
Qed.

(** [A] and [C] are written although [B] fails in between; the failure
    of [B] is logged by the fetch and by the loop, and nothing else is. *)
Lemma update_tables_isolates_failures_witness :
  ∃ w_in w_out w_end,
    Dataset.update_items Sample.env_B_down Sample.abc "2024-03-01"
      [("A", Sample.plain_table)] Sample.world = (Ok (), w_in)
    ∧ is_ok (Dataset.update_one Sample.env_B_down Sample.abc "2024-03-01"
               "B" Sample.plain_table w_in).1 = false
    ∧ Dataset.update_tables Sample.env_B_down Sample.abc "2024-03-01" Sample.world
        = Dataset.update_items Sample.env_B_down Sample.abc "2024-03-01"
            [("C", Sample.plain_table)] w_out
    ∧ Dataset.update_tables Sample.env_B_down Sample.abc "2024-03-01" Sample.world
        = (Ok (), w_end)
    ∧ s3_keys w_end = ["s3://bucket/nasdaq/DS/A/A.parquet"; "s3://bucket/nasdaq/DS/C/C.parquet"]
    ∧ filter (λ entry, Sample.is_error entry = true) (logs w_end)
        = [(ERROR, "Failed to get new data for DS/B: 503");
           (ERROR, "Failed to refresh DS/B: 503")].
Proof.
  destruct (proj2 (update_tables_isolates_failures Sample.env_B_down Sample.abc
                     "2024-03-01" Sample.world)
              [("A", Sample.plain_table)] "B" Sample.plain_table
              [("C", Sample.plain_table)] eq_refl)
    as (w_in & w_out & Hbefore & Houtcome & Hafter).
  assert (w_in = (Dataset.update_items Sample.env_B_down Sample.abc "2024-03-01"
                    [("A", Sample.plain_table)] Sample.world).2) as Hw_in
    by (by rewrite Hbefore).
  exists w_in, w_out. eexists.
  split; [exact Hbefore |].
  split; [rewrite Hw_in; vm_compute; reflexivity |].
  split; [exact Hafter |].
  split; [vm_compute; reflexivity |].
  split; vm_compute; reflexivity.
Defined.

(** * Further properties of the code *)

(** ** The name of a data set *)

Lemma split_nonempty sep s : PyStr.split sep s ≠ [].
Proof. by destruct (split_head_cons sep s) as (seg & segs & ->). Qed.

Lemma split_segments_no_sep sep s seg :
  seg ∈ PyStr.split sep s → PyStr.contains sep seg = false.
Proof.
  revert seg. induction s as [|c s IH]; intros seg; simpl.
  - by intros ->%list_elem_of_singleton.
  - destruct (Ascii.eqb c sep) eqn:Hc.
    + intros [->|Hin]%elem_of_cons; [done | by apply IH].
    + destruct (split_head_cons sep s) as (seg0 & segs & Hs). rewrite Hs in IH |- *.
      intros [->|Hin]%elem_of_cons.
      * simpl. rewrite Hc. simpl. apply IH, list_elem_of_here.
      * by apply IH, list_elem_of_further.
Qed.

Lemma last_elem_of {A} (l : list A) d : l ≠ [] → List.last l d ∈ l.
Proof.
  induction l as [|x [|y l] IH]; intros Hne; [done | apply list_elem_of_here |].
  apply list_elem_of_further. by apply IH.
Qed.

Lemma upper_char_idem c : PyStr.upper_char (PyStr.upper_char c) = PyStr.upper_char c.
Proof. destruct c as [[] [] [] [] [] [] [] []]; reflexivity. Qed.

Lemma upper_char_slash c :
  Ascii.eqb (PyStr.upper_char c) PyStr.slash = Ascii.eqb c PyStr.slash.
Proof. destruct c as [[] [] [] [] [] [] [] []]; reflexivity. Qed.

Lemma upper_idem s : PyStr.upper (PyStr.upper s) = PyStr.upper s.
Proof. induction s as [|c s IH]; simpl; [done |]. by rewrite upper_char_idem, IH. Qed.

Lemma upper_app s t : PyStr.upper (s +:+ t) = PyStr.upper s +:+ PyStr.upper t.
Proof. induction s as [|c s IH]; simpl; [done |]. by rewrite IH. Qed.

Lemma contains_slash_upper s :
  PyStr.contains PyStr.slash (PyStr.upper s) = PyStr.contains PyStr.slash s.
Proof. induction s as [|c s IH]; simpl; [done |]. by rewrite upper_char_slash, IH. Qed.

Lemma split_upper s :
  PyStr.split PyStr.slash (PyStr.upper s) = PyStr.upper <$> PyStr.split PyStr.slash s.
Proof.
  induction s as [|c s IH]; simpl; [done |].
  rewrite upper_char_slash. destruct (Ascii.eqb c PyStr.slash); simpl.
  - by rewrite IH.
  - rewrite IH. by destruct (split_head_cons PyStr.slash s) as (seg & segs & ->).
Qed.

Lemma derive_dataset_name_no_slash file_path :
  PyStr.contains PyStr.slash (Dataset.derive_dataset_name file_path) = false.
Proof.
  unfold Dataset.derive_dataset_name.
  eapply split_segments_no_sep, last_elem_of, split_nonempty.
Qed.

(** X1.  Whatever the path, the name of the data set has no ['/'] in it
    and is left unchanged by [upper]: it holds no letter [a] to [z]. *)
Theorem dataset_name_shape (file_path : string) :
  PyStr.contains PyStr.slash (Dataset.derive_dataset_name file_path) = false
  ∧ PyStr.upper (Dataset.derive_dataset_name file_path)
    = Dataset.derive_dataset_name file_path.
Proof.
  split; [apply derive_dataset_name_no_slash |].
  unfold Dataset.derive_dataset_name.
  set (stem := PyStr.replace_all ".yaml" "" file_path).
  rewrite split_upper.
  assert (List.last (PyStr.upper <$> PyStr.split PyStr.slash stem) ""
          ∈ PyStr.upper <$> PyStr.split PyStr.slash stem) as Hin.
  { apply last_elem_of. destruct (split_head_cons PyStr.slash stem) as (? & ? & ->).
    done. }
  apply list_elem_of_fmap in Hin as (seg & -> & _). apply upper_idem.
Qed.

Lemma contains_app c s t :
  PyStr.contains c (s +:+ t) = PyStr.contains c s || PyStr.contains c t.
Proof. induction s as [|c0 s IH]; simpl; [done |]. by rewrite IH, orb_assoc. Qed.

Lemma append_cons c (s t : string) : String c s +:+ t = String c (s +:+ t).
Proof. reflexivity. Qed.

Lemma append_nil_r (s : string) : s +:+ "" = s.
Proof. induction s as [|c s IH]; [done |]. by rewrite append_cons, IH. Qed.

Lemma string_app_assoc (s t u : string) : (s +:+ t) +:+ u = s +:+ t +:+ u.
Proof. induction s as [|c s IH]; [done |]. by rewrite !append_cons, IH. Qed.

(** Text without the first character of [old] holds no occurrence of
    it. *)
Lemma replace_go_passes o old' new s t :
  PyStr.contains o s = false →
  PyStr.replace_go (String o old') new 0 (s +:+ t)
  = s +:+ PyStr.replace_go (String o old') new 0 t.
Proof.
  induction s as [|c s IH]; simpl; [done |].
  intros [Hc Hs]%orb_false_iff.
  destruct (Ascii.ascii_dec o c) as [->|Hne].
  - by rewrite Ascii.eqb_refl in Hc.
  - by rewrite IH.
Qed.

Lemma split_app_sep sep s t :
  PyStr.split sep (s +:+ String sep t) = (PyStr.split sep s ++ PyStr.split sep t)%list.
Proof.
  induction s as [|c s IH]; simpl.
  - by rewrite Ascii.eqb_refl.
  - rewrite IH. destruct (Ascii.eqb c sep); [done |].
    by destruct (split_head_cons sep s) as (seg & segs & ->).
Qed.

Lemma split_no_sep sep s : PyStr.contains sep s = false → PyStr.split sep s = [s].
Proof.
  induction s as [|c s IH]; simpl; [done |].
  intros [Hc Hs]%orb_false_iff. rewrite Hc, (IH Hs). done.
Qed.

Lemma last_app_singleton {A} (l : list A) x d : List.last (l ++ [x]) d = x.
Proof. induction l as [|y [|z l] IH]; simpl in *; done. Qed.

(** X2.  For a file [base.yaml] in a directory, where [base] is ASCII
    text, neither the directory nor [base] has a dot and [base] has no
    ['/'], the name of the data set is [base] with its letters [a] to [z]
    in upper case. *)
Theorem dataset_name_of_yaml_file (dir base : string) :
  PyStr.is_ascii base = true →
  PyStr.contains PyStr.dot dir = false →
  PyStr.contains PyStr.dot base = false →
  PyStr.contains PyStr.slash base = false →
  Dataset.derive_dataset_name (dir +:+ "/" +:+ base +:+ ".yaml") = PyStr.upper base.
Proof.
  intros _ Hdir Hbase Hslash. unfold Dataset.derive_dataset_name, PyStr.replace_all.
  assert (dir +:+ "/" +:+ base +:+ ".yaml" = (dir +:+ "/" +:+ base) +:+ ".yaml") as ->.
  { by rewrite !string_app_assoc. }
  rewrite replace_go_passes.
  2: { unfold PyStr.dot in *. rewrite !contains_app, Hdir, Hbase. reflexivity. }
  change (PyStr.replace_go ".yaml" "" 0 ".yaml") with "".
  rewrite append_nil_r.
  change (dir +:+ "/" +:+ base) with (dir +:+ String PyStr.slash base).
  rewrite upper_app. simpl.
  change (PyStr.upper_char PyStr.slash) with PyStr.slash.
  rewrite split_app_sep.
  rewrite (split_no_sep _ (PyStr.upper base)) by (by rewrite contains_slash_upper).
  apply last_app_singleton.
Qed.

Lemma dataset_name_of_yaml_file_witness :
  Dataset.derive_dataset_name "/app/schemas/zacks.yaml" = "ZACKS".
Proof.
  exact (dataset_name_of_yaml_file "/app/schemas" "zacks" eq_refl eq_refl eq_refl eq_refl).
Defined.

(** ** The keys of the tables of a loaded data set *)

Lemma init_inv file_path loaded w ds w' :
  Dataset.__init__ file_path loaded w = (Ok ds, w') →
  loaded = Ok (Dataset.items ds)
  ∧ Dataset.dataset_name ds = Dataset.derive_dataset_name file_path.
Proof.
  unfold Dataset.__init__. rewrite bind_ok.
  intros (tables & w1 & [-> ->]%lift_ok & H).
  apply bind_ok in H as ([] & w2 & _ & H).
  apply bind_ok in H as ([] & w3 & _ & [= <- _]). done.
Qed.

(** X3.  In a data set made by [__init__], the qualified name of every
    table has the name of the data set as its first segment.  So the key
    derivation of the constructor returns for every table and every update
    field, and for a table without update field the key is
    [dir/DATASET/table/basename.parquet], where [basename] is the table name
    up to its first ['/'], the whole name when it has none. *)
Theorem loaded_dataset_keys
    (env : Env) (file_path : string) (loaded : Result (list (string * Dataset.Metadata)))
    (w w' : World) (ds : Dataset.t) (table_name : string) :
  Dataset.__init__ file_path loaded w = (Ok ds, w') →
  let qualified := Dataset.dataset_name ds +:+ "/" +:+ table_name in
  let basename := hd "" (PyStr.split PyStr.slash table_name) in
  (∀ update_field, is_ok (Table.derive_s3_key env qualified update_field) = true)
  ∧ Table.derive_s3_key env qualified ""
    = Ok (AWS_BUCKET_DIR env +:+ "/" +:+ qualified +:+ "/" +:+ basename +:+ ".parquet")
  ∧ (PyStr.contains PyStr.slash table_name = false → basename = table_name).
Proof.
  intros [_ Hname]%init_inv. cbv zeta.
  pose proof (derive_dataset_name_no_slash file_path) as Hslash.
  rewrite <- Hname in Hslash.
  assert (PyStr.split PyStr.slash (Dataset.dataset_name ds +:+ "/" +:+ table_name) !! 1%nat
          = Some (hd "" (PyStr.split PyStr.slash table_name))) as Hsecond.
  { change (Dataset.dataset_name ds +:+ "/" +:+ table_name)
      with (Dataset.dataset_name ds +:+ String PyStr.slash table_name).
    rewrite split_app_sep, (split_no_sep _ _ Hslash). simpl.
    by destruct (split_head_cons PyStr.slash table_name) as (seg & segs & ->). }
  split; [| split].
  - intros update_field. unfold Table.derive_s3_key. rewrite Hsecond.
    by destruct (negb _).
  - unfold Table.derive_s3_key. simpl. by rewrite Hsecond.
  - intros Hno. by rewrite (split_no_sep _ _ Hno).
Qed.

Lemma loaded_dataset_keys_witness :
  Table.derive_s3_key Sample.env ("ZACKS" +:+ "/" +:+ "FC") ""
  = Ok "nasdaq/ZACKS/FC/FC.parquet".
Proof.
  exact (proj1 (proj2 (loaded_dataset_keys Sample.env "/app/schemas/zacks.yaml"
                         (Ok [("FC", Sample.plain_table)]) Sample.world _ _ "FC"
                         eq_refl))).
Defined.

(** ** Construction against a bucket *)

Lemma prefix_app (s t : string) : String.prefix s (s +:+ t) = true.
Proof.
  induction s as [|c s IH]; [by destruct t |].
  rewrite append_cons. simpl. by destruct (Ascii.ascii_dec c c).
Qed.

(** X4.  When the listing of the bucket raises, the constructor of a
    table with an update field raises that same exception; it has made the
    one listing request, for at most one key under the table's key, and has
    changed no object, file or list. *)
Theorem construction_propagates_listing_fault
    (env : Env) (name update_field : string) (partition_cols : loc)
    (schema : list (string * string)) (w : World) (e : Exception) :
  update_field ≠ "" →
  s3_fault w = Some e →
  ∃ w',
    Table.__post_init__ env name update_field partition_cols schema w = (Raise e, w')
    ∧ calls w' = (calls w ++ [ListObjects (AWS_BUCKET env)
                                (AWS_BUCKET_DIR env +:+ "/" +:+ name) 1])%list
    ∧ s3_keys w' = s3_keys w ∧ files w' = files w ∧ heap w' = heap w.
Proof.
  intros Hne%truthy_nonempty Hfault. unfold Table.__post_init__, Table.derive_s3_key.
  rewrite Hne. simpl. rewrite append_nil_r.
  unfold bind at 1. unfold lift.
  unfold bind at 1. unfold logger, modify.
  unfold try_except. erewrite bind_raise by (by apply list_objects_fault).
  eexists. split; [reflexivity |]. done.
Qed.

Lemma construction_propagates_listing_fault_witness :
  ∃ w',
    Table.__post_init__ Sample.env "DS/T1" "updated_at" 1%positive Sample.schema
      Sample.world_no_listing = (Raise (ClientError "AccessDenied"), w')
    ∧ calls w' = [ListObjects "bucket" "nasdaq/DS/T1" 1].
Proof.
  destruct (construction_propagates_listing_fault Sample.env "DS/T1" "updated_at"
              1%positive Sample.schema Sample.world_no_listing
              (ClientError "AccessDenied") ltac:(discriminate) eq_refl)
    as (w' & Hrun & Hcalls & _).
  by exists w'.
Defined.

(** X5.  The existence check is a check of key prefixes: any object whose
    key starts with the key of the table, be it an object of another table
    whose name merely continues this one's, makes the constructor choose
    [OverwritePartitions]. *)
Theorem longer_key_counts_as_destination
    (env : Env) (name update_field suffix : string) (partition_cols : loc)
    (schema : list (string * string)) (w : World) :
  update_field ≠ "" →
  s3_fault w = None →
  (AWS_BUCKET_DIR env +:+ "/" +:+ name) +:+ suffix ∈ s3_keys w →
  ∃ self w',
    Table.__post_init__ env name update_field partition_cols schema w = (Ok self, w')
    ∧ Table.refresh_mode self = OverwritePartitions.
Proof.
  intros Hne%truthy_nonempty Hfault Hin.
  assert (object_under w (AWS_BUCKET_DIR env +:+ "/" +:+ name) = true) as Hobj.
  { unfold object_under. apply existsb_exists. eexists. split.
    - apply list_elem_of_In, Hin.
    - apply prefix_app. }
  unfold Table.__post_init__, Table.derive_s3_key.
  rewrite Hne. simpl. rewrite append_nil_r.
  unfold bind at 1. unfold lift.
  unfold bind at 1. unfold logger, modify.
  unfold try_except. erewrite bind_run by (by apply list_objects_run).
  change (object_under (add_log _ _ w) ?k) with (object_under w k).
  rewrite Hobj. unfold has_Contents. simpl. eexists _, _. split; reflexivity.
Qed.

Lemma longer_key_counts_as_destination_witness :
  ∃ self w',
    Table.__post_init__ Sample.env "DS/T1" "updated_at" 1%positive Sample.schema
      Sample.world_sibling = (Ok self, w')
    ∧ Table.refresh_mode self = OverwritePartitions.
Proof.
  refine (longer_key_counts_as_destination Sample.env "DS/T1" "updated_at"
            "0/yyyy=2024/mm=3/dd=1/part0.parquet" 1%positive Sample.schema
            Sample.world_sibling ltac:(discriminate) eq_refl _).
  apply list_elem_of_here.
Defined.

(** ** The fetch, when it returns and when it raises *)

Lemma mode_not_incremental (m : RefreshMode) :
  m ∉ [Append; OverwritePartitions] → m = Overwrite.
Proof. destruct m; rewrite !elem_of_cons, elem_of_nil; intuition congruence. Qed.

(** The request of a fetch that returns. *)
Lemma get_ndl_data_ok_requests env self date w self' w' :
  Table._get_ndl_data env self date w = (Ok self', w') →
  calls w'
  = (calls w
     ++ [if bool_decide (Table.refresh_mode self ∈ [Append; OverwritePartitions])
         then GetTable (Table.name self) true [(Table.update_field self, date)]
         else ExportTable (Table.name self) (Table.zip_name self)])%list
  ∧ s3_keys w' = s3_keys w.
Proof.
  intros Hok. case_bool_decide as Hmode.
  - unfold Table._get_ndl_data in Hok. rewrite bool_decide_eq_true_2 in Hok by done.
    apply bind_ok in Hok as (s1 & w1 & Hfetch & Hrest).
    apply bind_ok in Hrest as (df & w2 & Hdata & Hrest).
    apply bind_ok in Hrest as ([] & w3 & [= <-] & [= _ <-]).
    apply bind_ok in Hfetch as ([] & w0 & [= <-] & Hfetch).
    apply try_reraise_ok, bind_ok in Hfetch as (df0 & w4 & Hget & [= <- <-]).
    unfold Table.data_of in Hdata. simpl in Hdata. injection Hdata as _ <-.
    unfold Table.get_table in Hget. case_bool_decide; [done |].
    by apply bind_ok in Hget as ([] & w5 & [= <-] & [Hget ->]%lift_ok).
  - apply mode_not_incremental in Hmode.
    destruct (get_ndl_data_export env self date w Hmode)
      as (r & w0 & Hrun & _ & Hcalls & Hkeys & _).
    rewrite Hok in Hrun. by injection Hrun as <- <-.
Qed.

(** X6.  When the fetch returns, the table holds exactly the frame that
    the service delivered: the answer to the request filtered on update
    field = date in the incremental modes, the parsed export otherwise.  It
    has made that one request, has logged the number of rows last, and has
    changed no object of the bucket and no list. *)
Theorem fetch_returns_delivered_frame
    (env : Env) (self : Table.t) (date : string) (w : World)
    (self' : Table.t) (w' : World) :
  Table._get_ndl_data env self date w = (Ok self', w') →
  ∃ df,
    self' = Table.set_data self df
    ∧ (if bool_decide (Table.refresh_mode self ∈ [Append; OverwritePartitions])
       then ndl_get_table env (Table.name self) [(Table.update_field self, date)] = Ok df
            ∧ calls w' = (calls w ++ [GetTable (Table.name self) true
                                        [(Table.update_field self, date)]])%list
            ∧ files w' = files w
       else ndl_export_table env (Table.name self) = Exported (Ok df)
            ∧ calls w' = (calls w ++ [ExportTable (Table.name self)
                                        (Table.zip_name self)])%list
            ∧ files w' = delete (Table.zip_name self) (files w))
    ∧ last (logs w')
      = Some (INFO, "Fetched " +:+ pretty (len df) +:+ " rows: " +:+ Table.name self +:+ ".")
    ∧ s3_keys w' = s3_keys w ∧ heap w' = heap w.
Proof.
  intros Hok.
  pose proof (frame_ok _ _ _ _ _ (get_ndl_data_same_heap env self date) Hok) as Hheap.
  unfold Table._get_ndl_data in Hok.
  apply bind_ok in Hok as (s1 & w1 & Hfetch & Hrest).
  apply bind_ok in Hrest as (df & w2 & Hdata & Hrest).
  apply bind_ok in Hrest as ([] & w3 & Hlog & [= <- <-]).
  injection Hlog as <-.
  assert (∀ df0, s1 = Table.set_data self df0 → w2 = w1 ∧ df = df0) as Hdf.
  { intros df0 ->. unfold Table.data_of in Hdata. simpl in Hdata. by injection Hdata as <- <-. }
  case_bool_decide as Hmode.
  - apply bind_ok in Hfetch as ([] & w0 & [= <-] & Hfetch).
    apply try_reraise_ok, bind_ok in Hfetch as (df0 & w4 & Hget & [= <- <-]).
    destruct (Hdf df0 eq_refl) as [-> ->].
    unfold Table.get_table in Hget. case_bool_decide; [done |].
    apply bind_ok in Hget as ([] & w5 & [= <-] & [Hget ->]%lift_ok).
    exists df0. world_simpl. split; [done |]. split; [done |].
    split; [by rewrite last_snoc | done].
  - apply mode_not_incremental in Hmode.
    destruct (get_ndl_data_export env self date w Hmode)
      as (r & w0 & Hrun & Hfiles & Hcalls & Hkeys & _ & _ & Hr).
    assert (Table._get_ndl_data env self date w
            = (Ok s1, add_log INFO ("Fetched " +:+ pretty (len df) +:+ " rows: "
                                    +:+ Table.name s1 +:+ ".") w2)) as Hagain.
    { unfold Table._get_ndl_data. rewrite bool_decide_eq_false_2
        by (rewrite Hmode, !elem_of_cons, elem_of_nil; intuition discriminate).
      rewrite (bind_run _ _ _ _ _ Hfetch). rewrite (bind_run _ _ _ _ _ Hdata).
      reflexivity. }
    rewrite Hagain in Hrun. injection Hrun as <- <-.
    destruct Hr as (df0 & Hexport & ->). destruct (Hdf df0 eq_refl) as [-> ->].
    exists df0. world_simpl. split; [done |]. split; [done |].
    split; [by rewrite last_snoc | done].
Qed.

Lemma fetch_returns_delivered_frame_witness :
  ∃ self' w',
    Table._get_ndl_data Sample.env Sample.plain "2024-03-01" Sample.world = (Ok self', w')
    ∧ self' = Table.set_data Sample.plain Sample.rows
    ∧ last (logs w') = Some (INFO, "Fetched 2 rows: DS/T2.").
Proof.
  assert (∃ s' w', Table._get_ndl_data Sample.env Sample.plain "2024-03-01" Sample.world
                   = (Ok s', w')) as (s' & w' & Hrun)
    by (eexists _, _; vm_compute; reflexivity).
  destruct (fetch_returns_delivered_frame _ _ _ _ _ _ Hrun)
    as (df & Hself & Hsource & Hlog & _).
  rewrite bool_decide_eq_false_2 in Hsource
    by (unfold Sample.plain; simpl; rewrite !elem_of_cons, elem_of_nil;
        intuition discriminate).
  destruct Hsource as [[= <-] _].
  exists s', w'. split; [exact Hrun |]. split; [exact Hself | exact Hlog].
Defined.

(** X7.  When the service fails the request of the fetch with [e] (the
    filtered request in the incremental modes; the export or the reading of
    the archive otherwise), the refresh raises [e].  The failure is the last
    thing logged, the fetch request is the only request made, so nothing is
    written, and no object of the bucket and no list has changed. *)
Theorem failed_fetch_aborts_refresh
    (env : Env) (self : Table.t) (date : string) (w : World) (e : Exception) :
  let incremental := bool_decide (Table.refresh_mode self ∈ [Append; OverwritePartitions]) in
  (if incremental
   then Table.update_field self ≠ "paginate"
        ∧ ndl_get_table env (Table.name self) [(Table.update_field self, date)] = Raise e
   else ndl_export_table env (Table.name self) = Exported (Raise e)
        ∨ ∃ partial, ndl_export_table env (Table.name self) = ExportFailed e partial) →
  ∃ w',
    Table.refresh env self date w = (Raise e, w')
    ∧ last (logs w')
      = Some (ERROR, (if incremental then "Failed to get new rows for "
                      else "Failed to get new data for ")
                     +:+ Table.name self +:+ ": " +:+ str_of_exception e)
    ∧ calls w'
      = (calls w ++ [if incremental
                     then GetTable (Table.name self) true [(Table.update_field self, date)]
                     else ExportTable (Table.name self) (Table.zip_name self)])%list
    ∧ s3_keys w' = s3_keys w ∧ heap w' = heap w.
Proof.
  cbv zeta. intros Hfail.
  cut (∃ w', Table._get_ndl_data env self date w = (Raise e, w')
             ∧ last (logs w')
               = Some (ERROR,
                       (if bool_decide (Table.refresh_mode self ∈ [Append; OverwritePartitions])
                        then "Failed to get new rows for "
                        else "Failed to get new data for ")
                       +:+ Table.name self +:+ ": " +:+ str_of_exception e)
             ∧ calls w'
               = (calls w ++ [if bool_decide (Table.refresh_mode self
                                              ∈ [Append; OverwritePartitions])
                              then GetTable (Table.name self) true
                                     [(Table.update_field self, date)]
                              else ExportTable (Table.name self) (Table.zip_name self)])%list
             ∧ s3_keys w' = s3_keys w ∧ heap w' = heap w).
  { intros (w' & Hrun & Hrest). exists w'. split; [| exact Hrest].
    unfold Table.refresh. by rewrite (bind_raise _ _ _ _ _ Hrun). }
  unfold Table._get_ndl_data. case_bool_decide as Hmode.
  - destruct Hfail as [Hpag Hget]. py_unfold. cbn [fmap list_fmap fst].
    rewrite bool_decide_eq_false_2 by (rewrite list_elem_of_singleton; congruence).
    rewrite Hget. world_simpl.
    eexists. split; [reflexivity |]. world_simpl. by rewrite last_snoc.
  - destruct Hfail as [Hexp | [[c|] Hexp]];
      [| | destruct (files w !! Table.zip_name self) as [c|] eqn:Hfile];
      py_unfold; rewrite Hexp; repeat py_step.
    1-3: eexists; (split; [reflexivity |]); world_simpl; by rewrite last_snoc.
    rewrite bool_decide_eq_false_2 by (by intros [? [=]]).
    eexists. split; [reflexivity |]. world_simpl. by rewrite last_snoc.
Qed.

Lemma failed_fetch_aborts_refresh_witness :
  ∃ w',
    Table.refresh Sample.env_B_down
      (Table.mkTable "DS/B" "" 2%positive Sample.schema "nasdaq/DS/B/B.parquet"
         Overwrite None) "2024-03-01" Sample.world = (Raise (ApiError "503"), w')
    ∧ last (logs w') = Some (ERROR, "Failed to get new data for DS/B: 503")
    ∧ calls w' = [ExportTable "DS/B" "DS.B.zip"].
Proof.
  destruct (failed_fetch_aborts_refresh Sample.env_B_down
              (Table.mkTable "DS/B" "" 2%positive Sample.schema "nasdaq/DS/B/B.parquet"
                 Overwrite None) "2024-03-01" Sample.world (ApiError "503")
              (or_intror (ex_intro _ _ eq_refl)))
    as (w' & Hrun & Hlog & Hcalls & _).
  by exists w'.
Defined.

(** ** What the transform touches *)

Global Instance same_outside_preorder : PreOrder same_outside.
Proof.
  split.
  - by intros w.
  - intros w1 w2 w3 [] []. split; congruence.
Qed.

Lemma alloc_same_outside xs : frame same_outside (alloc xs).
Proof. by intros w. Qed.

Lemma list_remove_same_outside l x : frame same_outside (list_remove l x).
Proof.
  unfold list_remove. apply frame_bind; [apply _ | apply deref_frame, _ |].
  intros xs. destruct (remove_first x xs); [by apply frame_modify | apply frame_raise, _].
Qed.

Lemma transform_items_same_outside env items self :
  frame same_outside (Table.transform_items env items self).
Proof.
  revert self. induction items as [|[column dtype] rest IH]; intros self; simpl.
  - apply frame_ret, _.
  - apply frame_bind; [apply _ | | intros ?; apply IH].
    unfold Table.transform_column, Table.decompose, Table.data_of.
    frame_steps; try done;
      first [apply deref_frame, _ | apply alloc_same_outside
            | apply list_remove_same_outside].
Qed.

(** X8.  However it ends, the transform makes no request and changes no
    object of the bucket and no file: only list objects and the log can
    differ afterwards. *)
Theorem transform_stays_local (env : Env) (self : Table.t) (w : World) :
  let w' := (Table._apply_transforms env self w).2 in
  calls w' = calls w ∧ s3_keys w' = s3_keys w ∧ s3_fault w' = s3_fault w
  ∧ files w' = files w.
Proof.
  destruct (transform_items_same_outside env (Table.schema self) self w). by repeat split.
Qed.

(** A decomposition that raises has changed nothing. *)
Lemma decompose_raises_early env self column dtype w e w' :
  Table.decompose env self column dtype w = (Raise e, w') → w' = w.
Proof.
  unfold Table.decompose, Table.data_of, list_remove, deref, alloc.
  unfold bind, lift, ret, raise, modify.
  repeat (case_match; simplify_eq; try done); by intros [= _ <-].
Qed.

(** One turn of the loop either leaves every list and the table's
    reference alone, or is a decomposition that returns. *)
Lemma transform_column_lists env self column dtype w r w' :
  Table.transform_column env self column dtype w = (r, w') →
  (heap w' = heap w
   ∧ ∀ self', r = Ok self' → Table.partition_cols self' = Table.partition_cols self)
  ∨ ∃ self' pcs pcs',
      r = Ok self' ∧ dtype = datetime64
      ∧ heap w !! Table.partition_cols self = Some pcs
      ∧ remove_first column pcs = Some pcs'
      ∧ Table.partition_cols self'
        = (repartitioned (heap w) (Table.partition_cols self) pcs').1
      ∧ heap w' = (repartitioned (heap w) (Table.partition_cols self) pcs').2.
Proof.
  unfold Table.transform_column, deref. unfold bind at 1.
  destruct (heap w !! Table.partition_cols self) as [pcs|] eqn:Hpcs.
  2: { intros [= <- <-]. left. split; [done | by intros ? [=]]. }
  destruct (bool_decide (pcs ≠ [])).
  - destruct (bool_decide (column ∈ pcs) && bool_decide (dtype = datetime64)) eqn:Hq.
    + apply andb_true_iff in Hq as [_ Hd%bool_decide_eq_true].
      destruct r as [self'|e]; intros Hrun.
      * right. apply decompose_inv in Hrun
          as (df & col & stamps & yyyy & mm & dd & pcs0 & pcs' & _ & _ & _ & Hp & Hrem & -> & ->).
        rewrite Hpcs in Hp. injection Hp as <-.
        eexists _, pcs, pcs'. by repeat split.
      * apply decompose_raises_early in Hrun as ->. left.
        split; [done | by intros ? [=]].
    + unfold ret. intros [= <- <-]. left. split; [done | by intros ? [= <-]].
  - intros Hrun. left.
    assert (heap w' = heap w) as Hheap.
    { revert Hrun. unfold Table.data_of. py_unfold.
      repeat (case_match; simplify_eq; try done); by intros [= _ <-]. }
    split; [done |]. intros self' ->. revert Hrun. unfold Table.data_of. py_unfold.
    repeat (case_match; simplify_eq; try done); by intros [= <- _].
Qed.

Lemma repartitioned_fresh h l pcs' l0 :
  is_Some (h !! l0) → (repartitioned h l pcs').1 ≠ l0.
Proof.
  unfold repartitioned. simpl. intros Hsome Heq.
  apply (is_fresh (dom (<[l := pcs']> h))). rewrite Heq.
  apply elem_of_dom. rewrite lookup_insert. by case_decide.
Qed.

Lemma repartitioned_other h l pcs' l0 :
  is_Some (h !! l0) → l0 ≠ l → (repartitioned h l pcs').2 !! l0 = h !! l0.
Proof.
  intros Hsome Hne. pose proof (repartitioned_fresh h l pcs' l0 Hsome) as Hfresh.
  unfold repartitioned in *. simpl in *.
  rewrite lookup_insert_ne by done. by rewrite lookup_insert_ne.
Qed.

Lemma repartitioned_own h l pcs' :
  is_Some (h !! l) → (repartitioned h l pcs').2 !! l = Some pcs'.
Proof.
  intros Hsome. pose proof (repartitioned_fresh h l pcs' l Hsome) as Hfresh.
  unfold repartitioned in *. simpl in *.
  rewrite lookup_insert_ne by done. apply lookup_insert_eq.
Qed.

(** List objects that are not the table's own outlive the loop. *)
Lemma transform_items_protects env (P : loc → Prop) items self w r w' :
  (∀ l, P l → is_Some (heap w !! l)) →
  ¬ P (Table.partition_cols self) →
  Table.transform_items env items self w = (r, w') →
  ∀ l, P l → heap w' !! l = heap w !! l.
Proof.
  revert self w. induction items as [|[column dtype] rest IH]; intros self w Hdom Hown; simpl.
  - by intros [= _ <-].
  - unfold bind.
    destruct (Table.transform_column env self column dtype w) as [r1 w1] eqn:Hcol.
    apply transform_column_lists in Hcol
      as [[Hheap Hpc] | (s1 & pcs & pcs' & -> & _ & Hpcs & _ & Hpc & Hheap)].
    + destruct r1 as [s1|e].
      * intros Hrest l Hl. rewrite <- Hheap.
        eapply IH; [| | exact Hrest | exact Hl].
        -- intros l0 Hl0. rewrite Hheap. by apply Hdom.
        -- by rewrite (Hpc s1 eq_refl).
      * intros [= _ <-] l Hl. by rewrite Hheap.
    + intros Hrest l Hl.
      assert (∀ l0, P l0 → heap w1 !! l0 = heap w !! l0) as Hstep.
      { intros l0 Hl0. rewrite Hheap. apply repartitioned_other; [by apply Hdom |].
        by intros ->. }
      rewrite <- (Hstep l Hl). eapply IH; [| | exact Hrest | exact Hl].
      * intros l0 Hl0. rewrite (Hstep l0 Hl0). by apply Hdom.
      * rewrite Hpc. intros Hfresh.
        exact (repartitioned_fresh _ _ _ _ (Hdom _ Hfresh) eq_refl).
Qed.

Lemma transform_items_own_list env items self w r w' pcs :
  heap w !! Table.partition_cols self = Some pcs →
  Table.transform_items env items self w = (r, w') →
  heap w' !! Table.partition_cols self = Some pcs
  ∨ ∃ column pcs',
      (column, datetime64) ∈ items
      ∧ remove_first column pcs = Some pcs'
      ∧ heap w' !! Table.partition_cols self = Some pcs'.
Proof.
  revert self w. induction items as [|[column dtype] rest IH]; intros self w Hpcs; simpl.
  - intros [= _ <-]. by left.
  - unfold bind.
    destruct (Table.transform_column env self column dtype w) as [r1 w1] eqn:Hcol.
    apply transform_column_lists in Hcol
      as [[Hheap Hpc] | (s1 & pcs0 & pcs' & -> & -> & Hpcs0 & Hrem & Hpc & Hheap)].
    + destruct r1 as [s1|e].
      * intros Hrest. specialize (Hpc s1 eq_refl).
        destruct (IH s1 w1 ltac:(by rewrite Hpc, Hheap) Hrest)
          as [Hsame | (c & pcs' & Hin & Hrem & Hnew)]; rewrite Hpc in *.
        -- by left.
        -- right. exists c, pcs'. split; [by apply list_elem_of_further | done].
      * intros [= _ <-]. left. by rewrite Hheap.
    + rewrite Hpcs in Hpcs0. injection Hpcs0 as <-. intros Hrest. right.
      exists column, pcs'. split; [apply list_elem_of_here |]. split; [done |].
      erewrite (transform_items_protects env (λ l, l = Table.partition_cols self));
        [| | | exact Hrest | reflexivity].
      * rewrite Hheap. apply repartitioned_own. by rewrite Hpcs.
      * intros l ->. rewrite Hheap, repartitioned_own by (by rewrite Hpcs). done.
      * rewrite Hpc. apply repartitioned_fresh. by rewrite Hpcs.
Qed.

(** X9.  However the transform ends, every list object other than the
    table's own partition list is as it was.  The table's own list, the
    object the caller passed in, is as it was or has lost the first
    occurrence of one column that the schema declares [datetime64[ns]]; it
    is changed at most once, because the table then refers to a new list. *)
Theorem transform_changes_own_list_only
    (env : Env) (self : Table.t) (w : World) (pcs : list string) :
  heap w !! Table.partition_cols self = Some pcs →
  let w' := (Table._apply_transforms env self w).2 in
  (∀ l xs, l ≠ Table.partition_cols self → heap w !! l = Some xs → heap w' !! l = Some xs)
  ∧ (heap w' !! Table.partition_cols self = Some pcs
     ∨ ∃ column pcs',
         (column, datetime64) ∈ Table.schema self
         ∧ remove_first column pcs = Some pcs'
         ∧ heap w' !! Table.partition_cols self = Some pcs').
Proof.
  intros Hpcs. cbv zeta. unfold Table._apply_transforms.
  destruct (Table.transform_items env (Table.schema self) self w) as [r w'] eqn:Hrun.
  simpl. split.
  - intros l xs Hne Hl.
    rewrite (transform_items_protects env
               (λ l, l ≠ Table.partition_cols self ∧ is_Some (heap w !! l))
               _ _ _ _ _ ltac:(by intros ? [_ ?]) ltac:(by intros [? _]) Hrun l); [done |].
    split; [done | by rewrite Hl].
  - by eapply transform_items_own_list.
Qed.

(** The sample table partitioned by [date]: the caller's list loses
    [date], the empty list at address 2 stays. *)
Lemma transform_changes_own_list_only_witness :
  let w' := (Table._apply_transforms Sample.env Sample.fetched Sample.world).2 in
  heap w' !! 2%positive = Some []
  ∧ (heap w' !! 1%positive = Some ["date"]
     ∨ ∃ column pcs',
         (column, datetime64) ∈ Sample.schema
         ∧ remove_first column ["date"] = Some pcs'
         ∧ heap w' !! 1%positive = Some pcs').
Proof.
  destruct (transform_changes_own_list_only Sample.env Sample.fetched Sample.world ["date"] eq_refl)
    as [Hother Hown].
  split; [| exact Hown].
  apply Hother; [discriminate | reflexivity].
Defined.

(** ** The write *)

(** The upload, run: one request, and the outcome of the writer logged. *)
Lemma put_to_aws_run env self w df pcs :
  Table._data self = Some df →
  (Table.update_field self ≠ "" → heap w !! Table.partition_cols self = Some pcs) →
  let args := write_args env self df pcs in
  let w1 := add_call (ToParquet args)
              (add_log INFO ("Uploading " +:+ Table.name self +:+ "...") w) in
  let w2 := set_s3_keys (wr_to_parquet env args (s3_keys w)).2 w1 in
  Table._put_to_aws env self w =
    match (wr_to_parquet env args (s3_keys w)).1 with
    | Ok _ =>
        (Ok (), add_log INFO ("Finished updating " +:+ Table.name self +:+ ".") w2)
    | Raise e =>
        (Raise e, add_log ERROR ("Upload failed for " +:+ Table.name self +:+ "; "
                                 +:+ str_of_exception e) w2)
    end.
Proof.
  intros Hdf Hpcs. cbv zeta. unfold Table._put_to_aws, Table.data_of, write_args.
  rewrite Hdf. unfold bind at 1. unfold ret at 1.
  destruct (PyStr.truthy (Table.update_field self)) eqn:Huf.
  - apply truthy_nonempty in Huf. specialize (Hpcs Huf).
    unfold bind at 1. unfold bind at 1. unfold deref. rewrite Hpcs. unfold ret at 1.
    unfold Table.to_parquet. py_unfold. world_simpl.
    destruct (wr_to_parquet env _ (s3_keys w)) as [[[]|e] keys]; reflexivity.
  - unfold bind at 1. unfold ret at 1.
    unfold Table.to_parquet. py_unfold. world_simpl.
    destruct (wr_to_parquet env _ (s3_keys w)) as [[[]|e] keys]; reflexivity.
Qed.

(** An upload that returns had a frame and, with an update field, a
    list. *)
Lemma put_to_aws_ok_state env self w w' :
  Table._put_to_aws env self w = (Ok (), w') →
  ∃ df pcs,
    Table._data self = Some df
    ∧ (Table.update_field self ≠ "" → heap w !! Table.partition_cols self = Some pcs).
Proof.
  unfold Table._put_to_aws, Table.data_of. intros H.
  destruct (Table._data self) as [df|]; [| done].
  destruct (PyStr.truthy (Table.update_field self)) eqn:Huf.
  - destruct (heap w !! Table.partition_cols self) as [pcs|] eqn:Hpcs; [by exists df, pcs |].
    exfalso. revert H. unfold deref. py_unfold. by rewrite Hpcs.
  - exists df, []. split; [done |]. intros Hne%truthy_nonempty. congruence.
Qed.

Lemma transform_column_keeps_data env self column dtype w self' w' :
  Table.transform_column env self column dtype w = (Ok self', w') →
  is_Some (Table._data self) → is_Some (Table._data self').
Proof.
  unfold Table.transform_column. rewrite bind_ok. intros (pcs & w1 & _ & H).
  repeat case_match.
  - apply decompose_inv in H as (? & ? & ? & ? & ? & ? & ? & ? & _ & _ & _ & _ & _ & -> & _).
    by eexists.
  - by injection H as <- _.
  - repeat (apply bind_ok in H as (? & ? & _ & H)). injection H as <- _. by eexists.
  - repeat (apply bind_ok in H as (? & ? & _ & H)). injection H as <- _. by eexists.
Qed.

Lemma transform_items_keeps_data env items self w self' w' :
  Table.transform_items env items self w = (Ok self', w') →
  is_Some (Table._data self) → is_Some (Table._data self').
Proof.
  revert self w. induction items as [|[column dtype] rest IH]; intros self w; simpl.
  - by intros [= <- _].
  - rewrite bind_ok. intros (s1 & w1 & H1 & H2) Hsome.
    eapply IH; [exact H2 |]. by eapply transform_column_keeps_data.
Qed.

(** X10.  A refresh that returns has made exactly two requests, the
    fetch and then one write, and the write was asked to put the frame the
    table ends with at [s3://<bucket>/<s3_key>], without index and
    gzip-compressed; with an update field it is a data set write in the
    table's refresh mode, partitioned by the list the table then points
    at, and without one none of the four data set arguments is passed.
    The writer accepted that request, and the bucket is as it left it. *)
Theorem returning_refresh_requests
    (env : Env) (self : Table.t) (date : string) (w : World)
    (self' : Table.t) (w' : World) :
  Table.refresh env self date w = (Ok self', w') →
  ∃ df args,
    Table._data self' = Some df
    ∧ calls w'
      = (calls w
         ++ [if bool_decide (Table.refresh_mode self ∈ [Append; OverwritePartitions])
             then GetTable (Table.name self) true [(Table.update_field self, date)]
             else ExportTable (Table.name self) (Table.zip_name self);
             ToParquet args])%list
    ∧ pq_df args = df
    ∧ pq_path args = "s3://" +:+ AWS_BUCKET env +:+ "/" +:+ Table.s3_key self
    ∧ pq_index args = false
    ∧ pq_compression args = "gzip"
    ∧ (if PyStr.truthy (Table.update_field self)
       then pq_dataset args = Some true
            ∧ pq_mode args = Some (Table.refresh_mode self)
            ∧ pq_partition_cols args = heap w' !! Table.partition_cols self'
            ∧ pq_concurrent_partitioning args = Some true
       else pq_dataset args = None
            ∧ pq_mode args = None
            ∧ pq_partition_cols args = None
            ∧ pq_concurrent_partitioning args = None)
    ∧ wr_to_parquet env args (s3_keys w) = (Ok (), s3_keys w').
Proof.
  intros H. unfold Table.refresh in H.
  apply bind_ok in H as (s1 & w1 & Hfetch & H).
  apply bind_ok in H as (s2 & w2 & Htrans & H).
  apply bind_ok in H as ([] & w3 & Hput & [= <- <-]).
  pose proof (get_ndl_data_same_spec _ _ _ _ _ _ Hfetch) as Hs1.
  pose proof (apply_transforms_same_spec _ _ _ _ _ Htrans) as Hs2.
  pose proof (same_spec_trans _ _ _ Hs1 Hs2) as [Hname Huf _ Hkey Hmode].
  destruct (get_ndl_data_ok_requests _ _ _ _ _ _ Hfetch) as [Hcalls1 Hkeys1].
  destruct (frame_ok _ _ _ _ _ (transform_items_same_outside _ _ _) Htrans)
    as [Hkeys2 _ _ Hcalls2].
  destruct (put_to_aws_ok_state _ _ _ _ Hput) as (df & pcs & Hdf & Hpcs).
  rewrite (put_to_aws_run env s2 w2 df pcs Hdf Hpcs) in Hput.
  destruct (wr_to_parquet env (write_args env s2 df pcs) (s3_keys w2))
    as [[[]|e] keys] eqn:Hwr; simpl in Hput; [| done].
  injection Hput as <-.
  exists df, (write_args env s2 df pcs). world_simpl.
  rewrite Hcalls2, Hcalls1, <- app_assoc. simpl.
  split; [done |]. split; [done |]. split; [done |].
  split; [by rewrite Hkey |]. split; [done |]. split; [done |].
  split.
  - unfold write_args. simpl. rewrite Huf.
    destruct (PyStr.truthy (Table.update_field self)) eqn:Htruthy; [| done].
    rewrite Hmode. repeat split.
    symmetry. apply Hpcs. rewrite Huf. by apply truthy_nonempty.
  - by rewrite <- Hkeys1, <- Hkeys2.
Qed.

Lemma returning_refresh_requests_witness :
  ∃ self' w' df args,
    Table.refresh Sample.env Sample.plain "2024-03-01" Sample.world = (Ok self', w')
    ∧ Table._data self' = Some df
    ∧ calls w' = [ExportTable "DS/T2" "DS.T2.zip"; ToParquet args]
    ∧ pq_df args = df
    ∧ pq_path args = "s3://bucket/nasdaq/DS/T2/T2.parquet"
    ∧ pq_partition_cols args = None.
Proof.
  assert (∃ s' w', Table.refresh Sample.env Sample.plain "2024-03-01" Sample.world
                    = (Ok s', w')) as (s' & w' & Hrun)
    by (eexists _, _; vm_compute; reflexivity).
  destruct (returning_refresh_requests _ _ _ _ _ _ Hrun)
    as (df & args & Hdf & Hcalls & Hpq & Hpath & _ & _ & Hds & _).
  exists s', w', df, args. repeat split; try done.
  by destruct Hds as (_ & _ & ? & _).
Defined.

(** X11.  Once the fetch and the transform have returned, a writer that
    refuses the request ends the refresh with the writer's exception:
    the request was made once, the failure is the last line of the log
    (at level error), the bucket is as the writer left it, and no list
    changed during the write. *)
Theorem failed_write_aborts_refresh
    (env : Env) (self : Table.t) (date : string) (w : World)
    (fetched : Table.t) (w1 : World) (transformed : Table.t) (w2 : World)
    (pcs : list string) (e : Exception) :
  Table._get_ndl_data env self date w = (Ok fetched, w1) →
  Table._apply_transforms env fetched w1 = (Ok transformed, w2) →
  heap w2 !! Table.partition_cols transformed = Some pcs →
  (∀ args, (wr_to_parquet env args (s3_keys w2)).1 = Raise e) →
  ∃ w' args,
    Table.refresh env self date w = (Raise e, w')
    ∧ last (logs w')
      = Some (ERROR, "Upload failed for " +:+ Table.name self +:+ "; "
                     +:+ str_of_exception e)
    ∧ calls w' = (calls w2 ++ [ToParquet args])%list
    ∧ s3_keys w' = (wr_to_parquet env args (s3_keys w2)).2
    ∧ heap w' = heap w2.
Proof.
  intros Hfetch Htrans Hpcs Hwr.
  pose proof (get_ndl_data_same_spec _ _ _ _ _ _ Hfetch) as Hs1.
  pose proof (apply_transforms_same_spec _ _ _ _ _ Htrans) as Hs2.
  pose proof (same_spec_trans _ _ _ Hs1 Hs2) as [Hname _ _ _ _].
  assert (is_Some (Table._data transformed)) as [df Hdf].
  { eapply transform_items_keeps_data; [exact Htrans |].
    apply get_ndl_data_set_data in Hfetch as (df1 & ->). by eexists. }
  pose proof (put_to_aws_run env transformed w2 df pcs Hdf (λ _, Hpcs)) as Hput.
  cbv zeta in Hput. rewrite Hwr, Hname in Hput.
  eexists _, (write_args env transformed df pcs). split.
  { unfold Table.refresh.
    rewrite (bind_run _ _ _ _ _ Hfetch), (bind_run _ _ _ _ _ Htrans).
    by rewrite (bind_raise _ _ _ _ _ Hput). }
  world_simpl. by rewrite last_snoc.
Qed.

Lemma failed_write_aborts_refresh_witness :
  ∃ w' args,
    Table.refresh Sample.env_no_write Sample.plain "2024-03-01" Sample.world
      = (Raise (ClientError "AccessDenied"), w')
    ∧ last (logs w') = Some (ERROR, "Upload failed for DS/T2; AccessDenied")
    ∧ calls w' = [ExportTable "DS/T2" "DS.T2.zip"; ToParquet args].
Proof.
  assert (∃ s1 w1, Table._get_ndl_data Sample.env_no_write Sample.plain "2024-03-01"
                     Sample.world = (Ok s1, w1)
                   ∧ calls w1 = [ExportTable "DS/T2" "DS.T2.zip"]
                   ∧ ∃ s2 w2, Table._apply_transforms Sample.env_no_write s1 w1 = (Ok s2, w2)
                              ∧ calls w2 = calls w1
                              ∧ heap w2 !! Table.partition_cols s2 = Some [])
    as (s1 & w1 & Hfetch & Hc1 & s2 & w2 & Htrans & Hc2 & Hpcs)
    by (eexists _, _; split; [vm_compute; reflexivity |]; split; [reflexivity |];
        eexists _, _; split; [vm_compute; reflexivity |]; split; reflexivity).
  destruct (failed_write_aborts_refresh Sample.env_no_write Sample.plain "2024-03-01"
              Sample.world s1 w1 s2 w2 [] (ClientError "AccessDenied")
              Hfetch Htrans Hpcs (λ _, eq_refl))
    as (w' & args & Hrun & Hlog & Hcalls & _).
  exists w', args. split; [exact Hrun |]. split; [exact Hlog |].
  by rewrite Hcalls, Hc2, Hc1.
Defined.

(** ** The working directory over a whole update *)

Global Instance no_new_file_preorder : PreOrder no_new_file.
Proof.
  split; unfold no_new_file.
  - by intros w.
  - intros w1 w2 w3 H12 H23. by etrans.
Qed.

Lemma list_objects_same_files bucket prefix n :
  frame same_files (s3_list_objects bucket prefix n).
Proof. unfold s3_list_objects. frame_steps; done. Qed.

Lemma post_init_same_files env name update_field partition_cols schema :
  frame same_files (Table.__post_init__ env name update_field partition_cols schema).
Proof.
  unfold Table.__post_init__. frame_steps; try done.
  all: apply list_objects_same_files.
Qed.

(** The key of a table of a data set can always be derived. *)
Lemma derive_s3_key_qualified env dataset_name table_name update_field :
  is_ok (Table.derive_s3_key env (dataset_name +:+ "/" +:+ table_name) update_field) = true.
Proof.
  unfold Table.derive_s3_key. destruct (negb _); [| done].
  pose proof (split_second PyStr.slash (dataset_name +:+ "/" +:+ table_name)) as Hsecond.
  rewrite contains_app in Hsecond. simpl in Hsecond. rewrite orb_true_r in Hsecond.
  by destruct (PyStr.split PyStr.slash _ !! 1%nat).
Qed.

(** One table of a data set: the working directory afterwards is the one
    before, less the table's archive when the table was fetched by
    export. *)
Lemma update_one_files env ds date table_name metadata w :
  let w' := (Dataset.update_one env ds date table_name metadata w).2 in
  (files w' = files w ∨ files w' = delete (archive_of ds table_name) (files w))
  ∧ (Dataset.update_field metadata = "" →
     files w' = delete (archive_of ds table_name) (files w)).
Proof.
  cbv zeta. unfold Dataset.update_one.
  destruct (Table.__post_init__ env (Dataset.dataset_name ds +:+ "/" +:+ table_name)
              (Dataset.update_field metadata) (Dataset.partition_cols metadata)
              (Dataset.schema metadata) w) as [[table|e] w0] eqn:Hnew.
  - rewrite (bind_run _ _ _ _ _ Hnew).
    apply post_init_inv in Hnew as (key & _ & Htable & _ & _ & Hfiles & _).
    rewrite bind_same_files_after by (intros ?; apply frame_ret, _).
    rewrite refresh_files_after_fetch, <- Hfiles.
    destruct (PyStr.truthy (Dataset.update_field metadata) && object_under w key) eqn:Hmode.
    + destruct (get_ndl_data_incremental env table date w0) as (r & w1 & -> & Hf & _);
        [by rewrite Htable |].
      cbn [snd]. rewrite Hf.
      split; [by left |]. intros Huf. rewrite Huf in Hmode. done.
    + destruct (get_ndl_data_export env table date w0) as (r & w1 & -> & Hf & _);
        [by rewrite Htable |].
      cbn [snd]. rewrite Hf, Htable. split; [by right | done].
  - rewrite (bind_raise _ _ _ _ _ Hnew). cbn [snd].
    pose proof (post_init_same_files env (Dataset.dataset_name ds +:+ "/" +:+ table_name)
                  (Dataset.update_field metadata) (Dataset.partition_cols metadata)
                  (Dataset.schema metadata) w) as Hfiles.
    rewrite Hnew in Hfiles. split; [by left |].
    intros Huf. exfalso. revert Hnew. unfold Table.__post_init__. rewrite Huf.
    pose proof (derive_s3_key_qualified env (Dataset.dataset_name ds) table_name "") as Hkey.
    destruct (Table.derive_s3_key env _ "") as [key|]; [| done]. done.
Qed.

Lemma update_guarded_files env ds date table_name metadata w :
  files (Dataset.update_guarded env ds date table_name metadata w).2
  = files (Dataset.update_one env ds date table_name metadata w).2.
Proof.
  destruct (update_guarded_outcome env ds date table_name metadata w)
    as (w' & -> & [-> | (e & w_e & -> & ->)]); done.
Qed.

(** X12.  An update of a whole data set leaves no file behind: every file
    in the working directory afterwards was there before, with the same
    content; a file that is no table's archive is still there; and the
    archive of every table without an update field is not there, whatever
    happened to that table and to the ones after it. *)
Theorem update_tables_leaves_no_file
    (env : Env) (ds : Dataset.t) (date : string) (w : World) :
  let w' := (Dataset.update_tables env ds date w).2 in
  no_new_file w w'
  ∧ (∀ path, path ∉ archive_of ds <$> (Dataset.items ds).*1 →
             files w' !! path = files w !! path)
  ∧ (∀ table_name metadata,
       (table_name, metadata) ∈ Dataset.items ds → Dataset.update_field metadata = "" →
       files w' !! archive_of ds table_name = None).
Proof.
  cbv zeta. unfold Dataset.update_tables. generalize (Dataset.items ds) as todo.
  intros todo. revert w. induction todo as [|[table_name metadata] rest IH]; intros w; simpl.
  - split; [done |]. split; [done |]. by intros ?? ?%elem_of_nil.
  - destruct (update_guarded_outcome env ds date table_name metadata w) as (w1 & Hrun & _).
    rewrite (bind_run _ _ _ _ _ Hrun).
    pose proof (update_guarded_files env ds date table_name metadata w) as Hfiles.
    rewrite Hrun in Hfiles. cbn [snd] in Hfiles.
    destruct (update_one_files env ds date table_name metadata w) as [Hone Hexport].
    cbv zeta in Hone, Hexport. rewrite <- Hfiles in Hone, Hexport.
    destruct (IH w1) as (Hsub & Hoff & Hgone).
    assert (files w1 ⊆ files w) as Hsub1.
    { destruct Hone as [-> | ->]; [done | apply delete_subseteq]. }
    split; [| split].
    + unfold no_new_file in *. by etrans.
    + intros path [Hne Hpath]%not_elem_of_cons. rewrite (Hoff _ Hpath).
      destruct Hone as [-> | ->]; [done | by rewrite lookup_delete_ne].
    + intros n m [[= -> ->] | Hin]%elem_of_cons Huf.
      * eapply lookup_weaken_None; [| exact Hsub].
        rewrite (Hexport Huf). apply lookup_delete_eq.
      * by eapply Hgone.
Qed.

(** ** The requests of a whole update *)

Lemma at_most_requests_same w w' : calls w' = calls w → at_most_requests 0 w w'.
Proof. intros H. exists []. by rewrite app_nil_r. Qed.

Lemma at_most_requests_one w w' c : calls w' = (calls w ++ [c])%list → at_most_requests 1 w w'.
Proof. intros H. by exists [c]. Qed.

Lemma at_most_requests_trans n k w1 w2 w3 :
  at_most_requests n w1 w2 → at_most_requests k w2 w3 → at_most_requests (n + k) w1 w3.
Proof.
  intros (new1 & H1 & Hn) (new2 & H2 & Hk). exists (new1 ++ new2)%list.
  rewrite H2, H1, <- app_assoc, length_app. split; [done | lia].
Qed.

Lemma at_most_requests_mono n k w w' :
  (n ≤ k)%nat → at_most_requests n w w' → at_most_requests k w w'.
Proof. intros Hle (new & H & Hn). exists new. split; [done | lia]. Qed.

Lemma post_init_requests env name update_field partition_cols schema w :
  at_most_requests 1 w
    (Table.__post_init__ env name update_field partition_cols schema w).2.
Proof.
  destruct (Table.__post_init__ env name update_field partition_cols schema w)
    as [[self|e] w'] eqn:Hnew; cbn [snd].
  - apply post_init_inv in Hnew as (key & _ & _ & _ & _ & _ & _ & Hcalls).
    destruct (PyStr.truthy update_field).
    + by eapply at_most_requests_one.
    + rewrite app_nil_r in Hcalls.
      by eapply at_most_requests_mono; [| apply at_most_requests_same]; [lia |].
  - revert Hnew. unfold Table.__post_init__.
    destruct (Table.derive_s3_key env name update_field) as [key|e0].
    2: { intros [= _ <-]. by eapply at_most_requests_mono; [| apply at_most_requests_same]; [lia |]. }
    unfold bind at 1. unfold lift at 1.
    destruct (PyStr.truthy update_field); [| done].
    destruct (s3_fault w) as [e1|] eqn:Hfault.
    + unfold bind at 1. unfold logger at 1, modify at 1. unfold try_except.
      erewrite bind_raise by (by apply list_objects_fault).
      intros [= _ <-]. by eapply at_most_requests_one.
    + unfold bind at 1. unfold logger at 1, modify at 1. unfold try_except.
      erewrite bind_run by (by apply list_objects_run).
      unfold has_Contents. simpl. by destruct (bool_decide _).
Qed.

Lemma put_to_aws_requests env self w :
  at_most_requests 1 w (Table._put_to_aws env self w).2.
Proof.
  destruct (Table._data self) as [df|] eqn:Hdf.
  2: { unfold Table._put_to_aws, Table.data_of. rewrite Hdf. cbn.
       by eapply at_most_requests_mono; [| apply at_most_requests_same]; [lia |]. }
  destruct (PyStr.truthy (Table.update_field self)) eqn:Huf.
  - destruct (heap w !! Table.partition_cols self) as [pcs|] eqn:Hpcs.
    + rewrite (put_to_aws_run env self w df pcs Hdf (λ _, Hpcs)).
      destruct (wr_to_parquet env _ _).1; by eapply at_most_requests_one.
    + unfold Table._put_to_aws, Table.data_of, deref. rewrite Hdf, Huf. py_unfold.
      rewrite Hpcs. cbn [snd].
      by eapply at_most_requests_mono; [| apply at_most_requests_same]; [lia |].
  - rewrite (put_to_aws_run env self w df [] Hdf).
    + destruct (wr_to_parquet env _ _).1; by eapply at_most_requests_one.
    + intros Hne%truthy_nonempty. congruence.
Qed.

(** A table as the constructor leaves it makes at most two requests when
    it is refreshed. *)
Lemma refresh_requests env self date w :
  Table.refresh_mode self ≠ Append →
  at_most_requests 2 w (Table.refresh env self date w).2.
Proof.
  intros Hmode. unfold Table.refresh.
  assert (at_most_requests 1 w (Table._get_ndl_data env self date w).2) as Hfetch.
  { destruct (Table.refresh_mode self) eqn:Hm; [done | |].
    - destruct (get_ndl_data_export env self date w Hm) as (r & w' & -> & _ & Hcalls & _).
      by eapply at_most_requests_one.
    - destruct (get_ndl_data_incremental env self date w Hm)
        as (r & w' & -> & _ & Hcalls & _).
      destruct (decide _).
      + rewrite app_nil_r in Hcalls.
        by eapply at_most_requests_mono; [| apply at_most_requests_same]; [lia |].
      + by eapply at_most_requests_one. }
  unfold bind at 1.
  destruct (Table._get_ndl_data env self date w) as [[s1|e] w1]; cbn [snd] in *.
  2: { eapply at_most_requests_mono; [| exact Hfetch]. lia. }
  pose proof (transform_items_same_outside env (Table.schema s1) s1 w1) as [_ _ _ Htrans].
  fold (Table._apply_transforms env s1) in Htrans.
  unfold bind at 1.
  destruct (Table._apply_transforms env s1 w1) as [[s2|e] w2]; cbn [snd] in *.
  all: assert (at_most_requests 1 w w2) as Hfetch2
         by (destruct Hfetch as (new & H & Hn); exists new; by rewrite Htrans).
  2: { eapply at_most_requests_mono; [| exact Hfetch2]. lia. }
  pose proof (put_to_aws_requests env s2 w2) as Hput.
  unfold bind. destruct (Table._put_to_aws env s2 w2) as [[[]|e] w3]; cbn [snd] in *.
  all: exact (at_most_requests_trans 1 1 _ _ _ Hfetch2 Hput).
Qed.

Lemma update_one_requests env ds date table_name metadata w :
  at_most_requests 3 w (Dataset.update_one env ds date table_name metadata w).2.
Proof.
  unfold Dataset.update_one.
  pose proof (post_init_requests env (Dataset.dataset_name ds +:+ "/" +:+ table_name)
                (Dataset.update_field metadata) (Dataset.partition_cols metadata)
                (Dataset.schema metadata) w) as Hnew.
  destruct (Table.__post_init__ env _ _ _ _ w) as [[table|e] w0] eqn:Hrun; cbn [snd] in *.
  - rewrite (bind_run _ _ _ _ _ Hrun).
    assert (Table.refresh_mode table ≠ Append) as Hmode.
    { apply post_init_inv in Hrun as (key & _ & -> & _). simpl. by destruct (_ && _). }
    pose proof (refresh_requests env table date w0 Hmode) as Hrefresh.
    unfold bind. destruct (Table.refresh env table date w0) as [[t'|e] w1]; cbn [snd] in *.
    all: exact (at_most_requests_trans 1 2 _ _ _ Hnew Hrefresh).
  - rewrite (bind_raise _ _ _ _ _ Hrun). cbn [snd].
    eapply at_most_requests_mono; [| exact Hnew]. lia.
Qed.

Lemma update_guarded_requests env ds date table_name metadata w :
  calls (Dataset.update_guarded env ds date table_name metadata w).2
  = calls (Dataset.update_one env ds date table_name metadata w).2.
Proof.
  destruct (update_guarded_outcome env ds date table_name metadata w)
    as (w' & -> & [-> | (e & w_e & -> & ->)]); done.
Qed.

(** X13.  An update of a data set keeps the requests made before it and
    adds at most three for each table, in the order of the tables: the
    listing of the constructor, the fetch and the write.  Nothing is
    retried, and a table that fails costs no more than one that does
    not. *)
Theorem update_tables_request_budget
    (env : Env) (ds : Dataset.t) (date : string) (w : World) :
  at_most_requests (3 * length (Dataset.items ds)) w
    (Dataset.update_tables env ds date w).2.
Proof.
  unfold Dataset.update_tables. generalize (Dataset.items ds) as todo.
  intros todo. revert w. induction todo as [|[table_name metadata] rest IH]; intros w; simpl.
  - by apply at_most_requests_same.
  - destruct (update_guarded_outcome env ds date table_name metadata w) as (w1 & Hrun & _).
    rewrite (bind_run _ _ _ _ _ Hrun).
    pose proof (update_guarded_requests env ds date table_name metadata w) as Hcalls.
    rewrite Hrun in Hcalls. cbn [snd] in Hcalls.
    destruct (update_one_requests env ds date table_name metadata w) as (new & Hone & Hn).
    rewrite <- Hcalls in Hone.
    eapply at_most_requests_mono;
      [| exact (at_most_requests_trans 3 _ _ _ _ (ex_intro _ new (conj Hone Hn)) (IH w1))].
    lia.
Qed.

(** ** A transform that fails *)

Lemma setitem_columns df c s0 s : getitem df c = Ok s0 → (setitem df c s).*1 = df.*1.
Proof.
  induction df as [|[c0 s1] df IH]; simpl; [done |].
  destruct (decide (c0 = c)) as [->|Hne]; [done |].
  intros H. rewrite !fmap_cons. f_equal. by apply IH.
Qed.

Lemma cast_all_missing_column env items df column :
  column ∈ items.*1 → has_column df column = false → is_ok (cast_all env items df) = false.
Proof.
  revert df. induction items as [|[c dtype] rest IH]; intros df Hin Hmiss; simpl.
  - by apply elem_of_nil in Hin.
  - destruct (getitem df c) as [col|e] eqn:Hget; [| done].
    destruct (plain_cast env dtype col) as [col'|e]; [| done].
    apply IH.
    + simpl in Hin. apply elem_of_cons in Hin as [-> | Hin]; [| done].
      apply getitem_ok_has_column in Hget. congruence.
    + unfold has_column in *. by rewrite (setitem_columns _ _ _ _ Hget).
Qed.

(** X14.  A table without partition columns whose schema declares a
    column that the fetched frame does not have cannot be refreshed: the
    transform raises, the refresh ends with that exception, and after the
    fetch nothing but the log has changed; no write is requested. *)
Theorem missing_column_fails_before_write
    (env : Env) (self : Table.t) (date : string) (w : World)
    (fetched : Table.t) (w1 : World) (df : DataFrame) (column : string) :
  Table._get_ndl_data env self date w = (Ok fetched, w1) →
  heap w1 !! Table.partition_cols fetched = Some [] →
  Table._data fetched = Some df →
  column ∈ (Table.schema fetched).*1 →
  has_column df column = false →
  ∃ e w',
    Table._apply_transforms env fetched w1 = (Raise e, w')
    ∧ Table.refresh env self date w = (Raise e, w')
    ∧ same_but_logs w1 w'.
Proof.
  intros Hfetch Hpcs Hdf Hin Hmiss.
  destruct (transform_items_unpartitioned env (Table.schema fetched) fetched df w1 Hpcs Hdf)
    as (w' & Hsame & Hrun).
  pose proof (cast_all_missing_column env _ _ _ Hin Hmiss) as Hfail.
  destruct (cast_all env (Table.schema fetched) df) as [df'|e]; [done |].
  exists e, w'. split; [exact Hrun |]. split; [| exact Hsame].
  unfold Table.refresh. rewrite (bind_run _ _ _ _ _ Hfetch).
  by rewrite (bind_raise _ _ _ _ _ Hrun).
Qed.

Lemma missing_column_fails_before_write_witness :
  ∃ e w',
    Table.refresh Sample.env
      (Table.mkTable "DS/T2" "" 2%positive [("date", datetime64); ("volume", "int64")]
         "nasdaq/DS/T2/T2.parquet" Overwrite None) "2024-03-01" Sample.world
    = (Raise e, w')
    ∧ calls w' = [ExportTable "DS/T2" "DS.T2.zip"]
    ∧ s3_keys w' = [].
Proof.
  assert (∃ s1 w1,
            Table._get_ndl_data Sample.env
              (Table.mkTable "DS/T2" "" 2%positive [("date", datetime64); ("volume", "int64")]
                 "nasdaq/DS/T2/T2.parquet" Overwrite None) "2024-03-01" Sample.world
            = (Ok s1, w1)
            ∧ heap w1 !! Table.partition_cols s1 = Some []
            ∧ Table._data s1 = Some Sample.rows
            ∧ "volume" ∈ (Table.schema s1).*1
            ∧ calls w1 = [ExportTable "DS/T2" "DS.T2.zip"]
            ∧ s3_keys w1 = [])
    as (s1 & w1 & Hfetch & Hpcs & Hdf & Hin & Hcalls & Hkeys).
  { eexists _, _. split; [vm_compute; reflexivity |].
    repeat split; try reflexivity.
    apply list_elem_of_further, list_elem_of_here. }
  destruct (missing_column_fails_before_write _ _ _ _ _ _ _ "volume"
              Hfetch Hpcs Hdf Hin eq_refl) as (e & w' & _ & Hrun & Hsame).
  exists e, w'. split; [exact Hrun |].
  by rewrite (sbl_calls _ _ Hsame), (sbl_keys _ _ Hsame).
Defined.
